(** * iib.workers.tasks.utils: a shallow embedding and its verified properties

    The Python module [iib/workers/tasks/utils.py] prepares an index-image
    build: it inspects container images with [skopeo], scopes registry
    credentials around those inspections, validates architectures and the
    distribution scope, and resolves bundles.

    Python values are embedded as the inductive type [pyval]; a raised
    exception is the [Raise] case of [result]; code with effects (child
    processes, the Docker configuration file, the inspection cache) is a
    function of an explicit [world].  A command line either does not start
    a child process or runs one that exits with a status and the bytes it
    wrote; the outputs, like the template of the Docker configuration, are
    read in text mode, as UTF-8 with the newlines translated, and a text is
    represented by its UTF-8 encoding.  Functions of the Python standard
    library and of third-party packages ([json], [hashlib], [base64], [re],
    [operator_manifest]) are parameters of the section [Utils]. *)

From Stdlib Require Import ZArith String Ascii List OrdersEx.
From stdpp Require Import gmap strings list fin_maps sorting pretty.
From Equations Require Import Equations.

#[local] Set Warnings "-register-all".
Set Default Proof Using "Type".
#[local] Open Scope string_scope.
#[local] Open Scope Z_scope.

(** ** Exceptions and results *)

(** The exception classes the module raises or lets through.  [IIBError] is
    the only class of the repository; the others are Python built-ins. *)
Inductive exn :=
| IIBError (msg : string)
| AttributeError
| KeyError
| IndexError
| TypeError
| ValueError
| JSONDecodeError
| UnicodeDecodeError
| FileNotFoundError
| FileExistsError
| PermissionError
| OSError.

#[global] Instance exn_eq_dec : EqDecision exn.
Proof. solve_decision. Defined.

Inductive result (A : Type) :=
| Ok (a : A)
| Raise (e : exn).
Arguments Ok {A} a.
Arguments Raise {A} e.

Definition rbind {A B} (r : result A) (k : A -> result B) : result B :=
  match r with
  | Ok a => k a
  | Raise e => Raise e
  end.

Definition is_raise {A} (r : result A) : bool :=
  match r with
  | Ok _ => false
  | Raise _ => true
  end.

(** [except IIBError] *)
Definition is_IIBError (e : exn) : bool :=
  match e with
  | IIBError _ => true
  | _ => false
  end.

(** [except Exception]: every exception of the model is an [Exception]. *)
Definition is_Exception (e : exn) : bool := true.

Declare Scope res_scope.
Delimit Scope res_scope with res.
Notation "x <- m ;; k" := (rbind m (fun x => k))
  (at level 100, m at next level, right associativity) : res_scope.

(** ** Python values *)

(** The three request-configuration classes. *)
Inductive request_class :=
| RequestConfig
| RequestConfigAddRm
| RequestConfigMerge.

#[global] Instance request_class_eq_dec : EqDecision request_class.
Proof. solve_decision. Defined.

(** JSON documents and the other dynamically typed values the module
    handles.  A dictionary is an association list in insertion order whose
    keys are strings or [None] (written [Some s] and [None]); numbers are
    integers.  A string is the byte string of its UTF-8 encoding.
    [PMethod] is a method or a built-in function found on an object, named
    by the attribute it was read from, and [PClass] is one of the three
    classes of the module. *)
Inductive pyval :=
| PNone
| PBool (b : bool)
| PInt (n : Z)
| PStr (s : string)
| PList (l : list pyval)
| PDict (d : list (option string * pyval))
| PMethod (name : string)
| PClass (c : request_class).

(** [bool(v)] *)
Definition py_truthy (v : pyval) : bool :=
  match v with
  | PNone => false
  | PBool b => b
  | PInt n => negb (n =? 0)
  | PStr s => negb (String.eqb s "")
  | PList l => match l with [] => false | _ => true end
  | PDict d => match d with [] => false | _ => true end
  | PMethod _ | PClass _ => true
  end.

(** Truthiness of an optional string argument ([None] and [''] are falsy). *)
Definition str_truthy (o : option string) : bool :=
  match o with
  | Some s => negb (String.eqb s "")
  | None => false
  end.

Fixpoint dict_lookup (k : option string) (d : list (option string * pyval))
  : option pyval :=
  match d with
  | [] => None
  | (k', v) :: d' => if decide (k' = k) then Some v else dict_lookup k d'
  end.

(** [d[k] = v] on a dictionary: an existing key keeps its position. *)
Fixpoint dict_set (k : option string) (v : pyval)
    (d : list (option string * pyval)) : list (option string * pyval) :=
  match d with
  | [] => [(k, v)]
  | (k', v') :: d' =>
      if decide (k' = k) then (k, v) :: d' else (k', v') :: dict_set k v d'
  end.

(** [d.update(e)] *)
Definition dict_update (d e : list (option string * pyval))
  : list (option string * pyval) :=
  fold_left (fun acc kv => dict_set (fst kv) (snd kv) acc) e d.

(** [v.get(k, default)]: only dictionaries have [get]. *)
Definition py_get (v : pyval) (k : string) (default : pyval) : result pyval :=
  match v with
  | PDict d => Ok (match dict_lookup (Some k) d with
                   | Some x => x
                   | None => default
                   end)
  | _ => Raise AttributeError
  end.

(** [v[k]] with a string key. *)
Definition py_getitem (v : pyval) (k : string) : result pyval :=
  match v with
  | PDict d => match dict_lookup (Some k) d with
               | Some x => Ok x
               | None => Raise KeyError
               end
  | _ => Raise TypeError
  end.

(** [v[0]] *)
Definition py_getitem0 (v : pyval) : result pyval :=
  match v with
  | PList (x :: _) => Ok x
  | PList [] => Raise IndexError
  | PStr (String c _) => Ok (PStr (String c ""))
  | PStr "" => Raise IndexError
  | PDict _ => Raise KeyError
  | _ => Raise TypeError
  end.

(** [v == s] for a string literal [s]. *)
Definition py_eq_str (v : pyval) (s : string) : bool :=
  match v with
  | PStr t => String.eqb t s
  | _ => false
  end.

(** [v == n] for an integer literal [n] ([True == 1] and [False == 0]). *)
Definition py_eq_int (v : pyval) (n : Z) : bool :=
  match v with
  | PInt m => m =? n
  | PBool b => (if b then 1 else 0) =? n
  | _ => false
  end.

(** [a == b] on values: lists by position, dictionaries by key, classes by
    identity, and methods by name: the module compares no method of one
    object with a method of another. *)
Fixpoint py_eq (a b : pyval) {struct a} : bool :=
  match a, b with
  | PNone, PNone => true
  | PMethod m, PMethod n => String.eqb m n
  | PClass c, PClass d => bool_decide (c = d)
  | PBool x, PBool y => Bool.eqb x y
  | PBool x, PInt n => (if x then 1 else 0) =? n
  | PInt n, PBool x => n =? (if x then 1 else 0)
  | PInt m, PInt n => m =? n
  | PStr s, PStr t => String.eqb s t
  | PList l, PList r =>
      (fix list_eq (l r : list pyval) {struct l} : bool :=
         match l, r with
         | [], [] => true
         | x :: l', y :: r' => py_eq x y && list_eq l' r'
         | _, _ => false
         end) l r
  | PDict d, PDict e =>
      (length d =? length e)%nat &&
      (fix all_in (d : list (option string * pyval)) {struct d} : bool :=
         match d with
         | [] => true
         | (k, v) :: d' =>
             match dict_lookup k e with
             | Some v' => py_eq v v'
             | None => false
             end && all_in d'
         end) d
  | _, _ => false
  end.

(** ['sep'.join(l)] on a list of strings. *)
Fixpoint join (sep : string) (l : list string) : string :=
  match l with
  | [] => ""
  | [x] => x
  | x :: l' => x ++ sep ++ join sep l'
  end.

(** [c in s] for a one-character [c]. *)
Fixpoint contains (c : ascii) (s : string) : bool :=
  match s with
  | EmptyString => false
  | String a r => if Ascii.eqb a c then true else contains c r
  end.

(** [s.split(c, 1)]: at most one split, at the first [c]. *)
Fixpoint split1 (c : ascii) (s : string) : list string :=
  match s with
  | EmptyString => [""]
  | String a r =>
      if Ascii.eqb a c then [""; r]
      else match split1 c r with
           | x :: rest => String a x :: rest
           | [] => [String a ""]
           end
  end.

(** [s.rsplit(c, 1)]: at most one split, at the last [c]. *)
Fixpoint rsplit1 (c : ascii) (s : string) : list string :=
  match s with
  | EmptyString => [""]
  | String a r =>
      if contains c r then
        match rsplit1 c r with
        | x :: rest => String a x :: rest
        | [] => [String a ""]
        end
      else if Ascii.eqb a c then [""; r]
      else [s]
  end.

(** [l[0]] on the list a split returns (it is never empty). *)
Definition first_part (l : list string) : string :=
  match l with
  | x :: _ => x
  | [] => ""
  end.

(** The double-quote character, for messages that contain it. *)
Definition dquote : string := String "034"%char "".

(** ** The world *)

(** What [subprocess.run] returns in text mode, a [CompletedProcess]: the
    exit status and the two outputs as text. *)
Record response := {
  returncode : Z;
  stdout : string;
  stderr : string
}.

(** What [subprocess.run] raises when it cannot start the child process:
    [FileNotFoundError] for a missing executable or working directory,
    [PermissionError] for one that may not be executed, [ValueError] for an
    argument with a null byte, and [OSError] for any other failure of the
    operating system. *)
Inductive launch_error :=
| NotFound
| NotPermitted
| EmbeddedNull
| OtherFailure.

Definition launch_exn (e : launch_error) : exn :=
  match e with
  | NotFound => FileNotFoundError
  | NotPermitted => PermissionError
  | EmbeddedNull => ValueError
  | OtherFailure => OSError
  end.

(** What running a command line comes to: the child process is not
    started, or it runs and exits with a status, having written the bytes
    [out] to its standard output and [err] to its standard error. *)
Inductive launch :=
| NotStarted (e : launch_error)
| Exited (status : Z) (out err : string).

(** *** Text mode *)

Definition byte_in (lo hi : N) (c : ascii) : bool :=
  ((lo <=? N_of_ascii c) && (N_of_ascii c <=? hi))%N.

(** Whether a byte string is well-formed UTF-8, as the strict decoder of
    Python accepts it: no overlong form, no surrogate, nothing above
    U+10FFFF. *)
Fixpoint utf8_valid (b : string) : bool :=
  match b with
  | EmptyString => true
  | String c0 r0 =>
      if byte_in 0 127 c0 then utf8_valid r0
      else
        match r0 with
        | EmptyString => false
        | String c1 r1 =>
            if byte_in 194 223 c0 then byte_in 128 191 c1 && utf8_valid r1
            else
              match r1 with
              | EmptyString => false
              | String c2 r2 =>
                  if byte_in 224 239 c0 then
                    (if byte_in 224 224 c0 then byte_in 160 191 c1
                     else if byte_in 237 237 c0 then byte_in 128 159 c1
                     else byte_in 128 191 c1)
                    && byte_in 128 191 c2 && utf8_valid r2
                  else
                    match r2 with
                    | EmptyString => false
                    | String c3 r3 =>
                        byte_in 240 244 c0
                        && (if byte_in 240 240 c0 then byte_in 144 191 c1
                            else if byte_in 244 244 c0 then byte_in 128 143 c1
                            else byte_in 128 191 c1)
                        && byte_in 128 191 c2 && byte_in 128 191 c3
                        && utf8_valid r3
                    end
              end
        end
  end.

(** [b.decode('utf-8')] ([None]: [UnicodeDecodeError]); the text is
    represented by its encoding, so that decoding checks and keeps the
    bytes. *)
Definition decode_utf8 (b : string) : option string :=
  if utf8_valid b then Some b else None.

(** [s.replace(CR LF, LF)]: a carriage return followed by a line feed
    becomes a line feed. *)
Fixpoint replace_crlf (s : string) : string :=
  match s with
  | EmptyString => EmptyString
  | String c r =>
      match r with
      | String d r' =>
          if Ascii.eqb c "013" && Ascii.eqb d "010"
          then String "010" (replace_crlf r')
          else String c (replace_crlf r)
      | EmptyString => String c EmptyString
      end
  end.

(** [s.replace(CR, LF)]: a carriage return becomes a line feed. *)
Fixpoint replace_cr (s : string) : string :=
  match s with
  | EmptyString => EmptyString
  | String c r => String (if Ascii.eqb c "013" then "010"%char else c) (replace_cr r)
  end.

(** [Popen._translate_newlines(data, 'utf-8', 'strict')]: how
    [subprocess.run] reads a pipe with [universal_newlines=True] and
    [encoding='utf-8']. *)
Definition translate_newlines (data : string) : option string :=
  match decode_utf8 data with
  | Some text => Some (replace_cr (replace_crlf text))
  | None => None
  end.

(** The path [~/.docker/config.json], in a home directory that belongs to
    the worker: its directory [~/.docker] does not exist, or the directory
    exists and the path is absent, a regular file, or a symbolic link.  The
    worker may read, write, remove and link what is there. *)
Inductive node :=
| NoDirectory
| Absent
| File (content : string)
| Symlink (target : string).

#[global] Instance node_eq_dec : EqDecision node.
Proof. solve_decision. Defined.

(** The key of an inspection-cache entry: operation name, positional
    arguments, and the flags [return_json] and [require_media_type]. *)
Definition cache_key : Type := string * list string * (bool * bool).

(** The state the module acts on.  [subprocess n cmd] is what running the
    command line [cmd] comes to when [n] child processes have run before,
    so that an external tool may answer differently from one call to the
    next; [spawned] counts the child processes run so far.  [docker_config]
    is the node at [~/.docker/config.json], [template] is the bytes of the
    file at [conf.iib_docker_config_template] ([None] when [os.path.exists]
    is false), and [region] is the inspection cache.  Child processes leave
    the two files alone. *)
Record world := {
  subprocess : nat -> list string -> launch;
  spawned : nat;
  docker_config : node;
  template : option string;
  region : gmap cache_key pyval
}.

Definition M (A : Type) : Type := world -> result A * world.

Definition ret {A} (a : A) : M A := fun w => (Ok a, w).

Definition raise {A} (e : exn) : M A := fun w => (Raise e, w).

Definition bind {A B} (m : M A) (k : A -> M B) : M B :=
  fun w =>
    match m w with
    | (Ok a, w') => k a w'
    | (Raise e, w') => (Raise e, w')
    end.

(** A pure, possibly raising, computation inside [M]. *)
Definition lift {A} (r : result A) : M A := fun w => (r, w).

(** [try: m finally: fin] *)
Definition try_finally {A} (m : M A) (fin : M unit) : M A :=
  fun w =>
    match m w with
    | (r, w') =>
        match fin w' with
        | (Ok _, w'') => (r, w'')
        | (Raise e, w'') => (Raise e, w'')
        end
    end.

Declare Scope M_scope.
Delimit Scope M_scope with M.
Notation "x <- m ;; k" := (bind m (fun x => k))
  (at level 100, m at next level, right associativity) : M_scope.
Notation "m ;;; k" := (bind m (fun _ => k))
  (at level 100, right associativity) : M_scope.
#[local] Open Scope M_scope.

(** [for x in l: acc = body(acc, x)] *)
Fixpoint for_each {A B} (body : B -> A -> M B) (l : list A) (acc : B) : M B :=
  match l with
  | [] => ret acc
  | x :: l' => acc' <- body acc x ;; for_each body l' acc'
  end.

(** ** Worker configuration *)

Record worker_config := {
  iib_total_attempts : Z;
  iib_skopeo_timeout : string;
  iib_docker_config_template : string
}.

Definition set_spawned (n : nat) (w : world) : world :=
  {| subprocess := subprocess w; spawned := n; docker_config := docker_config w;
     template := template w; region := region w |}.

Definition set_docker_config (c : node) (w : world) : world :=
  {| subprocess := subprocess w; spawned := spawned w; docker_config := c;
     template := template w; region := region w |}.

Definition set_region (r : gmap cache_key pyval) (w : world) : world :=
  {| subprocess := subprocess w; spawned := spawned w;
     docker_config := docker_config w; template := template w; region := r |}.

Definition set_template (t : option string) (w : world) : world :=
  {| subprocess := subprocess w; spawned := spawned w;
     docker_config := docker_config w; template := t; region := region w |}.

(** [subprocess.run(cmd, universal_newlines=True, encoding='utf-8',
    stdout=PIPE, stderr=PIPE)]: when the child process cannot be started
    the error is raised and no process has run; when it has run, its two
    outputs are decoded, the standard output first, and an output that is
    not UTF-8 raises [UnicodeDecodeError]. *)
Definition subprocess_run (cmd : list string) : M response :=
  fun w =>
    match subprocess w (spawned w) cmd with
    | NotStarted e => (Raise (launch_exn e), w)
    | Exited status out err =>
        let w' := set_spawned (S (spawned w)) w in
        match translate_newlines out, translate_newlines err with
        | Some out_text, Some err_text =>
            (Ok {| returncode := status; stdout := out_text; stderr := err_text |},
             w')
        | _, _ => (Raise UnicodeDecodeError, w')
        end
    end.

(** The dictionary [get_index_image_info] returns. *)
Record index_image_info := {
  resolved_from_index : option string;
  ocp_version : pyval;
  arches : gset string;
  resolved_distribution_scope : pyval
}.

(** A request-configuration object: its class and the values of its slots
    by name. *)
Record request_config := {
  cls : request_class;
  attrs : gmap string pyval
}.

(** The dictionary [prepare_request_for_build] returns. *)
Record build_plan := {
  plan_arches : gset string;
  plan_binary_image : string;
  plan_binary_image_resolved : string;
  plan_bundle_mapping : list (string * list string);
  plan_from_index_resolved : option string;
  plan_ocp_version : pyval;
  plan_distribution_scope : pyval;
  plan_source_from_index_resolved : option string;
  plan_source_ocp_version : pyval;
  plan_target_index_resolved : option string;
  plan_target_ocp_version : pyval
}.

(** A dictionary with string keys and values of one type, in insertion
    order. *)
Fixpoint assoc_get {V} (k : string) (d : list (string * V)) : option V :=
  match d with
  | [] => None
  | (k', v) :: d' => if String.eqb k' k then Some v else assoc_get k d'
  end.

Fixpoint assoc_set {V} (k : string) (v : V) (d : list (string * V))
  : list (string * V) :=
  match d with
  | [] => [(k, v)]
  | (k', v') :: d' =>
      if String.eqb k' k then (k, v) :: d' else (k', v') :: assoc_set k v d'
  end.

(** The order of [sorted] on strings: by character code, a prefix first. *)
Definition str_le (a b : string) : Prop := String.leb a b = true.

#[global] Instance str_le_dec (a b : string) : Decision (str_le a b).
Proof. unfold str_le. apply _. Defined.

(** ** Sample inputs *)

(** Concrete stand-ins for the configuration, the library functions and the
    external tool, on which the properties below are exercised. *)

Definition sample_conf : worker_config :=
  {| iib_total_attempts := 3;
     iib_skopeo_timeout := "300s";
     iib_docker_config_template := "/home/iib/.docker/config.json.template" |}.

Definition quoted (s : string) : string := dquote ++ s ++ dquote.

(** The raw manifest of a single image, as text and as [json.loads] reads
    it. *)
Definition sample_manifest_text : string :=
  "{" ++ quoted "schemaVersion" ++ ": 2, " ++ quoted "mediaType" ++ ": "
  ++ quoted "application/vnd.docker.distribution.manifest.v2+json" ++ "}".

Definition sample_manifest : pyval :=
  PDict [(Some "schemaVersion", PInt 2);
         (Some "mediaType",
          PStr "application/vnd.docker.distribution.manifest.v2+json")].

(** The raw manifest list of a bundle built for two platforms. *)
Definition sample_list_text : string :=
  "{" ++ quoted "schemaVersion" ++ ": 2, " ++ quoted "mediaType" ++ ": "
  ++ quoted "application/vnd.docker.distribution.manifest.list.v2+json" ++ ", "
  ++ quoted "manifests" ++ ": [{" ++ quoted "digest" ++ ": " ++ quoted "sha256:aaa"
  ++ "}, {" ++ quoted "digest" ++ ": " ++ quoted "sha256:bbb" ++ "}]}".

Definition sample_list : pyval :=
  PDict [(Some "schemaVersion", PInt 2);
         (Some "mediaType",
          PStr "application/vnd.docker.distribution.manifest.list.v2+json");
         (Some "manifests",
          PList [PDict [(Some "digest", PStr "sha256:aaa")];
                 PDict [(Some "digest", PStr "sha256:bbb")]])].

(** What [skopeo inspect --config] prints for the image. *)
Definition sample_config_text : string :=
  "{" ++ quoted "architecture" ++ ": " ++ quoted "amd64" ++ ", "
  ++ quoted "config" ++ ": {" ++ quoted "Labels" ++ ": {"
  ++ quoted "com.redhat.index.delivery.version" ++ ": " ++ quoted "v4.6" ++ "}}}".

Definition sample_config : pyval :=
  PDict [(Some "architecture", PStr "amd64");
         (Some "config",
          PDict [(Some "Labels",
                  PDict [(Some "com.redhat.index.delivery.version", PStr "v4.6")])])].

(** [json.loads] on the texts of the samples. *)
Definition sample_json_loads (s : string) : option pyval :=
  if String.eqb s sample_manifest_text then Some sample_manifest
  else if String.eqb s sample_list_text then Some sample_list
  else if String.eqb s sample_config_text then Some sample_config
  else if String.eqb s "{}" then Some (PDict [])
  else None.

(** Stand-ins for [json.dumps], [hashlib], [base64], [repr] and [re]: each
    returns one fixed value. *)
Definition sample_json_dumps (v : pyval) : string := "{}".
Definition sample_sha256 (s : string) : string := "5d41402abc4b2a76".
Definition sample_b64encode (s : string) : string := "dXNlcjpwYXNzd29yZA==".
Definition sample_repr (v : pyval) : string := "[...]".
Definition sample_splitlines (s : string) : list string := [s].
Definition sample_re_match_error (s : string) : option string := None.
Definition never_cache (args : list string) (return_json require_media_type : bool)
  : bool := false.

Definition sample_registry (image : string) : option string :=
  Some (first_part (split1 "/" image)).

Definition sample_set_request_state (request_id : Z) (state state_reason : string)
  : M unit := ret tt.

(** A registry that serves the image [quay.io/ns/image], by its tag [v1] and
    by its digest, and the bundle [quay.io/ns/bundle:v1], and knows no other
    reference. *)
Definition sample_subprocess (n : nat) (cmd : list string) : launch :=
  if bool_decide ("docker://quay.io/ns/image:v1" ∈ cmd)
     || bool_decide ("docker://quay.io/ns/image@sha256:5d41402abc4b2a76" ∈ cmd) then
    if bool_decide ("--config" ∈ cmd) then
      Exited 0 sample_config_text ""
    else Exited 0 sample_manifest_text ""
  else if bool_decide ("docker://quay.io/ns/bundle:v1" ∈ cmd) then
    Exited 0 sample_list_text ""
  else Exited 1 "" "manifest unknown".

Definition sample_world : world :=
  {| subprocess := sample_subprocess;
     spawned := 0;
     docker_config := Symlink "/home/iib/.docker/config.json.template";
     template := Some "{}";
     region := ∅ |}.

(** A worker whose Docker configuration is a plain file and that has no
    template. *)
Definition plain_file_world : world :=
  {| subprocess := sample_subprocess;
     spawned := 0;
     docker_config := File "{}";
     template := None;
     region := ∅ |}.

Definition sample_auths : pyval :=
  PDict [(Some "auths",
          PDict [(Some "quay.io", PDict [(Some "auth", PStr "dXNlcjpwYXNzd29yZA==")])])].

(** An operation that fails twice with a retried exception and then
    succeeds, on a state that counts its invocations. *)
Definition flaky (w : nat) : result nat * nat :=
  if (w <? 2)%nat then (Raise (IIBError "Failed to inspect"), S w)
  else (Ok w, S w).

(** An image that was pushed with a schema 1 manifest, for which
    [skopeo inspect] reports the digest. *)
Definition legacy_manifest_text : string :=
  "{" ++ quoted "schemaVersion" ++ ": 1}".

Definition legacy_manifest : pyval := PDict [(Some "schemaVersion", PInt 1)].

Definition legacy_inspect_text : string :=
  "{" ++ quoted "Digest" ++ ": " ++ quoted "sha256:0f3c9a" ++ "}".

Definition legacy_inspect : pyval := PDict [(Some "Digest", PStr "sha256:0f3c9a")].

(** The raw manifest list of an index image built for two architectures. *)
Definition index_list_text : string :=
  "{" ++ quoted "mediaType" ++ ": "
  ++ quoted "application/vnd.docker.distribution.manifest.list.v2+json" ++ ", "
  ++ quoted "manifests" ++ ": [{" ++ quoted "platform" ++ ": {"
  ++ quoted "architecture" ++ ": " ++ quoted "amd64" ++ "}}, {"
  ++ quoted "platform" ++ ": {" ++ quoted "architecture" ++ ": "
  ++ quoted "s390x" ++ "}}]}".

Definition index_list : pyval :=
  PDict [(Some "mediaType",
          PStr "application/vnd.docker.distribution.manifest.list.v2+json");
         (Some "manifests",
          PList [PDict [(Some "platform", PDict [(Some "architecture", PStr "amd64")])];
                 PDict [(Some "platform", PDict [(Some "architecture", PStr "s390x")])]])].

Definition extended_json_loads (s : string) : option pyval :=
  if String.eqb s legacy_manifest_text then Some legacy_manifest
  else if String.eqb s legacy_inspect_text then Some legacy_inspect
  else if String.eqb s index_list_text then Some index_list
  else sample_json_loads s.

(** The sample registry with the image [quay.io/ns/legacy:v1] and the index
    image [quay.io/ns/index:v4.6] added. *)
Definition extended_subprocess (n : nat) (cmd : list string) : launch :=
  if bool_decide ("docker://quay.io/ns/legacy:v1" ∈ cmd) then
    if bool_decide ("--raw" ∈ cmd) then
      Exited 0 legacy_manifest_text ""
    else Exited 0 legacy_inspect_text ""
  else if bool_decide ("docker://quay.io/ns/index:v4.6" ∈ cmd) then
    Exited 0 index_list_text ""
  else sample_subprocess n cmd.

Definition extended_world : world :=
  {| subprocess := extended_subprocess;
     spawned := 0;
     docker_config := Symlink "/home/iib/.docker/config.json.template";
     template := Some "{}";
     region := ∅ |}.

(** The manifest of the sample image as a registry may serve it, with the
    line ending of a text file written on Windows: the bytes the tool
    prints, and the text that [subprocess.run] makes of them. *)
Definition crlf_manifest_bytes : string :=
  "{" ++ quoted "schemaVersion" ++ ": 2," ++ String "013" (String "010" " ")
  ++ quoted "mediaType" ++ ": "
  ++ quoted "application/vnd.docker.distribution.manifest.v2+json" ++ "}".

Definition crlf_manifest_text : string :=
  "{" ++ quoted "schemaVersion" ++ ": 2," ++ String "010" " "
  ++ quoted "mediaType" ++ ": "
  ++ quoted "application/vnd.docker.distribution.manifest.v2+json" ++ "}".

Definition crlf_json_loads (s : string) : option pyval :=
  if String.eqb s crlf_manifest_text || String.eqb s crlf_manifest_bytes
  then Some sample_manifest
  else sample_json_loads s.

(** A registry that serves that manifest for every reference. *)
Definition crlf_world : world :=
  {| subprocess := fun _ _ => Exited 0 crlf_manifest_bytes "";
     spawned := 0;
     docker_config := Symlink "/home/iib/.docker/config.json.template";
     template := Some "{}";
     region := ∅ |}.

(** A worker without the directory [~/.docker], whose template is
    elsewhere. *)
Definition elsewhere_conf : worker_config :=
  {| iib_total_attempts := 3;
     iib_skopeo_timeout := "300s";
     iib_docker_config_template := "/etc/iib/docker-config.json" |}.

Definition no_directory_world : world :=
  {| subprocess := sample_subprocess;
     spawned := 0;
     docker_config := NoDirectory;
     template := Some "{}";
     region := ∅ |}.

(** A worker whose tools print a byte that is not UTF-8: the Latin-1
    encoding of an accented letter. *)
Definition latin1_world : world :=
  {| subprocess := fun _ _ => Exited 0 (String "233" "") "";
     spawned := 0;
     docker_config := Symlink "/home/iib/.docker/config.json.template";
     template := Some "{}";
     region := ∅ |}.

(** A worker on which no tool is installed. *)
Definition no_tool_world : world :=
  {| subprocess := fun _ _ => NotStarted NotFound;
     spawned := 0;
     docker_config := Symlink "/home/iib/.docker/config.json.template";
     template := Some "{}";
     region := ∅ |}.

(** A worker whose template is not a JSON document. *)
Definition broken_template_world : world :=
  {| subprocess := sample_subprocess;
     spawned := 0;
     docker_config := Symlink "/home/iib/.docker/config.json.template";
     template := Some "{auths";
     region := ∅ |}.

(** [re.match(r'^(?:Error: )(.+)$', s)] on the lines of the samples: what
    follows the prefix, when something does. *)
Definition sample_error_detail (s : string) : option string :=
  if String.prefix "Error: " s then
    let detail := String.substring 7 (String.length s - 7) s in
    if String.eqb detail "" then None else Some detail
  else None.

(** A worker on which every command fails as [opm] does. *)
Definition opm_world : world :=
  {| subprocess := fun _ _ =>
       Exited 1 "" "Error: bundle quay.io/ns/bundle:v1 is not in the index";
     spawned := 0;
     docker_config := Symlink "/home/iib/.docker/config.json.template";
     template := Some "{}";
     region := ∅ |}.

(** The binary images of a deployment, by scope and version. *)
Definition sample_binary_image_config : list (option string * pyval) :=
  [(Some "prod", PDict [(Some "v4.6", PStr "quay.io/ns/image:v1")])].

(** A request to add to the sample image as an index, for the scope
    [prod], with no binary image of its own. *)
Definition sample_request : request_config :=
  {| cls := RequestConfigAddRm;
     attrs := list_to_map
                [("_binary_image", PNone);
                 ("distribution_scope", PStr "prod");
                 ("binary_image_config", PDict sample_binary_image_config);
                 ("overwrite_from_index_token", PNone);
                 ("from_index", PStr "quay.io/ns/image:v1");
                 ("add_arches", PList [PStr "amd64"]);
                 ("bundles", PList [PStr "quay.io/ns/image:v1"]);
                 ("operators", PNone)] |}.

(** ** [retry] *)

Section Retry.
Context {W A : Type}.
(** [wait_on]: the exception class that is retried; [function]: the wrapped
    call, arguments applied, acting on a state [W]. *)
Variable wait_on : exn -> bool.
Variable function : W -> result A * W.

(** The [while True] loop of [inner], from a value of
    [remaining_attempts]: it ends because a new turn is taken only after
    the counter was decremented and is still positive. *)
Equations? retry_loop (remaining_attempts : Z) (w : W) : result A * W
  by wf (Z.to_nat remaining_attempts) lt :=
  retry_loop remaining_attempts w with function w => {
    | (Ok v, w') := (Ok v, w');
    | (Raise e, w') with wait_on e => {
      | false := (Raise e, w');
      | true with Z_le_gt_dec (remaining_attempts - 1) 0 => {
        | left _ := (Raise e, w');
        | right _ := retry_loop (remaining_attempts - 1) w' } } }.
Proof. lia. Qed.

(** [retry(attempts, wait_on)(function)] *)
Definition retry (attempts : Z) : W -> result A * W := retry_loop attempts.

(** The wrapped call with a counter of its invocations beside the state. *)
Definition counted : W * nat -> result A * (W * nat) :=
  fun '(w, n) => let '(r, w') := function w in (r, (w', S n)).

(** The outcome and the state of the [k]-th of successive invocations
    ([k] counted from 0) started in [w]. *)
Fixpoint nth_call (k : nat) (w : W) : result A * W :=
  match k with
  | O => function w
  | S k' => nth_call k' (snd (function w))
  end.

(** An invocation fails with an exception of the retried class. *)
Definition fails_retryably (r : result A * W) : Prop :=
  match fst r with
  | Raise e => wait_on e = true
  | Ok _ => False
  end.
End Retry.

(** ** The module's functions *)

Section Utils.
(** [get_worker_config()] *)
Variable conf : worker_config.
(** [json.loads] ([None]: [JSONDecodeError]) and [json.dumps]. *)
Variable json_loads : string -> option pyval.
Variable json_dumps : pyval -> string.
(** [hashlib.sha256(b).hexdigest()] *)
Variable sha256_hexdigest : string -> string.
(** [base64.b64encode] *)
Variable b64encode : string -> string.
(** [ImageName.parse(image).registry] of [operator_manifest] ([None] when
    the pull specification names no registry). *)
Variable ImageName_registry : string -> option string.
(** [repr] of a list or of a dictionary. *)
Variable py_repr : pyval -> string.
(** [str.splitlines], and the group of [re.match(r'^(?:Error: )(.+)$', msg)]
    ([None] when the line does not match). *)
Variable splitlines : string -> list string.
Variable re_match_error : string -> option string.
(** [skopeo_inspect_should_use_cache], the eligibility policy of the
    inspection cache, given the positional arguments and the two flags. *)
Variable skopeo_inspect_should_use_cache : list string -> bool -> bool -> bool.
(** [set_request_state(request_id, state, state_reason)] of
    [iib.workers.api_utils]. *)
Variable set_request_state : Z -> string -> string -> M unit.

(** [str(v)], as an f-string formats a value. *)
Definition py_str (v : pyval) : string :=
  match v with
  | PNone => "None"
  | PBool true => "True"
  | PBool false => "False"
  | PInt n => pretty n
  | PStr s => s
  | PList _ | PDict _ | PMethod _ | PClass _ => py_repr v
  end.

(** [json.loads(v)] on a value: only a string can be parsed. *)
Definition json_loads_val (v : pyval) : result pyval :=
  match v with
  | PStr s => match json_loads s with
              | Some j => Ok j
              | None => Raise JSONDecodeError
              end
  | _ => Raise TypeError
  end.

(** [v.encode('utf-8')]: strings are the byte strings of their UTF-8
    encoding. *)
Definition encode_utf8 (v : pyval) : result string :=
  match v with
  | PStr s => Ok s
  | _ => Raise AttributeError
  end.

(** [s.rstrip(c)] *)
Fixpoint rstrip (c : ascii) (s : string) : string :=
  match s with
  | EmptyString => EmptyString
  | String a r =>
      let r' := rstrip c r in
      if String.eqb r' "" && Ascii.eqb a c then "" else String a r'
  end.

(** The first line, in the given order, that [re.match] accepts. *)
Fixpoint first_error (lines : list string) : option string :=
  match lines with
  | [] => None
  | msg :: rest =>
      match re_match_error msg with
      | Some detail => Some detail
      | None => first_error rest
      end
  end.

(** [run_cmd(cmd, params, exc_msg)]; [params] only sets the working
    directory of the child process and is left out: a missing directory is
    one of the ways in which the child process is not started. *)
Definition run_cmd (cmd : list string) (exc_msg : option string) : M string :=
  let exc_msg :=
    match exc_msg with
    | Some m => if String.eqb m "" then "An unexpected error occurred" else m
    | None => "An unexpected error occurred"
    end in
  match cmd with
  | [] => raise IndexError
  | cmd0 :: _ =>
      response <- subprocess_run cmd ;;
      if negb (returncode response =? 0) then
        if String.eqb cmd0 "opm" then
          match first_error (rev (splitlines (stderr response))) with
          | Some detail => raise (IIBError (rstrip "." exc_msg ++ ": " ++ detail))
          | None => raise (IIBError exc_msg)
          end
        else raise (IIBError exc_msg)
      else ret (stdout response)
  end.

(** The first argument that starts with [docker://] gives the message. *)
Fixpoint inspect_exc_msg (args : list string) : option string :=
  match args with
  | [] => None
  | arg :: rest =>
      if String.prefix "docker://" arg then
        Some ("Failed to inspect " ++ arg
              ++ ". Make sure it exists and is accessible to IIB.")
      else inspect_exc_msg rest
  end.

(** The body of [skopeo_inspect], under its two decorators. *)
Definition skopeo_inspect_body (args : list string)
    (return_json require_media_type : bool) : M pyval :=
  let exc_msg := inspect_exc_msg args in
  let skopeo_timeout := iib_skopeo_timeout conf in
  let cmd := app ["skopeo"; "--command-timeout"; skopeo_timeout; "inspect"] args in
  output <- run_cmd cmd exc_msg ;;
  if negb return_json then ret (PStr output)
  else
    json_output <- lift (json_loads_val (PStr output)) ;;
    if require_media_type then
      media_type <- lift (py_get json_output "mediaType" PNone) ;;
      if negb (py_truthy media_type) then raise (IIBError "mediaType not found")
      else ret json_output
    else ret json_output.

(** Modelled from the spec: the decorator [dogpile_cache] of
    [iib.workers.dogpile_cache], which is not among the source files.  The
    key is the operation name, the positional arguments and the flags; the
    policy [should_use_cache_fn] is evaluated at each call and decides both
    whether a stored value may answer the call and whether a result is
    stored; only a successful result is stored. *)
Definition dogpile_cache (should_use_cache_fn : list string -> bool -> bool -> bool)
    (name : string) (func : list string -> bool -> bool -> M pyval)
    (args : list string) (return_json require_media_type : bool) : M pyval :=
  fun w =>
    let key : cache_key := (name, args, (return_json, require_media_type)) in
    if should_use_cache_fn args return_json require_media_type then
      match region w !! key with
      | Some output_cache => (Ok output_cache, w)
      | None =>
          match func args return_json require_media_type w with
          | (Ok output, w') => (Ok output, set_region (<[key := output]> (region w')) w')
          | (Raise e, w') => (Raise e, w')
          end
      end
    else func args return_json require_media_type w.

(** [skopeo_inspect(args..., return_json, require_media_type)]:
    [@retry(wait_on=IIBError)] outside [@dogpile_cache(...)]. *)
Definition skopeo_inspect (args : list string)
    (return_json require_media_type : bool) : M pyval :=
  retry is_IIBError
    (dogpile_cache skopeo_inspect_should_use_cache "skopeo_inspect"
       skopeo_inspect_body args return_json require_media_type)
    (iib_total_attempts conf).

(** [_get_container_image_name(pull_spec)] *)
Definition _get_container_image_name (pull_spec : string) : string :=
  if contains "@" pull_spec then first_part (split1 "@" pull_spec)
  else first_part (rsplit1 ":" pull_spec).

(** [get_resolved_image(pull_spec)] *)
Definition get_resolved_image (pull_spec : string) : M string :=
  let name := _get_container_image_name pull_spec in
  skopeo_output <- skopeo_inspect ["docker://" ++ pull_spec; "--raw"] false false ;;
  manifest <- lift (json_loads_val skopeo_output) ;;
  schema_version <- lift (py_get manifest "schemaVersion" PNone) ;;
  digest <-
    (if py_eq_int schema_version 2 then
       raw <- lift (encode_utf8 skopeo_output) ;;
       ret ("sha256:" ++ sha256_hexdigest raw)
     else
       inspected <- skopeo_inspect ["docker://" ++ pull_spec] true false ;;
       d <- lift (py_getitem inspected "Digest") ;;
       ret (py_str d)) ;;
  ret (name ++ "@" ++ digest).

Definition manifest_list_type : string :=
  "application/vnd.docker.distribution.manifest.list.v2+json".

Definition manifest_v2_type : string :=
  "application/vnd.docker.distribution.manifest.v2+json".

(** The message of the [IIBError] for an unsupported manifest. *)
Definition unsupported_manifest_msg (bundle_pull_spec : string)
    (media_type schema_version : pyval) : string :=
  "The pull specification of " ++ bundle_pull_spec ++ " is neither "
  ++ "a v2 manifest list nor a v2s2 manifest. Type " ++ py_str media_type
  ++ " and schema version " ++ py_str schema_version
  ++ " is not supported by IIB.".

(** The digest-pinned pull specification one turn of the loop of
    [get_resolved_bundles] computes for [bundle_pull_spec]. *)
Definition resolve_bundle (bundle_pull_spec : string) : M string :=
  skopeo_raw <- skopeo_inspect ["docker://" ++ bundle_pull_spec; "--raw"] true true ;;
  media_type <- lift (py_get skopeo_raw "mediaType" PNone) ;;
  if py_eq_str media_type manifest_list_type then
    manifests <- lift (py_getitem skopeo_raw "manifests") ;;
    first_manifest <- lift (py_getitem0 manifests) ;;
    digest <- lift (py_getitem first_manifest "digest") ;;
    let name := _get_container_image_name bundle_pull_spec in
    ret (name ++ "@" ++ py_str digest)
  else
    schema_version <- lift (py_get skopeo_raw "schemaVersion" PNone) ;;
    if py_eq_str media_type manifest_v2_type && py_eq_int schema_version 2 then
      get_resolved_image bundle_pull_spec
    else
      raise (IIBError (unsupported_manifest_msg bundle_pull_spec media_type schema_version)).

(** One turn of the loop: the resolved pull specification joins the set. *)
Definition get_resolved_bundles_body (resolved_bundles : gset string)
    (bundle_pull_spec : string) : M (gset string) :=
  resolved <- resolve_bundle bundle_pull_spec ;;
  ret ({[ resolved ]} ∪ resolved_bundles).

(** [get_resolved_bundles(bundles)]; the order of [list(a_set)] is the one
    [elements] gives. *)
Definition get_resolved_bundles (bundles : list string) : M (list string) :=
  resolved_bundles <- for_each get_resolved_bundles_body bundles ∅ ;;
  ret (elements resolved_bundles).

(** [get_bundles_from_deprecation_list(bundles, deprecation_list)] *)
Definition get_bundles_from_deprecation_list (bundles deprecation_list : list string)
  : M (list string) :=
  resolved_deprecation_list <- get_resolved_bundles deprecation_list ;;
  ret (filter (fun bundle => bundle ∈ resolved_deprecation_list) bundles).

(** *** The Docker configuration file *)

(** [os.remove(docker_config_path)] *)
Definition os_remove : M unit :=
  fun w =>
    match docker_config w with
    | NoDirectory | Absent => (Raise FileNotFoundError, w)
    | File _ | Symlink _ => (Ok tt, set_docker_config Absent w)
    end.

(** [os.symlink(target, docker_config_path)] *)
Definition os_symlink (target : string) : M unit :=
  fun w =>
    match docker_config w with
    | NoDirectory => (Raise FileNotFoundError, w)
    | Absent => (Ok tt, set_docker_config (Symlink target) w)
    | File _ | Symlink _ => (Raise FileExistsError, w)
    end.

(** [os.path.exists(conf.iib_docker_config_template)] *)
Definition template_exists : M bool :=
  fun w => (Ok (bool_decide (is_Some (template w))), w).

(** [open(conf.iib_docker_config_template, 'r').read()], in a locale whose
    encoding is UTF-8: the file is read in text mode, as the outputs of a
    child process are. *)
Definition read_template : M string :=
  fun w =>
    match template w with
    | Some content =>
        match translate_newlines content with
        | Some text => (Ok text, w)
        | None => (Raise UnicodeDecodeError, w)
        end
    | None => (Raise FileNotFoundError, w)
    end.

(** [open(docker_config_path, 'w').write(content)]: without the directory
    the file cannot be created; in the directory a missing file is created;
    a link is followed, and only a link to the template reaches a file of
    the model. *)
Definition write_docker_config (content : string) : M unit :=
  fun w =>
    match docker_config w with
    | NoDirectory => (Raise FileNotFoundError, w)
    | Absent | File _ => (Ok tt, set_docker_config (File content) w)
    | Symlink target =>
        if String.eqb target (iib_docker_config_template conf) then
          (Ok tt, set_template (Some content) w)
        else (Ok tt, w)
    end.

(** [try: m except FileNotFoundError: handler] *)
Definition except_FileNotFoundError {A} (m : M A) (handler : M A) : M A :=
  fun w =>
    match m w with
    | (Raise FileNotFoundError, w') => handler w'
    | other => other
    end.

(** [reset_docker_config()] *)
Definition reset_docker_config : M unit :=
  except_FileNotFoundError os_remove (ret tt) ;;;
  template_there <- template_exists ;;
  if (template_there : bool) then os_symlink (iib_docker_config_template conf)
  else ret tt.

(** [list(v.keys())] *)
Definition py_keys (v : pyval) : result (list (option string)) :=
  match v with
  | PDict d => Ok (map fst d)
  | _ => Raise AttributeError
  end.

(** [v.setdefault(k, default)], as a statement: the dictionary after it. *)
Definition py_setdefault (v : pyval) (k : string) (default : pyval) : result pyval :=
  match v with
  | PDict d => match dict_lookup (Some k) d with
               | Some _ => Ok v
               | None => Ok (PDict (dict_set (Some k) default d))
               end
  | _ => Raise AttributeError
  end.

(** [v[k].update(e)]: the dictionary [v] after its entry [k] was updated
    in place with the entries of the dictionary [e]. *)
Definition py_update_item (v : pyval) (k : string) (e : pyval) : result pyval :=
  (inner <- py_getitem v k ;;
   match v, inner, e with
   | PDict d, PDict i, PDict e' => Ok (PDict (dict_set (Some k) (PDict (dict_update i e')) d))
   | _, PDict _, _ => Raise TypeError
   | _, _, _ => Raise AttributeError
   end)%res.

(** The part of [set_registry_auths] that runs before [yield]. *)
Definition write_registry_auths (registry_auths : pyval) : M unit :=
  except_FileNotFoundError os_remove (ret tt) ;;;
  template_there <- template_exists ;;
  docker_cfg <-
    (if (template_there : bool) then
       content <- read_template ;;
       lift (json_loads_val (PStr content))
     else ret (PDict [])) ;;
  auths <- lift (py_get registry_auths "auths" (PDict [])) ;;
  registries <- lift (py_keys auths) ;;
  docker_cfg <- lift (py_setdefault docker_cfg "auths" (PDict [])) ;;
  docker_cfg <- lift (py_update_item docker_cfg "auths" auths) ;;
  write_docker_config (json_dumps docker_cfg).

(** [with set_registry_auths(registry_auths): body] *)
Definition set_registry_auths {A} (registry_auths : pyval) (body : M A) : M A :=
  if negb (py_truthy registry_auths) then body
  else try_finally (write_registry_auths registry_auths ;;; body) reset_docker_config.

(** [with set_registry_token(token, container_image): body] *)
Definition set_registry_token {A} (token container_image : option string)
    (body : M A) : M A :=
  match token, container_image with
  | Some tok, Some image =>
      if negb (str_truthy token) then body
      else if negb (str_truthy container_image) then body
      else
        let registry := ImageName_registry image in
        let encoded_token := b64encode tok in
        let registry_auths :=
          PDict [(Some "auths",
                  PDict [(registry, PDict [(Some "auth", PStr encoded_token)])])] in
        set_registry_auths registry_auths body
  | _, _ => body
  end.

(** *** Labels and architectures *)

(** [get_image_labels(pull_spec)] *)
Definition get_image_labels (pull_spec : string) : M pyval :=
  let full_pull_spec :=
    if String.prefix "docker://" pull_spec then pull_spec
    else "docker://" ++ pull_spec in
  inspected <- skopeo_inspect [full_pull_spec; "--config"] true false ;;
  config <- lift (py_get inspected "config" (PDict [])) ;;
  lift (py_get config "Labels" (PDict [])).

(** [get_image_label(pull_spec, label)] *)
Definition get_image_label (pull_spec label : string) : M pyval :=
  labels <- get_image_labels pull_spec ;;
  lift (py_get labels label PNone).

(** The values [for x in v] goes through. *)
Definition py_iter (v : pyval) : result (list pyval) :=
  match v with
  | PList l => Ok l
  | PDict d => Ok (map (fun kv => match fst kv with
                                  | Some k => PStr k
                                  | None => PNone
                                  end) d)
  | PStr s => Ok (map (fun c => PStr (String c "")) (list_ascii_of_string s))
  | _ => Raise TypeError
  end.

(** An element of a set of architectures or a key of the bundle mapping:
    image configurations give strings there, and the model raises
    [TypeError] on a value of another type. *)
Definition as_str (v : pyval) : result string :=
  match v with
  | PStr s => Ok s
  | _ => Raise TypeError
  end.

(** [arches.add(manifest['platform']['architecture'])] *)
Definition add_manifest_arch (arches : gset string) (manifest : pyval)
  : M (gset string) :=
  platform <- lift (py_getitem manifest "platform") ;;
  architecture <- lift (py_getitem platform "architecture") ;;
  arch <- lift (as_str architecture) ;;
  ret ({[ arch ]} ∪ arches).

(** [get_image_arches(pull_spec)] *)
Definition get_image_arches (pull_spec : string) : M (gset string) :=
  skopeo_raw <- skopeo_inspect ["docker://" ++ pull_spec; "--raw"] true false ;;
  media_type <- lift (py_get skopeo_raw "mediaType" PNone) ;;
  if py_eq_str media_type manifest_list_type then
    manifests <- lift (py_getitem skopeo_raw "manifests") ;;
    entries <- lift (py_iter manifests) ;;
    for_each add_manifest_arch entries ∅
  else if py_eq_str media_type manifest_v2_type then
    skopeo_out <- skopeo_inspect ["docker://" ++ pull_spec; "--config"] true false ;;
    architecture <- lift (py_getitem skopeo_out "architecture") ;;
    arch <- lift (as_str architecture) ;;
    ret {[ arch ]}
  else
    raise (IIBError ("The pull specification of " ++ pull_spec
                     ++ " is neither a v2 manifest list nor a v2 manifest")).

(** [a or b] on a label. *)
Definition py_or (a : pyval) (b : pyval) : pyval :=
  if py_truthy a then a else b.

(** [get_index_image_info(overwrite_from_index_token, from_index,
    default_ocp_version)]; an omitted [default_ocp_version] is [None] and
    stands for ['v4.5']. *)
Definition get_index_image_info (overwrite_from_index_token : option string)
    (from_index : option string) (default_ocp_version : option string)
  : M index_image_info :=
  let default_ocp_version := default "v4.5" default_ocp_version in
  let result :=
    {| resolved_from_index := None;
       ocp_version := PStr default_ocp_version;
       arches := ∅;
       resolved_distribution_scope := PStr "prod" |} in
  match from_index with
  | Some index =>
      if negb (str_truthy from_index) then ret result
      else
        set_registry_token overwrite_from_index_token from_index
          (from_index_resolved <- get_resolved_image index ;;
           image_arches <- get_image_arches from_index_resolved ;;
           version <- get_image_label from_index_resolved
                        "com.redhat.index.delivery.version" ;;
           scope <- get_image_label from_index_resolved
                      "com.redhat.index.delivery.distribution_scope" ;;
           ret {| resolved_from_index := Some from_index_resolved;
                  ocp_version := py_or version (PStr "v4.5");
                  arches := image_arches;
                  resolved_distribution_scope := py_or scope (PStr "prod") |})
  | None => ret result
  end.

(** *** Request configurations *)

(** [self._attrs] / [self.__slots__] of each class. *)
Definition __slots__ (c : request_class) : list string :=
  let base := ["_binary_image"; "distribution_scope"; "binary_image_config"] in
  match c with
  | RequestConfig => base
  | RequestConfigAddRm =>
      app base ["overwrite_from_index_token"; "from_index"; "add_arches";
                "bundles"; "operators"]
  | RequestConfigMerge =>
      app base ["source_from_index"; "target_index"; "overwrite_target_index_token"]
  end.

(** [c.__doc__]: the docstring of each class, as it stands in the source. *)
Definition class_doc (c : request_class) : string :=
  match c with
  | RequestConfig =>
"Request config abstract class.

    :param str _binary_image:  the pull specification of the container image
                          where the opm binary gets copied from.
    :param str distribution_scope: the scope for distribution
        of the index image, defaults to ``None``.
    :param str source_from_index: the pull specification of the container image
        containing the index that will be used
        as a base of the merged index image.
    :param str target_index: the pull specification of the container image
        containing the index whose new data will be added
        to the merged index image.
    :param dict binary_image_config: the dict of config required to
        identify the appropriate ``binary_image`` to use.
    "
  | RequestConfigAddRm =>
"Request config for add and remove operations.

    :param str overwrite_from_index_token: the token used for overwriting the input
        ``from_index`` image. This is required for
        non-privileged users to use ``overwrite_from_index``.
        The format of the token must be
        in the format " ++ dquote ++ "user:password" ++ dquote ++ ".
    :param str from_index: the pull specification of the container image
        containing the index that the index image build
        will be based from.
    :param list add_arches: the list of arches to build in addition to the
        arches ``from_index`` is currently built for;
        if ``from_index`` is ``None``, then this is used as the list of arches
        to build the index image for
    :param list bundles: the list of bundles to create the
        bundle mapping on the request
    "
  | RequestConfigMerge =>
"Request config for merge operation.

    :param str overwrite_target_index_token:  auth token used to pus index image
        when overwrite is set.
    :param str source_from_index: the pull specification of the container image
        containing the index that will be used
        as a base of the merged index image.
    :param str target_index: the pull specification of the container image
        containing the index whose new data will be added
        to the merged index image.
    "
  end.

(** The methods an instance finds on its class: those of the class body
    and those every object has from [object] (CPython 3.11). *)
Definition method_names : list string :=
  ["__init__"; "__eq__"; "binary_image";
   "__delattr__"; "__dir__"; "__format__"; "__ge__"; "__getattribute__";
   "__getstate__"; "__gt__"; "__init_subclass__"; "__le__"; "__lt__";
   "__ne__"; "__new__"; "__reduce__"; "__reduce_ex__"; "__repr__";
   "__setattr__"; "__sizeof__"; "__str__"; "__subclasshook__"].

(** What an instance of [c] finds on its class under a name that is not
    one of its slots; the classes have [__slots__], so that their
    instances have no [__dict__] and no other attribute.  [__hash__] is
    [None] because the class defines [__eq__] alone. *)
Definition class_attribute (c : request_class) (key : string) : option pyval :=
  if String.eqb key "_attrs" || String.eqb key "__slots__" then
    Some (PList (map PStr (__slots__ c)))
  else if String.eqb key "__class__" then Some (PClass c)
  else if String.eqb key "__doc__" then Some (PStr (class_doc c))
  else if String.eqb key "__module__" then Some (PStr "iib.workers.tasks.utils")
  else if String.eqb key "__hash__" then Some PNone
  else if bool_decide (key ∈ method_names) then Some (PMethod key)
  else None.

(** [setattr(self, key, val)]: a slot is set; [__class__] takes the class
    the object has and raises [TypeError] for any other value; every other
    name is read-only or unknown. *)
Definition setattr (self : request_config) (key : string) (val : pyval)
  : result request_config :=
  if bool_decide (key ∈ __slots__ (cls self)) then
    Ok {| cls := cls self; attrs := <[key := val]> (attrs self) |}
  else if String.eqb key "__class__" then
    match val with
    | PClass c => if bool_decide (c = cls self) then Ok self else Raise TypeError
    | _ => Raise TypeError
    end
  else Raise AttributeError.

(** [getattr(self, key)]: the value the object holds, or else what its
    class has under the name. *)
Definition getattr (self : request_config) (key : string) : result pyval :=
  match attrs self !! key with
  | Some v => Ok v
  | None =>
      match class_attribute (cls self) key with
      | Some v => Ok v
      | None => Raise AttributeError
      end
  end.

(** [hasattr(self, key)]: whether [getattr] finds something. *)
Definition hasattr (self : request_config) (key : string) : bool :=
  match getattr self key with
  | Ok _ => true
  | Raise _ => false
  end.

(** A pure loop that may raise. *)
Fixpoint rfold {X B} (body : B -> X -> result B) (l : list X) (acc : B) : result B :=
  match l with
  | [] => Ok acc
  | x :: l' => (acc' <- body acc x ;; rfold body l' acc')%res
  end.

(** A call of the class [c] with keywords [kwargs], which runs
    [RequestConfig.__init__(self, **kwargs)] on a new object; a keyword
    [self] clashes with the first parameter and the call raises
    [TypeError]. *)
Definition __init__ (c : request_class) (kwargs : list (string * pyval))
  : result request_config :=
  if bool_decide ("self" ∈ map fst kwargs) then Raise TypeError
  else
    (self <- rfold (fun self key => setattr self key PNone) (__slots__ c)
               {| cls := c; attrs := ∅ |} ;;
     rfold (fun self kv => setattr self (fst kv) (snd kv)) kwargs self)%res.

(** [[getattr(self, x) for x in self.__slots__]] *)
Definition slot_values (self : request_config) : result (list pyval) :=
  rfold (fun acc x => (v <- getattr self x ;; Ok (app acc [v]))%res)
    (__slots__ (cls self)) [].

(** [RequestConfig.__eq__(self, other)]: both lists of the comparison are
    read from [self]. *)
Definition __eq__ (self other : request_config) : result bool :=
  if bool_decide (cls self = cls other) then
    (mine <- slot_values self ;;
     theirs <- slot_values self ;;
     Ok (py_eq (PList mine) (PList theirs)))%res
  else Ok false.

(** [d.get(k, default)] with a key that is a value. *)
Definition py_get_key (v k fallback : pyval) : result pyval :=
  match v with
  | PDict d =>
      match k with
      | PStr s => Ok (default fallback (dict_lookup (Some s) d))
      | PNone => Ok (default fallback (dict_lookup None d))
      | PInt _ | PBool _ | PMethod _ | PClass _ => Ok fallback
      | PList _ | PDict _ => Raise TypeError
      end
  | _ => Raise AttributeError
  end.

(** [get_binary_image_from_config(ocp_version, distribution_scope,
    binary_image_config)] *)
Definition get_binary_image_from_config
    (ocp_version distribution_scope binary_image_config : pyval) : result pyval :=
  (by_scope <- py_get_key binary_image_config distribution_scope (PDict []) ;;
   binary_image <- py_get_key by_scope ocp_version PNone ;;
   if negb (py_truthy binary_image) then
     Raise (IIBError
              ("IIB does not have a configured binary_image for"
               ++ " distribution_scope : " ++ py_str distribution_scope
               ++ " and ocp_version: " ++ py_str ocp_version ++ "."
               ++ " Please specify a binary_image value in the request."))
   else Ok binary_image)%res.

(** [RequestConfig.binary_image(self, index_info, distribution_scope)] *)
Definition binary_image (self : request_config) (index_info : index_image_info)
    (distribution_scope : pyval) : result pyval :=
  (own <- getattr self "_binary_image" ;;
   if negb (py_truthy own) then
     let binary_image_ocp_version := ocp_version index_info in
     config <- getattr self "binary_image_config" ;;
     get_binary_image_from_config binary_image_ocp_version distribution_scope config
   else Ok own)%res.

(** An optional string argument given as a value: [None], or a string. *)
Definition as_opt_str (v : pyval) : result (option string) :=
  match v with
  | PNone => Ok None
  | PStr s => Ok (Some s)
  | _ => Raise TypeError
  end.

(** One turn of the loop of [get_all_index_images_info]. *)
Definition get_all_index_images_info_body (build_request_config : request_config)
    (infos : list (string * index_image_info)) (entry : string * string)
  : M (list (string * index_image_info)) :=
  let '(index, version) := entry in
  from_index <-
    lift (if negb (hasattr build_request_config index) then Ok PNone
          else getattr build_request_config index) ;;
  token <-
    lift (if hasattr build_request_config "overwrite_from_index_token"
          then getattr build_request_config "overwrite_from_index_token"
          else getattr build_request_config "overwrite_target_index_token") ;;
  token <- lift (as_opt_str token) ;;
  from_index <- lift (as_opt_str from_index) ;;
  info <- get_index_image_info token from_index (Some version) ;;
  ret (assoc_set index info infos).

(** [get_all_index_images_info(build_request_config, index_version_map)] *)
Definition get_all_index_images_info (build_request_config : request_config)
    (index_version_map : list (string * string))
  : M (list (string * index_image_info)) :=
  for_each (get_all_index_images_info_body build_request_config)
    index_version_map [].

(** [set(v)] of strings. *)
Definition py_set (v : pyval) : result (gset string) :=
  (items <- py_iter v ;;
   rfold (fun acc x => (a <- as_str x ;; Ok ({[ a ]} ∪ acc))%res) items ∅)%res.

(** [gather_index_image_arches(build_request_config, index_image_infos)] *)
Definition gather_index_image_arches (build_request_config : request_config)
    (index_image_infos : list (string * index_image_info)) : result (gset string) :=
  (add_arches <-
     (if hasattr build_request_config "add_arches"
      then getattr build_request_config "add_arches"
      else Ok (PList [])) ;;
   requested <- py_set (py_or add_arches (PList [])) ;;
   let all_arches :=
     fold_left (fun acc info => acc ∪ arches (snd info)) index_image_infos requested in
   if bool_decide (all_arches = ∅) then
     Raise (IIBError "No arches were provided to build the index image")
   else Ok all_arches)%res.

(** *** Distribution scope *)

Definition scopes : list string := ["dev"; "stage"; "prod"].

(** [l.index(x)] on a list of strings. *)
Fixpoint list_index (x : string) (l : list string) : result nat :=
  match l with
  | [] => Raise ValueError
  | y :: l' =>
      if String.eqb y x then Ok O
      else match list_index x l' with
           | Ok n => Ok (S n)
           | Raise e => Raise e
           end
  end.

(** [scopes.index(v)]: only a string can equal an element. *)
Definition scopes_index (v : pyval) : result nat :=
  match v with
  | PStr s => list_index s scopes
  | _ => Raise ValueError
  end.

(** [_validate_distribution_scope(resolved_distribution_scope,
    distribution_scope)] *)
Definition _validate_distribution_scope
    (resolved_distribution_scope distribution_scope : pyval) : result pyval :=
  if negb (py_truthy distribution_scope) then Ok resolved_distribution_scope
  else
    (requested_rank <- scopes_index distribution_scope ;;
     resolved_rank <- scopes_index resolved_distribution_scope ;;
     if (resolved_rank <? requested_rank)%nat then
       Raise (IIBError
                ("Cannot set " ++ dquote ++ "distribution_scope" ++ dquote ++ " to "
                 ++ py_str distribution_scope ++ " because from index is"
                 ++ " already set to " ++ py_str resolved_distribution_scope))
     else Ok distribution_scope)%res.

(** *** Preparing a request *)

(** [sorted(l)] on strings. *)
Definition py_sorted (l : list string) : list string := merge_sort str_le l.

(** The check of [prepare_request_for_build] that the binary image is
    built for every requested architecture. *)
Definition check_binary_image_arches (arches binary_image_arches : gset string)
  : result unit :=
  if negb (bool_decide (arches ⊆ binary_image_arches)) then
    Raise (IIBError
             ("The binary image is not available for the following arches: "
              ++ join ", " (py_sorted (elements (arches ∖ binary_image_arches)))))
  else Ok tt.

(** [index_info[name]] *)
Definition info_of (index_info : list (string * index_image_info)) (name : string)
  : result index_image_info :=
  match assoc_get name index_info with
  | Some info => Ok info
  | None => Raise KeyError
  end.

(** One turn of the loop that groups the bundles by operator package. *)
Definition bundle_mapping_body (bundle_mapping : list (string * list string))
    (bundle : string) : M (list (string * list string)) :=
  operator <- get_image_label bundle "operators.operatorframework.io.bundle.package.v1" ;;
  if py_truthy operator then
    name <- lift (as_str operator) ;;
    let so_far := default [] (assoc_get name bundle_mapping) in
    ret (assoc_set name (app so_far [bundle]) bundle_mapping)
  else ret bundle_mapping.

(** [prepare_request_for_build(request_id, build_request_config)] *)
Definition prepare_request_for_build (request_id : Z)
    (build_request_config : request_config) : M build_plan :=
  bundles <-
    lift (if hasattr build_request_config "bundles"
          then getattr build_request_config "bundles" else Ok PNone) ;;
  let bundles := match bundles with PNone => PList [] | _ => bundles end in
  set_request_state request_id "in_progress" "Resolving the container images" ;;;
  index_info <-
    get_all_index_images_info build_request_config
      [("from_index", "v4.5"); ("source_from_index", "v4.5"); ("target_index", "v4.6")] ;;
  request_arches <- lift (gather_index_image_arches build_request_config index_info) ;;
  (if bool_decide (request_arches = ∅)
   then raise (IIBError "No arches were provided to build the index image")
   else ret tt) ;;;
  from_index_info <- lift (info_of index_info "from_index") ;;
  source_given <-
    lift (if hasattr build_request_config "source_from_index"
          then (v <- getattr build_request_config "source_from_index" ;;
                Ok (py_truthy v))%res
          else Ok false) ;;
  resolved_scope <-
    (if (source_given : bool) then
       target_info <- lift (info_of index_info "target_index") ;;
       ret (resolved_distribution_scope target_info)
     else ret (resolved_distribution_scope from_index_info)) ;;
  requested_scope <- lift (getattr build_request_config "distribution_scope") ;;
  distribution_scope <- lift (_validate_distribution_scope resolved_scope requested_scope) ;;
  binary <- lift (binary_image build_request_config from_index_info distribution_scope) ;;
  binary_pull_spec <- lift (as_str binary) ;;
  binary_image_resolved <- get_resolved_image binary_pull_spec ;;
  binary_image_arches <- get_image_arches binary_image_resolved ;;
  lift (check_binary_image_arches request_arches binary_image_arches) ;;;
  bundle_items <- lift (py_iter bundles) ;;
  bundle_names <- lift (rfold (fun acc x => (b <- as_str x ;; Ok (app acc [b]))%res)
                          bundle_items []) ;;
  mapping <- for_each bundle_mapping_body bundle_names [] ;;
  source_info <- lift (info_of index_info "source_from_index") ;;
  target_info <- lift (info_of index_info "target_index") ;;
  ret {| plan_arches := request_arches;
         plan_binary_image := binary_pull_spec;
         plan_binary_image_resolved := binary_image_resolved;
         plan_bundle_mapping := mapping;
         plan_from_index_resolved := resolved_from_index from_index_info;
         plan_ocp_version := ocp_version from_index_info;
         plan_distribution_scope := distribution_scope;
         plan_source_from_index_resolved := resolved_from_index source_info;
         plan_source_ocp_version := ocp_version source_info;
         plan_target_index_resolved := resolved_from_index target_info;
         plan_target_ocp_version := ocp_version target_info |}.

(** *** Other commands *)

(** [deprecate_bundles(bundles, base_dir, binary_image, from_index,
    overwrite_target_index_token, container_tool)]; [base_dir] is the working
    directory of the child process. *)
Definition deprecate_bundles (bundles : list string)
    (base_dir binary_image from_index : string)
    (overwrite_target_index_token container_tool : option string) : M unit :=
  let cmd :=
    ["opm"; "index"; "deprecatetruncate"; "--generate";
     "--binary-image"; binary_image; "--from-index"; from_index;
     "--bundles"; join "," bundles] in
  let cmd :=
    match container_tool with
    | Some tool =>
        if str_truthy container_tool then app cmd ["--container-tool"; tool] else cmd
    | None => cmd
    end in
  set_registry_token overwrite_target_index_token (Some from_index)
    (run_cmd cmd (Some "Failed to deprecate the bundles") ;;; ret tt).

(** [podman_pull(args...)], under [@retry(wait_on=IIBError)]. *)
Definition podman_pull (args : list string) : M unit :=
  retry is_IIBError
    (run_cmd (app ["podman"; "pull"] args)
       (Some ("Failed to pull the container image " ++ join " " args)) ;;; ret tt)
    (iib_total_attempts conf).

(** [conf['iib_required_labels']] *)
Variable iib_required_labels : pyval.

(** [v.items()] *)
Definition py_items (v : pyval) : result (list (option string * pyval)) :=
  match v with
  | PDict d => Ok d
  | _ => Raise AttributeError
  end.

(** [v.get(k)] with a key of a dictionary. *)
Definition py_get_opt (v : pyval) (k : option string) : result pyval :=
  match v with
  | PDict d => Ok (default PNone (dict_lookup k d))
  | _ => Raise AttributeError
  end.

(** [str(k)] of a key. *)
Definition key_str (k : option string) : string :=
  match k with
  | Some s => s
  | None => "None"
  end.

(** The check of one required label on the labels of a bundle. *)
Definition verify_label (bundle : string) (labels : pyval)
    (required : option string * pyval) : result unit :=
  (found <- py_get_opt labels (fst required) ;;
   if negb (py_eq found (snd required)) then
     Raise (IIBError ("The bundle " ++ bundle ++ " does not have the label "
                      ++ key_str (fst required) ++ "=" ++ py_str (snd required)))
   else Ok tt)%res.

(** One turn of the loop over the bundles. *)
Definition verify_labels_body (_ : unit) (bundle : string) : M unit :=
  labels <- get_image_labels bundle ;;
  required <- lift (py_items iib_required_labels) ;;
  lift (rfold (fun _ entry => verify_label bundle labels entry) required tt).

(** [verify_labels(bundles)] *)
Definition verify_labels (bundles : list string) : M unit :=
  if negb (py_truthy iib_required_labels) then ret tt
  else for_each verify_labels_body bundles tt.

(** ** Specification-side definitions *)

(** The rank of a scope under the order dev < stage < prod. *)
Definition scope_rank (s : string) : nat :=
  if String.eqb s "dev" then 0
  else if String.eqb s "stage" then 1
  else 2.

(** [name] is the image-name part of [pull_spec]: what stands before the
    first [@]; with no [@], what stands before the last [:]; with neither,
    the whole pull specification. *)
Definition is_image_name_of (pull_spec name : string) : Prop :=
  if contains "@" pull_spec then
    exists rest, pull_spec = name ++ "@" ++ rest /\ contains "@" name = false
  else if contains ":" pull_spec then
    exists rest, pull_spec = name ++ ":" ++ rest /\ contains ":" rest = false
  else name = pull_spec.

(** The state [reset_docker_config] leaves at [~/.docker/config.json]: a
    link to the template when the template exists, nothing otherwise. *)
Definition reset_state (t : option string) : node :=
  match t with
  | Some _ => Symlink (iib_docker_config_template conf)
  | None => Absent
  end.

(** * Properties *)

(** ** Distribution scope *)

Lemma list_index_not_elem (x : string) (l : list string) :
  x ∉ l -> list_index x l = Raise ValueError.
Proof.
  induction l as [|y l IH]; intros Hx; simpl; [reflexivity|].
  apply not_elem_of_cons in Hx as [Hne Hl].
  destruct (String.eqb_spec y x) as [->|_]; [congruence|].
  now rewrite (IH Hl).
Qed.

Lemma list_index_elem (x : string) (l : list string) :
  x ∈ l -> exists n, list_index x l = Ok n.
Proof.
  induction l as [|y l IH]; intros Hx.
  - now apply elem_of_nil in Hx.
  - simpl. destruct (String.eqb_spec y x) as [->|Hne]; [now exists 0%nat|].
    apply elem_of_cons in Hx as [->|Hl]; [congruence|].
    destruct (IH Hl) as [n ->]. now exists (S n).
Qed.

Lemma scope_cases (s : string) :
  s ∈ scopes -> s = "dev" \/ s = "stage" \/ s = "prod".
Proof.
  unfold scopes. rewrite !elem_of_cons, elem_of_nil.
  intros [->|[->|[->|[]]]]; [now left|now right; left|now right; right].
Qed.

(** C5: on scopes among dev, stage and prod, [_validate_distribution_scope]
    returns the resolved scope unchanged when none is requested ([None] or
    the empty string); otherwise it fails exactly when the requested scope
    ranks above the resolved one, with an [IIBError], and returns the
    requested scope when it does not fail. *)
Theorem validate_distribution_scope_ranked (resolved requested : string) :
  resolved ∈ scopes -> requested ∈ scopes ->
  _validate_distribution_scope (PStr resolved) PNone = Ok (PStr resolved)
  /\ _validate_distribution_scope (PStr resolved) (PStr "") = Ok (PStr resolved)
  /\ (is_raise (_validate_distribution_scope (PStr resolved) (PStr requested)) = true
      <-> (scope_rank resolved < scope_rank requested)%nat)
  /\ ((scope_rank resolved < scope_rank requested)%nat ->
      exists msg, _validate_distribution_scope (PStr resolved) (PStr requested)
                  = Raise (IIBError msg))
  /\ ((scope_rank requested <= scope_rank resolved)%nat ->
      _validate_distribution_scope (PStr resolved) (PStr requested)
      = Ok (PStr requested)).
Proof.
  intros Hr Hq.
  apply scope_cases in Hr as [-> | [-> | ->]];
    apply scope_cases in Hq as [-> | [-> | ->]];
    (split; [reflexivity|]); (split; [reflexivity|]);
    (split; [vm_compute; split; intros H; (discriminate H || lia || reflexivity)|]);
    (split; [intros H; vm_compute in H; try lia; eexists; reflexivity|]);
    intros H; vm_compute in H; try lia; reflexivity.
Qed.

(** C10: with a non-empty requested scope, a requested or a resolved scope
    outside dev, stage and prod makes the ranking lookup raise [ValueError],
    which is not an [IIBError]. *)
Theorem validate_distribution_scope_unknown_scope (resolved requested : string) :
  requested <> "" ->
  requested ∉ scopes \/ resolved ∉ scopes ->
  _validate_distribution_scope (PStr resolved) (PStr requested) = Raise ValueError
  /\ is_IIBError ValueError = false.
Proof.
  intros Hne Hout. split; [|reflexivity].
  unfold _validate_distribution_scope, scopes_index, rbind, py_truthy.
  destruct (String.eqb_spec requested "") as [->|_]; [congruence|].
  cbn [negb].
  destruct (decide (requested ∈ scopes)) as [Hin|Hnin].
  - destruct Hout as [Hq|Hr]; [contradiction|].
    destruct (list_index_elem _ _ Hin) as [n ->].
    now rewrite (list_index_not_elem _ _ Hr).
  - now rewrite (list_index_not_elem _ _ Hnin).
Qed.

(** ** Image names *)

Lemma contains_app (c : ascii) (a b : string) :
  contains c (a ++ b) = contains c a || contains c b.
Proof.
  induction a as [|x a IH]; simpl; [reflexivity|].
  destruct (Ascii.eqb x c); [reflexivity|exact IH].
Qed.

Lemma split1_first (c : ascii) (s : string) :
  contains c s = true ->
  exists rest, s = first_part (split1 c s) ++ String c rest
               /\ contains c (first_part (split1 c s)) = false.
Proof.
  induction s as [|a s IH]; simpl; [discriminate|].
  destruct (Ascii.eqb_spec a c) as [->|Hne].
  - intros _. exists s. now split.
  - intros Hc. destruct (IH Hc) as (rest & Hs & Hno).
    destruct (split1 c s) as [|x l]; simpl in *.
    + exists rest. rewrite Hs at 1. split; [reflexivity|].
      now rewrite (proj2 (Ascii.eqb_neq _ _) Hne).
    + exists rest. rewrite Hs at 1. split; [reflexivity|].
      now rewrite (proj2 (Ascii.eqb_neq _ _) Hne).
Qed.

Lemma rsplit1_last (c : ascii) (s : string) :
  contains c s = true ->
  exists rest, s = first_part (rsplit1 c s) ++ String c rest
               /\ contains c rest = false.
Proof.
  induction s as [|a s IH]; simpl; [discriminate|].
  destruct (contains c s) eqn:Hc.
  - intros _. destruct (IH eq_refl) as (rest & Hs & Hno).
    destruct (rsplit1 c s) as [|x l]; simpl in *;
      exists rest; (split; [now rewrite Hs at 1|exact Hno]).
  - destruct (Ascii.eqb_spec a c) as [->|Hne]; [|discriminate].
    intros _. exists s. now split.
Qed.

Lemma rsplit1_whole (c : ascii) (s : string) :
  contains c s = false -> first_part (rsplit1 c s) = s.
Proof.
  destruct s as [|a s]; simpl; [reflexivity|].
  destruct (Ascii.eqb a c); [discriminate|].
  now intros ->.
Qed.

(** [_get_container_image_name] returns the image-name part. *)
Lemma get_container_image_name_spec (pull_spec : string) :
  is_image_name_of pull_spec (_get_container_image_name pull_spec).
Proof.
  unfold is_image_name_of, _get_container_image_name.
  destruct (contains "@" pull_spec) eqn:Hat.
  - apply split1_first in Hat as (rest & Hs & Hno). now exists rest.
  - destruct (contains ":" pull_spec) eqn:Hcolon.
    + apply rsplit1_last in Hcolon as (rest & Hs & Hno). now exists rest.
    + now apply rsplit1_whole.
Qed.

(** ** Digest resolution *)

(** When the raw inspection of a pull specification returns the text [B],
    which is what [subprocess.run] decoded from the bytes the tool printed,
    and [B] parses to a JSON object whose [schemaVersion] is 2,
    [get_resolved_image] returns the image name, [@sha256:] and the
    hexadecimal SHA-256 digest of the UTF-8 encoding of [B]; the image name
    is the part of the pull specification before [@], or before its last
    [:] when it has no [@]. *)
Theorem get_resolved_image_schema2 (pull_spec B : string) (manifest version : pyval)
    (w w' : world) :
  skopeo_inspect ["docker://" ++ pull_spec; "--raw"] false false w = (Ok (PStr B), w') ->
  json_loads B = Some manifest ->
  py_get manifest "schemaVersion" PNone = Ok version ->
  py_eq_int version 2 = true ->
  get_resolved_image pull_spec w
  = (Ok (_get_container_image_name pull_spec ++ "@sha256:" ++ sha256_hexdigest B), w')
  /\ is_image_name_of pull_spec (_get_container_image_name pull_spec).
Proof.
  intros Hraw Hparse Hget Htwo. split; [|apply get_container_image_name_spec].
  unfold get_resolved_image, bind. rewrite Hraw.
  unfold lift, json_loads_val. rewrite Hparse, Hget, Htwo.
  reflexivity.
Qed.



(** ** Deprecated bundles *)

Lemma get_resolved_image_has_at (pull_spec resolved : string) (w w' : world) :
  get_resolved_image pull_spec w = (Ok resolved, w') ->
  contains "@" resolved = true.
Proof.
  unfold get_resolved_image, bind, lift, ret. intros H.
  repeat match type of H with
         | context [match ?x with _ => _ end] => destruct x eqn:?; try discriminate H
         | context [if ?b then _ else _] => destruct b eqn:?; try discriminate H
         end;
    injection H as <- _; rewrite contains_app; simpl; apply orb_true_r.
Qed.

Lemma resolve_bundle_has_at (bundle_pull_spec resolved : string) (w w' : world) :
  resolve_bundle bundle_pull_spec w = (Ok resolved, w') ->
  contains "@" resolved = true.
Proof.
  unfold resolve_bundle, bind, lift, ret, raise. intros H.
  repeat match type of H with
         | context [match ?x with _ => _ end] => destruct x eqn:?; try discriminate H
         | context [if ?b then _ else _] => destruct b eqn:?; try discriminate H
         end;
    try (injection H as <- _; rewrite contains_app; simpl; apply orb_true_r);
    eapply get_resolved_image_has_at; eassumption.
Qed.

Lemma get_resolved_bundles_loop_has_at (bundles : list string) :
  forall (acc resolved : gset string) (w w' : world),
    for_each get_resolved_bundles_body bundles acc w = (Ok resolved, w') ->
    (forall x, x ∈ acc -> contains "@" x = true) ->
    forall x, x ∈ resolved -> contains "@" x = true.
Proof.
  induction bundles as [|b bundles IH]; intros acc resolved w w' Hrun Hacc x Hx.
  - cbn in Hrun. injection Hrun as <- _. now apply Hacc.
  - cbn [for_each] in Hrun. unfold bind at 1 in Hrun.
    unfold get_resolved_bundles_body at 1 in Hrun. unfold bind at 1 in Hrun.
    destruct (resolve_bundle b w) as [[r|e] w1] eqn:Hb; [|discriminate Hrun].
    cbn [ret] in Hrun.
    apply (IH _ _ _ _ Hrun); [|exact Hx].
    intros y Hy. apply elem_of_union in Hy as [Hy|Hy]; [|now apply Hacc].
    apply elem_of_singleton in Hy as ->. eapply resolve_bundle_has_at, Hb.
Qed.

Lemma get_resolved_bundles_has_at (bundles resolved : list string) (w w' : world) :
  get_resolved_bundles bundles w = (Ok resolved, w') ->
  forall x, x ∈ resolved -> contains "@" x = true.
Proof.
  unfold get_resolved_bundles, bind, ret. intros H x Hx.
  destruct (for_each get_resolved_bundles_body bundles ∅ w) as [[s|e] w1] eqn:Hloop;
    [|discriminate H].
  injection H as <- _. apply elem_of_elements in Hx.
  apply (get_resolved_bundles_loop_has_at _ _ _ _ _ Hloop); [|exact Hx].
  intros y Hy. now apply not_elem_of_empty in Hy.
Qed.

(** C3: when the deprecation list resolves to the digest-pinned set
    [resolved], [get_bundles_from_deprecation_list] returns the input
    bundles, in their order, whose own pull specification is a member of
    [resolved]; a bundle given by a tag reference, which has no [@], is
    never among them, whatever it resolves to. *)
Theorem get_bundles_from_deprecation_list_raw_match
    (bundles deprecation_list resolved : list string) (w w' : world) :
  get_resolved_bundles deprecation_list w = (Ok resolved, w') ->
  get_bundles_from_deprecation_list bundles deprecation_list w
  = (Ok (filter (fun bundle => bundle ∈ resolved) bundles), w')
  /\ (forall bundle, contains "@" bundle = false ->
      bundle ∉ filter (fun bundle => bundle ∈ resolved) bundles).
Proof.
  intros Hresolved. split.
  - unfold get_bundles_from_deprecation_list, bind. now rewrite Hresolved.
  - intros bundle Htag Hin. apply list_elem_of_filter in Hin as [Hmember _].
    pose proof (get_resolved_bundles_has_at _ _ _ _ Hresolved _ Hmember) as Hat.
    congruence.
Qed.

(** ** Index image information *)

(** C7: with no index reference ([None] or the empty string),
    [get_index_image_info] returns the default version (['v4.5'] when none
    is passed), the scope ['prod'], no resolved pull specification and no
    architecture, and leaves the world as it was: no child process is run
    and the Docker configuration is not touched. *)
Theorem get_index_image_info_absent (overwrite_from_index_token from_index : option string)
    (default_ocp_version : option string) (w : world) :
  str_truthy from_index = false ->
  get_index_image_info overwrite_from_index_token from_index default_ocp_version w
  = (Ok {| resolved_from_index := None;
           ocp_version := PStr (default "v4.5" default_ocp_version);
           arches := ∅;
           resolved_distribution_scope := PStr "prod" |}, w)
  /\ get_index_image_info overwrite_from_index_token from_index None w
     = (Ok {| resolved_from_index := None;
              ocp_version := PStr "v4.5";
              arches := ∅;
              resolved_distribution_scope := PStr "prod" |}, w).
Proof.
  intros Habsent. unfold get_index_image_info.
  destruct from_index as [index|]; [|now split].
  rewrite Habsent. now split.
Qed.

(** ** Architectures of the binary image *)

Lemma str_le_cases (a b : string) :
  str_le a b <-> a = b \/ String_as_OT.lt a b.
Proof.
  unfold str_le, String.leb.
  change (String.compare a b) with (String_as_OT.compare a b).
  destruct (String_as_OT.compare_spec a b) as [Heq|Hlt|Hgt];
    [split; [now left|reflexivity]|split; [now right|reflexivity]|].
  split; [discriminate|]. intros [->|Hlt].
  - now apply (StrictOrder_Irreflexive (R:=String_as_OT.lt)) in Hgt.
  - exfalso. apply (StrictOrder_Irreflexive (R:=String_as_OT.lt) a).
    now transitivity b.
Qed.

Lemma str_le_transitive : Transitive str_le.
Proof.
  intros a b c. rewrite !str_le_cases. intros [->|Hab] [->|Hbc]; auto.
  right. now transitivity b.
Qed.

Lemma str_le_total : Total str_le.
Proof. intros a b. apply String.leb_total. Qed.

(** [join] is the concatenation with a separator of the standard
    library. *)
Lemma join_concat (sep : string) (l : list string) :
  join sep l = String.concat sep l.
Proof.
  induction l as [|x l IH]; [reflexivity|].
  destruct l as [|y l]; [reflexivity|].
  cbn [join String.concat] in *. now rewrite IH.
Qed.

(** C6: the check that the binary image is built for the requested
    architectures fails exactly when some requested architecture is not one
    of the binary image's, and returns otherwise; the message of its
    [IIBError] is the fixed text followed by the architectures requested
    and not available, in sorted order and once each, separated by a comma
    and a space. *)
Theorem check_binary_image_arches_spec (arches binary_image_arches : gset string) :
  (check_binary_image_arches arches binary_image_arches = Ok tt
   <-> arches ∖ binary_image_arches = ∅)
  /\ (is_raise (check_binary_image_arches arches binary_image_arches) = true
      <-> arches ∖ binary_image_arches <> ∅)
  /\ (arches ∖ binary_image_arches <> ∅ ->
      exists missing : list string,
        check_binary_image_arches arches binary_image_arches
        = Raise (IIBError ("The binary image is not available for the following arches: "
                           ++ String.concat ", " missing))
        /\ StronglySorted (fun a b => String.leb a b = true) missing
        /\ NoDup missing
        /\ forall a, a ∈ missing <-> a ∈ arches /\ a ∉ binary_image_arches).
Proof.
  assert (Hsub : arches ⊆ binary_image_arches <-> arches ∖ binary_image_arches = ∅).
  { split; [apply subseteq_empty_difference_L|apply empty_difference_subseteq_L]. }
  unfold check_binary_image_arches. split; [|split].
  - destruct (bool_decide_reflect (arches ⊆ binary_image_arches)) as [Hyes|Hno]; simpl.
    + split; [intros _; now apply Hsub|reflexivity].
    + split; [discriminate|]. intros H. now apply Hsub in H.
  - destruct (bool_decide_reflect (arches ⊆ binary_image_arches)) as [Hyes|Hno]; simpl.
    + split; [discriminate|]. intros H. now apply Hsub in Hyes.
    + split; [|reflexivity]. intros _ H. now apply Hsub in H.
  - intros Hmissing.
    destruct (bool_decide_reflect (arches ⊆ binary_image_arches)) as [Hyes|Hno]; simpl.
    + now apply Hsub in Hyes.
    + exists (py_sorted (elements (arches ∖ binary_image_arches))).
      split; [now rewrite join_concat|]. unfold py_sorted. split; [|split].
      * apply StronglySorted_merge_sort;
          [apply str_le_transitive|apply str_le_total].
      * rewrite merge_sort_Permutation. apply NoDup_elements.
      * intros a. rewrite merge_sort_Permutation, elem_of_elements.
        apply elem_of_difference.
Qed.

(** ** Request configurations *)

(** [__eq__] reads nothing of [other] but its class. *)
Lemma request_config_eq_ignores_fields (self other other' : request_config) :
  cls other = cls other' -> __eq__ self other = __eq__ self other'.
Proof. unfold __eq__. now intros ->. Qed.

(** ** Credential scopes *)

Lemma set_docker_config_same (w : world) :
  set_docker_config (docker_config w) w = w.
Proof. now destruct w. Qed.

(** [reset_docker_config] fails only when the directory [~/.docker] is
    missing and there is a template to link; with the directory it leaves
    the reset state. *)
Lemma reset_docker_config_spec (w : world) :
  reset_docker_config w
  = match docker_config w with
    | NoDirectory =>
        (match template w with
         | Some _ => Raise FileNotFoundError
         | None => Ok tt
         end, w)
    | _ => (Ok tt, set_docker_config (reset_state (template w)) w)
    end.
Proof.
  unfold reset_docker_config, bind, except_FileNotFoundError, os_remove,
    template_exists, os_symlink, ret, reset_state.
  destruct w as [sp n dc t r]; cbn.
  destruct dc, t; reflexivity.
Qed.

(** Removing the file, a missing one included, leaves the path absent, or
    the directory missing. *)
Lemma remove_docker_config_spec (w : world) :
  except_FileNotFoundError os_remove (ret tt) w
  = (Ok tt, match docker_config w with
            | NoDirectory => w
            | _ => set_docker_config Absent w
            end).
Proof.
  unfold except_FileNotFoundError, os_remove, ret.
  destruct w as [sp n dc t r]; cbn. now destruct dc.
Qed.

(** [try: m finally: reset_docker_config()] with the directory in place
    when [m] is done: the outcome of [m], and the reset state. *)
Lemma try_finally_reset {X} (m : M X) (w w' : world) (r : result X) :
  m w = (r, w') ->
  docker_config w' <> NoDirectory ->
  try_finally m reset_docker_config w
  = (r, set_docker_config (reset_state (template w')) w').
Proof.
  intros Hm Hdir. unfold try_finally. rewrite Hm, reset_docker_config_spec.
  destruct (docker_config w'); [contradiction|reflexivity..].
Qed.

(** [m] keeps the invariant [I] of the world, whatever it returns. *)
Definition keeps {X} (I : world -> Prop) (m : M X) : Prop :=
  forall w, I w -> I (snd (m w)).

Lemma keeps_ret {X} (I : world -> Prop) (x : X) : keeps I (ret x).
Proof. now intros w Hw. Qed.

Lemma keeps_lift {X} (I : world -> Prop) (r : result X) : keeps I (lift r).
Proof. now intros w Hw. Qed.

Lemma keeps_bind {X Y} (I : world -> Prop) (m : M X) (k : X -> M Y) :
  keeps I m -> (forall x, keeps I (k x)) -> keeps I (bind m k).
Proof.
  intros Hm Hk w Hw. unfold bind. specialize (Hm w Hw).
  destruct (m w) as [[x|e] w1]; cbn [snd] in *; [now apply Hk|exact Hm].
Qed.

(** The template holds [t], and the configuration path is no link. *)
Definition template_is (t : option string) (w : world) : Prop :=
  template w = t /\ forall target, docker_config w <> Symlink target.

Lemma write_docker_config_keeps (t : option string) (content : string) :
  keeps (template_is t) (write_docker_config content).
Proof.
  intros w [Ht Hlink]. unfold write_docker_config.
  destruct (docker_config w) as [| |old|target] eqn:Hnode;
    [|now split|now split|now destruct (Hlink target)].
  split; [exact Ht|]. intros target. cbn [snd]. now rewrite Hnode.
Qed.

Lemma read_template_keeps (I : world -> Prop) : keeps I read_template.
Proof.
  intros w Hw. unfold read_template.
  destruct (template w) as [content|]; [|exact Hw].
  now destruct (translate_newlines content).
Qed.

(** The steps of [write_registry_auths] between the removal and the
    write touch nothing. *)
Lemma write_registry_auths_keeps (I : world -> Prop) (registry_auths : pyval) :
  (forall content, keeps I (write_docker_config content)) ->
  forall w,
    I (match docker_config w with
       | NoDirectory => w
       | _ => set_docker_config Absent w
       end) ->
    I (snd (write_registry_auths registry_auths w)).
Proof.
  intros Hwrite w Hw. unfold write_registry_auths. unfold bind at 1.
  rewrite remove_docker_config_spec.
  match goal with
  | |- I (snd (?m ?w0)) => cut (keeps I m); [intros Hkeeps; now apply Hkeeps|]
  end.
  apply keeps_bind; [now intros w0 Hw0|]. intros template_there.
  apply keeps_bind.
  { destruct template_there; [|apply keeps_ret].
    apply keeps_bind; [apply read_template_keeps|intros; apply keeps_lift]. }
  intros docker_cfg. repeat (apply keeps_bind; [apply keeps_lift|intros ?]).
  apply Hwrite.
Qed.

(** The part before [yield] does not touch the template. *)
Lemma write_registry_auths_template (registry_auths : pyval) (w : world) :
  template (snd (write_registry_auths registry_auths w)) = template w.
Proof.
  refine (proj1 (_ : template_is (template w) _)).
  apply write_registry_auths_keeps; [intros; apply write_docker_config_keeps|].
  unfold template_is.
  destruct (docker_config w) eqn:Hnode; cbn; (split; [reflexivity|]);
    intros ?; rewrite ?Hnode; discriminate.
Qed.

(** Nor can it create or remove the directory. *)
Lemma write_registry_auths_directory (registry_auths : pyval) (w : world) :
  docker_config (snd (write_registry_auths registry_auths w)) = NoDirectory
  <-> docker_config w = NoDirectory.
Proof.
  assert (Hwrite : forall (b : bool) content,
            keeps (fun w0 => (forall target, docker_config w0 <> Symlink target)
                             /\ (docker_config w0 = NoDirectory <-> b = true))
              (write_docker_config content)).
  { intros b content w0 [Hlink Hdir]. unfold write_docker_config.
    destruct (docker_config w0) as [| |old|target] eqn:Hnode; cbn.
    - split; [intros target; now rewrite Hnode|now rewrite Hnode].
    - split; [discriminate|]. rewrite <- Hdir. split; discriminate.
    - split; [discriminate|]. rewrite <- Hdir. split; discriminate.
    - now destruct (Hlink target). }
  pose proof (write_registry_auths_keeps _ registry_auths
                (Hwrite (bool_decide (docker_config w = NoDirectory))) w) as Hkeeps.
  cbv beta in Hkeeps. rewrite bool_decide_eq_true in Hkeeps.
  apply Hkeeps. destruct (docker_config w) eqn:Hnode; cbn.
  - split; [intros ?; now rewrite Hnode|now rewrite Hnode].
  - split; [discriminate|]. split; discriminate.
  - split; [discriminate|]. split; discriminate.
  - split; [discriminate|]. split; discriminate.
Qed.

(** With the directory [~/.docker] in place, before the scope and after
    its body, a scope with credentials ends in the reset state of the
    template it finds at its exit. *)
Lemma set_registry_auths_exit {A} (registry_auths : pyval) (body : M A) (w : world) :
  py_truthy registry_auths = true ->
  docker_config w <> NoDirectory ->
  (forall w0, docker_config w0 <> NoDirectory ->
              docker_config (snd (body w0)) <> NoDirectory) ->
  docker_config (snd (set_registry_auths registry_auths body w))
  = reset_state (template (snd (set_registry_auths registry_auths body w))).
Proof.
  intros Htruthy Hdir Hbody. unfold set_registry_auths, try_finally.
  rewrite Htruthy. cbn [negb]. unfold bind.
  pose proof (write_registry_auths_directory registry_auths w) as Hwrite.
  destruct (write_registry_auths registry_auths w) as [[[]|e] w1]; cbn [snd] in Hwrite.
  - assert (Hw1 : docker_config w1 <> NoDirectory) by (now rewrite Hwrite).
    specialize (Hbody w1 Hw1). destruct (body w1) as [r w2]. cbn [snd] in Hbody.
    rewrite reset_docker_config_spec.
    destruct (docker_config w2); [contradiction|now destruct r..].
  - assert (Hw1 : docker_config w1 <> NoDirectory) by (now rewrite Hwrite).
    rewrite reset_docker_config_spec.
    destruct (docker_config w1); [contradiction|reflexivity..].
Qed.

(** Without the directory [~/.docker] a scope with credentials raises
    before its body and changes nothing; with a template the exception is
    the [FileNotFoundError] of the link that cannot be made. *)
Lemma set_registry_auths_no_directory {A} (registry_auths : pyval) (body : M A)
    (w : world) :
  py_truthy registry_auths = true ->
  docker_config w = NoDirectory ->
  snd (set_registry_auths registry_auths body w) = w
  /\ (exists e, fst (set_registry_auths registry_auths body w) = Raise e)
  /\ (is_Some (template w) ->
      fst (set_registry_auths registry_auths body w) = Raise FileNotFoundError).
Proof.
  intros Htruthy Hdir. unfold set_registry_auths, try_finally.
  rewrite Htruthy. cbn [negb]. unfold bind.
  assert (Hwrite : exists e, write_registry_auths registry_auths w = (Raise e, w)).
  { assert (Hlift : forall X (r : result X) (k : X -> M unit),
              (forall x, exists e, k x w = (Raise e, w)) ->
              exists e, bind (lift r) k w = (Raise e, w)).
    { intros X r k Hk. unfold bind, lift. destruct r as [x|e]; [apply Hk|now exists e]. }
    unfold write_registry_auths. unfold bind at 1.
    rewrite remove_docker_config_spec, Hdir.
    unfold bind at 1. unfold template_exists.
    assert (Hrest : forall docker_cfg : pyval,
              exists e,
                (auths <- lift (py_get registry_auths "auths" (PDict [])) ;;
                 registries <- lift (py_keys auths) ;;
                 docker_cfg <- lift (py_setdefault docker_cfg "auths" (PDict [])) ;;
                 docker_cfg <- lift (py_update_item docker_cfg "auths" auths) ;;
                 write_docker_config (json_dumps docker_cfg)) w
                = (Raise e, w)).
    { intros docker_cfg. do 4 (apply Hlift; intros ?).
      unfold write_docker_config. rewrite Hdir. now eexists. }
    destruct (template w) as [content|] eqn:Htemplate.
    - rewrite bool_decide_eq_true_2 by now eexists.
      unfold bind at 1. unfold bind at 1. unfold read_template. rewrite Htemplate.
      destruct (translate_newlines content) as [text|]; [|now eexists].
      apply Hlift. exact Hrest.
    - rewrite bool_decide_eq_false_2 by now intros [x Hx].
      unfold bind at 1. unfold ret. apply Hrest. }
  destruct Hwrite as [e ->]. rewrite reset_docker_config_spec, Hdir.
  destruct (template w) as [content|]; cbn.
  - split; [reflexivity|]. split; [now eexists|reflexivity].
  - split; [reflexivity|]. split; [now eexists|]. now intros [x Hx].
Qed.

Lemma set_registry_auths_exit_template {A} (registry_auths : pyval) (body : M A)
    (w : world) :
  (forall w0, template (snd (body w0)) = template w0) ->
  template (snd (set_registry_auths registry_auths body w)) = template w.
Proof.
  intros Hbody. unfold set_registry_auths, try_finally.
  destruct (negb (py_truthy registry_auths)); [apply Hbody|].
  pose proof (write_registry_auths_template registry_auths w) as Hwrite.
  unfold bind.
  destruct (write_registry_auths registry_auths w) as [[[]|e] w1]; cbn [snd] in Hwrite.
  - specialize (Hbody w1). destruct (body w1) as [r w2]. cbn [snd] in Hbody.
    rewrite reset_docker_config_spec.
    destruct (docker_config w2); [destruct (template w2) eqn:Hthere|..];
      destruct r; cbn; congruence.
  - rewrite reset_docker_config_spec.
    destruct (docker_config w1); [destruct (template w1) eqn:Hthere|..];
      cbn; congruence.
Qed.

(** ** The retry loop, turn by turn *)

Section RetryProps.
Context {W A : Type}.
Variable wait_on : exn -> bool.
Variable function : W -> result A * W.

#[local] Abbreviation loop := (retry_loop wait_on function).
#[local] Abbreviation call := (nth_call function).
#[local] Abbreviation retryable := (fails_retryably wait_on).

(** One turn of the loop. *)
Lemma retry_loop_turn (n : Z) (w : W) :
  loop n w =
  match function w with
  | (Ok v, w') => (Ok v, w')
  | (Raise e, w') =>
      if wait_on e then
        if (n - 1 <=? 0)%Z then (Raise e, w') else loop (n - 1) w'
      else (Raise e, w')
  end.
Proof.
  rewrite retry_loop_equation_1.
  destruct (function w) as [[v|e] w']; simpl; [reflexivity|].
  destruct (wait_on e); simpl; [|reflexivity].
  destruct (Z_le_gt_dec (n - 1) 0) as [Hle|Hgt]; simpl.
  - now rewrite (proj2 (Z.leb_le _ _) Hle).
  - now rewrite (proj2 (Z.leb_gt _ _)) by lia.
Qed.

Lemma retryable_dec (r : result A * W) : {retryable r} + {~ retryable r}.
Proof.
  unfold fails_retryably. destruct (fst r) as [v|e]; [right; intros []|].
  destruct (wait_on e); [left; reflexivity|right; discriminate].
Qed.

(** The loop returns what the first invocation that is not retried
    returned: one that succeeds, one that fails outside the retried class,
    or the last one allowed. *)
Lemma retry_loop_settles (k : nat) :
  forall (n : Z) (w : W),
    (Z.of_nat k < Z.max n 1)%Z ->
    (forall i, (i < k)%nat -> retryable (call i w)) ->
    ~ retryable (call k w) \/ Z.of_nat k = (Z.max n 1 - 1)%Z ->
    loop n w = call k w.
Proof.
  induction k as [|k IH]; intros n w Hk Hbefore Hlast.
  - rewrite retry_loop_turn. cbn [nth_call] in *.
    unfold fails_retryably in Hlast.
    destruct (function w) as [[v|e] w']; [reflexivity|]. cbn [fst] in Hlast.
    destruct (wait_on e); [|reflexivity].
    destruct Hlast as [Hno|Hend]; [now destruct Hno|].
    now rewrite (proj2 (Z.leb_le _ _)) by lia.
  - rewrite retry_loop_turn.
    pose proof (Hbefore 0%nat ltac:(lia)) as Hfirst.
    assert (Hrest : forall i, (i < k)%nat -> retryable (call i (snd (function w)))).
    { intros i Hi. apply (Hbefore (S i)). lia. }
    cbn [nth_call] in Hfirst, Hlast. unfold fails_retryably in Hfirst.
    specialize (IH (n - 1)%Z (snd (function w))).
    cbn [nth_call].
    destruct (function w) as [[v|e] w']; cbn [fst snd] in *; [contradiction|].
    rewrite Hfirst. rewrite (proj2 (Z.leb_gt _ _)) by lia.
    apply IH; [lia|exact Hrest|].
    destruct Hlast as [Hno|Hend]; [now left|right; lia].
Qed.

(** Such an invocation exists among the first [max n 1]. *)
Lemma settling_call_exists (m : nat) :
  forall (w : W),
    exists k, (k <= m)%nat
      /\ (forall i, (i < k)%nat -> retryable (call i w))
      /\ (~ retryable (call k w) \/ k = m).
Proof.
  induction m as [|m IH]; intros w.
  - exists 0%nat. repeat split; [lia|intros i Hi; lia|now right].
  - destruct (retryable_dec (call 0 w)) as [Hr|Hn].
    + destruct (IH (snd (function w))) as (k & Hk & Hbefore & Hlast).
      exists (S k). repeat split; [lia| |].
      * intros [|i] Hi; [exact Hr|]. cbn [nth_call]. apply Hbefore. lia.
      * cbn [nth_call]. destruct Hlast as [Hno | ->]; [now left|now right].
    + exists 0%nat. repeat split; [lia|intros i Hi; lia|now left].
Qed.

(** Counting the invocations changes neither outcomes nor states. *)
Lemma nth_call_counted (k : nat) :
  forall (w : W) (c : nat),
    nth_call (counted function) k (w, c)
    = (fst (call k w), (snd (call k w), (c + S k)%nat)).
Proof.
  induction k as [|k IH]; intros w c; cbn [nth_call].
  - unfold counted. destruct (function w) as [r w']. cbn. f_equal. f_equal. lia.
  - unfold counted at 2. destruct (function w) as [r w']. cbn [snd].
    rewrite IH. f_equal. f_equal. lia.
Qed.

End RetryProps.

(** * Further properties *)

(** ** The retry loop as one of its invocations *)

Section RetryInvariants.
Context {W A : Type}.
Variable wait_on : exn -> bool.
Variable function : W -> result A * W.

(** A run of the loop ends with one of the first [max n 1] invocations. *)
Lemma retry_loop_is_a_call (n : Z) (w : W) :
  exists k, (k < Z.to_nat (Z.max n 1))%nat
    /\ retry_loop wait_on function n w = nth_call function k w.
Proof.
  destruct (settling_call_exists wait_on function (Z.to_nat (Z.max n 1) - 1) w)
    as (k & Hk & Hbefore & Hlast).
  exists k. split; [lia|].
  apply retry_loop_settles; [lia|exact Hbefore|].
  destruct Hlast as [Hno | ->]; [now left|right; lia].
Qed.

Lemma nth_call_keeps (I : W -> Prop) (k : nat) :
  (forall w, I w -> I (snd (function w))) ->
  forall w, I w -> I (snd (nth_call function k w)).
Proof.
  intros Hstep. induction k as [|k IH]; intros w Hw; cbn [nth_call].
  - now apply Hstep.
  - apply IH. now apply Hstep.
Qed.

Lemma nth_call_raises (Q : exn -> Prop) (k : nat) :
  (forall w e w', function w = (Raise e, w') -> Q e) ->
  forall w e w', nth_call function k w = (Raise e, w') -> Q e.
Proof.
  intros Hstep. induction k as [|k IH]; intros w e w'; cbn [nth_call].
  - apply Hstep.
  - apply IH.
Qed.

Lemma nth_call_measure (mu : W -> nat) (k : nat) :
  (forall w, mu (snd (function w)) = S (mu w)) ->
  forall w, mu (snd (nth_call function k w)) = (mu w + S k)%nat.
Proof.
  intros Hstep. induction k as [|k IH]; intros w; cbn [nth_call].
  - rewrite Hstep. lia.
  - rewrite IH, Hstep. lia.
Qed.

(** A property of the state that every invocation keeps is kept by the
    retried call. *)
Lemma retry_keeps (I : W -> Prop) (n : Z) (w : W) :
  (forall w0, I w0 -> I (snd (function w0))) ->
  I w -> I (snd (retry wait_on function n w)).
Proof.
  intros Hstep Hw. unfold retry.
  destruct (retry_loop_is_a_call n w) as (k & _ & ->).
  now apply nth_call_keeps.
Qed.

(** The retried call raises only what an invocation raises. *)
Lemma retry_raises (Q : exn -> Prop) (n : Z) (w : W) (e : exn) (w' : W) :
  (forall w0 e0 w1, function w0 = (Raise e0, w1) -> Q e0) ->
  retry wait_on function n w = (Raise e, w') -> Q e.
Proof.
  intros Hstep. unfold retry.
  destruct (retry_loop_is_a_call n w) as (k & _ & ->).
  now apply nth_call_raises.
Qed.

(** When every invocation adds one to a measure of the state, the retried
    call adds at least one and at most [max n 1]. *)
Lemma retry_measure (mu : W -> nat) (n : Z) (w : W) :
  (forall w0, mu (snd (function w0)) = S (mu w0)) ->
  (mu w < mu (snd (retry wait_on function n w))
   <= mu w + Z.to_nat (Z.max n 1))%nat.
Proof.
  intros Hstep. unfold retry.
  destruct (retry_loop_is_a_call n w) as (k & Hk & ->).
  rewrite nth_call_measure by exact Hstep. lia.
Qed.

(** X1: configured with one attempt or fewer (zero and negative counts
    included), the wrapper invokes the operation exactly once and returns or
    raises what that invocation did. *)
Theorem retry_single_attempt (N : Z) (w : W) :
  (N <= 1)%Z ->
  retry wait_on function N w = function w
  /\ snd (snd (retry wait_on (counted function) N (w, 0%nat))) = 1%nat.
Proof.
  intros HN. split.
  - apply (retry_loop_settles wait_on function 0); [lia|intros i Hi; lia|right; lia].
  - unfold retry.
    rewrite (retry_loop_settles wait_on (counted function) 0);
      [|lia|intros i Hi; lia|right; lia].
    cbn [nth_call]. unfold counted. now destruct (function w).
Qed.
End RetryInvariants.

Section RetryMeasure.
Context {W A : Type}.
Variable wait_on : exn -> bool.
Variable function : W -> result A * W.

Lemma nth_call_measure_le (mu : W -> nat) (k : nat) :
  (forall w, (mu (snd (function w)) <= S (mu w))%nat) ->
  forall w, (mu (snd (nth_call function k w)) <= mu w + S k)%nat.
Proof.
  intros Hstep. induction k as [|k IH]; intros w; cbn [nth_call].
  - specialize (Hstep w). lia.
  - specialize (IH (snd (function w))). specialize (Hstep w). lia.
Qed.

(** When an invocation adds at most one to a measure of the state, the
    retried call adds at most [max n 1]. *)
Lemma retry_measure_le (mu : W -> nat) (n : Z) (w : W) :
  (forall w0, (mu (snd (function w0)) <= S (mu w0))%nat) ->
  (mu (snd (retry wait_on function n w)) <= mu w + Z.to_nat (Z.max n 1))%nat.
Proof.
  intros Hstep. unfold retry.
  destruct (retry_loop_is_a_call wait_on function n w) as (k & Hk & ->).
  pose proof (nth_call_measure_le mu k Hstep w). lia.
Qed.

Lemma nth_call_outcome (I : W -> Prop) (P : result A * W -> Prop) (k : nat) :
  (forall w, I w -> I (snd (function w))) ->
  (forall w, I w -> P (function w)) ->
  forall w, I w -> P (nth_call function k w).
Proof.
  intros Hkeeps Hstep. induction k as [|k IH]; intros w Hw; cbn [nth_call].
  - now apply Hstep.
  - apply IH. now apply Hkeeps.
Qed.

(** What holds of every invocation made in a state that satisfies a kept
    invariant holds of the retried call. *)
Lemma retry_outcome (I : W -> Prop) (P : result A * W -> Prop) (n : Z) (w : W) :
  (forall w0, I w0 -> I (snd (function w0))) ->
  (forall w0, I w0 -> P (function w0)) ->
  I w -> P (retry wait_on function n w).
Proof.
  intros Hkeeps Hstep Hw. unfold retry.
  destruct (retry_loop_is_a_call wait_on function n w) as (k & _ & ->).
  now apply (nth_call_outcome I).
Qed.
End RetryMeasure.

(** ** External commands *)

(** The world after one more child process. *)
Definition after_spawn (w : world) : world := set_spawned (S (spawned w)) w.

(** [exc_msg or 'An unexpected error occurred'] *)
Definition failure_message (exc_msg : option string) : string :=
  match exc_msg with
  | Some m => if String.eqb m "" then "An unexpected error occurred" else m
  | None => "An unexpected error occurred"
  end.

(** One run of a command, by what running it comes to. *)
Lemma run_cmd_spec (cmd0 : string) (rest : list string)
    (exc_msg : option string) (w : world) :
  let run := run_cmd (cmd0 :: rest) exc_msg w in
  match subprocess w (spawned w) (cmd0 :: rest) with
  | NotStarted e => run = (Raise (launch_exn e), w)
  | Exited status out err =>
      snd run = after_spawn w
      /\ match translate_newlines out, translate_newlines err with
         | Some out_text, Some err_text =>
             (status = 0%Z -> fst run = Ok out_text)
             /\ (status <> 0%Z -> exists msg, fst run = Raise (IIBError msg))
             /\ (status <> 0%Z -> cmd0 <> "opm" ->
                 fst run = Raise (IIBError (failure_message exc_msg)))
         | _, _ => fst run = Raise UnicodeDecodeError
         end
  end.
Proof.
  cbv zeta. unfold run_cmd, bind, subprocess_run, after_spawn, failure_message.
  destruct (subprocess w (spawned w) (cmd0 :: rest)) as [e|status out err];
    [reflexivity|].
  destruct (translate_newlines out) as [out_text|];
    [|split; reflexivity].
  destruct (translate_newlines err) as [err_text|];
    [|split; reflexivity].
  cbn [returncode stdout stderr].
  destruct (Z.eqb_spec status 0) as [Hzero|Hnonzero]; cbn [negb].
  - repeat split; try reflexivity; intros H; contradiction.
  - destruct (String.eqb_spec cmd0 "opm") as [->|Hcmd].
    + destruct (first_error _); repeat split;
        try (intros; contradiction); intros; eauto.
    + repeat split; try (intros; contradiction); intros; eauto.
Qed.

(** X2: when the child process cannot be started, [run_cmd] raises the
    error of the launch and changes nothing; otherwise it has run exactly
    one child process and changed nothing else, and raises
    [UnicodeDecodeError] when an output is not UTF-8; with decoded outputs
    it returns the standard output, newlines translated, when the exit
    status is 0, and raises an [IIBError] when it is not, whose message for
    a command other than [opm] is the caller's, or the generic one. *)
Theorem run_cmd_outcome (cmd0 : string) (rest : list string)
    (exc_msg : option string) (w : world) :
  let run := run_cmd (cmd0 :: rest) exc_msg w in
  match subprocess w (spawned w) (cmd0 :: rest) with
  | NotStarted e => run = (Raise (launch_exn e), w)
  | Exited status out err =>
      snd run = after_spawn w
      /\ match translate_newlines out, translate_newlines err with
         | Some out_text, Some err_text =>
             (status = 0%Z -> fst run = Ok out_text)
             /\ (status <> 0%Z -> exists msg, fst run = Raise (IIBError msg))
             /\ (status <> 0%Z -> cmd0 <> "opm" ->
                 fst run = Raise (IIBError (failure_message exc_msg)))
         | _, _ => fst run = Raise UnicodeDecodeError
         end
  end.
Proof. exact (run_cmd_spec cmd0 rest exc_msg w). Qed.

(** What a run of a command other than [opm] may do, in short: nothing
    but raise the error of the launch, or run one process. *)
Lemma run_cmd_effects (cmd0 : string) (rest : list string)
    (exc_msg : option string) (w : world) :
  cmd0 <> "opm" ->
  let run := run_cmd (cmd0 :: rest) exc_msg w in
  (snd run = w /\ exists le, fst run = Raise (launch_exn le))
  \/ (snd run = after_spawn w
      /\ ((exists output, fst run = Ok output)
          \/ fst run = Raise UnicodeDecodeError
          \/ fst run = Raise (IIBError (failure_message exc_msg)))).
Proof.
  intros Hcmd. cbv zeta.
  pose proof (run_cmd_spec cmd0 rest exc_msg w) as Hrun. cbv zeta in Hrun.
  destruct (subprocess w (spawned w) (cmd0 :: rest)) as [le|status out err].
  - left. rewrite Hrun. split; [reflexivity|now exists le].
  - right. destruct Hrun as [Hstate Hrun]. split; [exact Hstate|].
    destruct (translate_newlines out) as [out_text|]; [|now right; left].
    destruct (translate_newlines err) as [err_text|]; [|now right; left].
    destruct Hrun as (Hok & _ & Hfail).
    destruct (Z.eq_dec status 0) as [Hzero|Hnonzero].
    + left. exists out_text. now apply Hok.
    + right; right. now apply Hfail.
Qed.

Lemma elem_of_rev_list {X} (x : X) (l : list X) : x ∈ rev l -> x ∈ l.
Proof. rewrite !list_elem_of_In. apply in_rev. Qed.

Lemma first_error_none (lines : list string) :
  (forall l, l ∈ lines -> re_match_error l = None) -> first_error lines = None.
Proof.
  induction lines as [|l lines IH]; intros Hnone; cbn; [reflexivity|].
  rewrite (Hnone l) by apply list_elem_of_here.
  apply IH. intros l' Hl'. apply Hnone. now apply list_elem_of_further.
Qed.

Lemma first_error_app (skipped lines : list string) :
  (forall l, l ∈ skipped -> re_match_error l = None) ->
  first_error (app skipped lines) = first_error lines.
Proof.
  induction skipped as [|l skipped IH]; intros Hnone; cbn; [reflexivity|].
  rewrite (Hnone l) by apply list_elem_of_here.
  apply IH. intros l' Hl'. apply Hnone. now apply list_elem_of_further.
Qed.

(** X3: when [opm] has run, its outputs were decoded and its exit status
    is not zero, the message of the [IIBError] is the caller's message
    without its trailing dots, a colon, and the detail of the last line of
    the standard error that matches [Error: ...]; with no such line it is
    the caller's message as it is. *)
Theorem run_cmd_opm_error (rest : list string) (msg : string) (w : world)
    (answer : response) :
  fst (subprocess_run ("opm" :: rest) w) = Ok answer ->
  returncode answer <> 0%Z ->
  msg <> "" ->
  (forall (before after : list string) (line detail : string),
     splitlines (stderr answer) = app before (line :: after) ->
     re_match_error line = Some detail ->
     (forall l, l ∈ after -> re_match_error l = None) ->
     run_cmd ("opm" :: rest) (Some msg) w
     = (Raise (IIBError (rstrip "." msg ++ ": " ++ detail)), after_spawn w))
  /\ ((forall l, l ∈ splitlines (stderr answer) -> re_match_error l = None) ->
      run_cmd ("opm" :: rest) (Some msg) w = (Raise (IIBError msg), after_spawn w)).
Proof.
  intros Hanswer Hstatus Hmsg.
  assert (Hrun : subprocess_run ("opm" :: rest) w = (Ok answer, after_spawn w)).
  { unfold subprocess_run, after_spawn in *.
    destruct (subprocess w (spawned w) ("opm" :: rest)) as [le|status out err];
      [discriminate Hanswer|].
    destruct (translate_newlines out), (translate_newlines err);
      try discriminate Hanswer.
    cbn [fst] in Hanswer. now injection Hanswer as <-. }
  unfold run_cmd, bind. rewrite Hrun.
  rewrite (proj2 (Z.eqb_neq _ _) Hstatus), (proj2 (String.eqb_neq _ _) Hmsg).
  cbn [negb String.eqb Ascii.eqb Bool.eqb]. split.
  - intros before after line detail Hlines Hline Hafter.
    rewrite Hlines, rev_app_distr. cbn [rev]. rewrite <- app_assoc.
    rewrite first_error_app.
    + cbn. now rewrite Hline.
    + intros l Hl. apply Hafter. now apply elem_of_rev_list.
  - intros Hnone. rewrite first_error_none; [reflexivity|].
    intros l Hl. apply Hnone. now apply elem_of_rev_list.
Qed.

(** [w'] differs from [w] at most by [n] more child processes and by the
    content of the inspection cache. *)
Definition only_spawns (n : nat) (w w' : world) : Prop :=
  subprocess w' = subprocess w
  /\ docker_config w' = docker_config w
  /\ template w' = template w
  /\ (spawned w <= spawned w' <= spawned w + n)%nat.

Lemma only_spawns_refl (n : nat) (w : world) : only_spawns n w w.
Proof. unfold only_spawns. repeat split; lia. Qed.

Lemma only_spawns_after_spawn (w : world) : only_spawns 1 w (after_spawn w).
Proof. unfold only_spawns, after_spawn. cbn. repeat split; lia. Qed.

Lemma only_spawns_trans (n m : nat) (w1 w2 w3 : world) :
  only_spawns n w1 w2 -> only_spawns m w2 w3 -> only_spawns (n + m) w1 w3.
Proof.
  unfold only_spawns. intros (-> & -> & -> & H1) (-> & -> & -> & H2).
  repeat split; lia.
Qed.

(** What an inspection may raise: the [IIBError] of the failed command,
    the error of a launch that did not start the tool, the decoding error
    of an output that is not UTF-8 and, when the output is parsed, the
    errors of the parse. *)
Definition inspection_error (args : list string) (return_json : bool) (e : exn)
  : Prop :=
  e = IIBError (failure_message (inspect_exc_msg args))
  \/ (exists le, e = launch_exn le)
  \/ e = UnicodeDecodeError
  \/ return_json = true
     /\ (e = JSONDecodeError \/ e = AttributeError
         \/ e = IIBError "mediaType not found").

(** The body of an inspection runs at most one child process, none when
    the tool cannot be started. *)
Lemma skopeo_inspect_body_spec (args : list string)
    (return_json require_media_type : bool) (w : world) :
  let run := skopeo_inspect_body args return_json require_media_type w in
  (snd run = w \/ snd run = after_spawn w)
  /\ forall e, fst run = Raise e -> inspection_error args return_json e.
Proof.
  cbv zeta. unfold skopeo_inspect_body, bind, inspection_error.
  pose proof (run_cmd_effects "skopeo"
                (app ["--command-timeout"; iib_skopeo_timeout conf; "inspect"] args)
                (inspect_exc_msg args) w ltac:(discriminate)) as Hrun.
  cbv zeta in Hrun. cbn [app] in *.
  destruct (run_cmd _ _ w) as [[output|e0] w1]; cbn [fst snd] in *.
  - assert (Hstate : w1 = w \/ w1 = after_spawn w).
    { destruct Hrun as [[-> _]|[-> _]]; [now left|now right]. }
    destruct return_json; cbn [negb]; [|split; [exact Hstate|discriminate]].
    unfold lift, json_loads_val.
    destruct (json_loads output) as [json_output|]; cbn.
    + destruct require_media_type; [|split; [exact Hstate|discriminate]].
      destruct (py_get json_output "mediaType" PNone) as [media_type|e1] eqn:Hget.
      * destruct (py_truthy media_type); cbn; (split; [exact Hstate|]);
          [discriminate|].
        intros e [= <-]. do 3 right. split; [reflexivity|]. now right; right.
      * split; [exact Hstate|]. intros e [= <-]. do 3 right.
        split; [reflexivity|].
        right; left. destruct json_output; cbn in Hget; congruence.
    + split; [exact Hstate|]. intros e [= <-]. do 3 right.
      split; [reflexivity|]. now left.
  - destruct Hrun as [[-> [le Hle]]|[-> Hrun]].
    + split; [now left|]. intros e [= <-]. right; left. exists le. congruence.
    + split; [now right|]. intros e [= <-].
      destruct Hrun as [[output Hout]|[Hdecode|Hfail]];
        [discriminate Hout|right; right; left; congruence|left; congruence].
Qed.

(** The cache in front of a body: the body's effect, or none. *)
Lemma dogpile_cache_spec (name : string) (func : list string -> bool -> bool -> M pyval)
    (args : list string) (return_json require_media_type : bool) (w : world) :
  let cached :=
    dogpile_cache skopeo_inspect_should_use_cache name func args return_json
      require_media_type w in
  let plain := func args return_json require_media_type w in
  (forall e, fst cached = Raise e -> fst plain = Raise e)
  /\ (snd cached = w \/ snd cached = snd plain
      \/ exists r, snd cached = set_region r (snd plain)).
Proof.
  cbv zeta. unfold dogpile_cache.
  destruct (skopeo_inspect_should_use_cache args return_json require_media_type);
    [|split; [now intros e|now right; left]].
  destruct (region w !! _) as [hit|].
  - split; [discriminate|now left].
  - destruct (func args return_json require_media_type w) as [[output|e0] w1]; cbn.
    + split; [discriminate|]. right; right. now eexists.
    + split; [now intros e|now right; left].
Qed.

(** The number of invocations a retried call may make. *)
Definition max_attempts : nat := Z.to_nat (Z.max (iib_total_attempts conf) 1).

Lemma cached_inspection_step (args : list string)
    (return_json require_media_type : bool) (w : world) :
  only_spawns 1 w
    (snd (dogpile_cache skopeo_inspect_should_use_cache "skopeo_inspect"
            skopeo_inspect_body args return_json require_media_type w)).
Proof.
  pose proof (dogpile_cache_spec "skopeo_inspect" skopeo_inspect_body args
                return_json require_media_type w) as Hcache.
  cbv zeta in Hcache. destruct Hcache as [_ Hstate].
  pose proof (proj1 (skopeo_inspect_body_spec args return_json require_media_type w))
    as Hbody.
  cbv zeta in Hbody.
  destruct Hstate as [-> | [-> | [r ->]]].
  - apply only_spawns_refl.
  - destruct Hbody as [-> | ->];
      [apply only_spawns_refl|apply only_spawns_after_spawn].
  - destruct Hbody as [-> | ->]; unfold only_spawns, after_spawn; cbn;
      repeat split; lia.
Qed.

(** The effect of an inspection with its retries. *)
Lemma skopeo_inspect_spawns (args : list string)
    (return_json require_media_type : bool) (w : world) :
  only_spawns max_attempts w
    (snd (skopeo_inspect args return_json require_media_type w)).
Proof.
  unfold skopeo_inspect.
  set (call := dogpile_cache skopeo_inspect_should_use_cache "skopeo_inspect"
                 skopeo_inspect_body args return_json require_media_type).
  assert (Hkeeps :
    (fun w0 => subprocess w0 = subprocess w /\ docker_config w0 = docker_config w
               /\ template w0 = template w /\ (spawned w <= spawned w0)%nat)
      (snd (retry is_IIBError call (iib_total_attempts conf) w))).
  { apply retry_keeps; [|repeat split; lia].
    intros w0 (Hs & Hd & Ht & Hn).
    destruct (cached_inspection_step args return_json require_media_type w0)
      as (Hs' & Hd' & Ht' & Hn').
    fold call in Hs', Hd', Ht', Hn'. repeat split; try congruence; lia. }
  destruct Hkeeps as (Hs & Hd & Ht & Hn).
  pose proof (retry_measure_le is_IIBError call spawned (iib_total_attempts conf) w)
    as Hbound.
  unfold only_spawns, max_attempts. repeat split; try assumption.
  apply Hbound. intros w0.
  destruct (cached_inspection_step args return_json require_media_type w0)
    as (_ & _ & _ & Hn').
  fold call in Hn'. lia.
Qed.

(** X4: an inspection changes nothing of the world but the inspection cache
    and the count of child processes, of which it runs at most as many as
    the configured attempts (one when fewer than one are configured); the
    Docker configuration and its template are as before. *)
Theorem skopeo_inspect_only_spawns (args : list string)
    (return_json require_media_type : bool) (w : world) :
  only_spawns max_attempts w
    (snd (skopeo_inspect args return_json require_media_type w)).
Proof. exact (skopeo_inspect_spawns args return_json require_media_type w). Qed.


(** X6: [podman_pull] runs at most as many child processes as the
    configured attempts, and at least one unless the tool could not be
    started; it leaves the Docker configuration, its template and the
    cache as they were; and it raises nothing but the [IIBError] that names
    the images it was asked to pull, the error of a launch that could not
    start the tool, and the decoding error of an output that is not
    UTF-8. *)
Theorem podman_pull_effects (args : list string) (w : world) :
  let run := podman_pull args w in
  only_spawns max_attempts w (snd run)
  /\ region (snd run) = region w
  /\ (forall e, fst run = Raise e ->
        e = IIBError ("Failed to pull the container image " ++ String.concat " " args)
        \/ (exists le, e = launch_exn le)
        \/ e = UnicodeDecodeError)
  /\ ((forall le, fst run <> Raise (launch_exn le)) ->
      (spawned w < spawned (snd run))%nat).
Proof.
  cbv zeta. unfold podman_pull. rewrite <- (join_concat " " args).
  set (msg := "Failed to pull the container image " ++ join " " args).
  set (call := (run_cmd (app ["podman"; "pull"] args) (Some msg);;; ret tt) : M unit).
  assert (Hcall : forall w0,
    (snd (call w0) = w0 /\ exists le, fst (call w0) = Raise (launch_exn le))
    \/ (snd (call w0) = after_spawn w0
        /\ (fst (call w0) = Ok tt \/ fst (call w0) = Raise UnicodeDecodeError
            \/ fst (call w0) = Raise (IIBError msg)))).
  { intros w0. unfold call, bind.
    pose proof (run_cmd_effects "podman" ("pull" :: args) (Some msg) w0
                  ltac:(discriminate)) as Hrun.
    cbv zeta in Hrun. cbn [app] in *.
    destruct (run_cmd _ _ w0) as [[output|e1] w1]; cbn [fst snd] in *.
    - destruct Hrun as [[_ [le Hle]]|[-> _]]; [discriminate Hle|].
      right. split; [reflexivity|now left].
    - destruct Hrun as [[-> [le Hle]]|[-> Hrun]].
      + left. split; [reflexivity|]. exists le. now injection Hle as ->.
      + right. split; [reflexivity|].
        destruct Hrun as [[output Hout]|[Hdecode|Hfail]];
          [discriminate Hout|right; left|right; right].
        * now injection Hdecode as ->.
        * injection Hfail as ->. unfold failure_message, msg. reflexivity. }
  assert (Hworld : forall w0, snd (call w0) = w0 \/ snd (call w0) = after_spawn w0).
  { intros w0. destruct (Hcall w0) as [[-> _]|[-> _]]; [now left|now right]. }
  assert (Hkeeps :
    (fun w0 => subprocess w0 = subprocess w /\ docker_config w0 = docker_config w
               /\ template w0 = template w /\ region w0 = region w
               /\ (spawned w <= spawned w0)%nat)
      (snd (retry is_IIBError call (iib_total_attempts conf) w))).
  { apply retry_keeps; [|repeat split; lia].
    intros w0 (Hs & Hd & Ht & Hr & Hn).
    destruct (Hworld w0) as [-> | ->]; [now repeat split|].
    unfold after_spawn. cbn. repeat split; try assumption. lia. }
  destruct Hkeeps as (Hs & Hd & Ht & Hr & Hn).
  pose proof (retry_measure_le is_IIBError call spawned (iib_total_attempts conf) w)
    as Hbound.
  split; [|split; [exact Hr|split]].
  - unfold only_spawns, max_attempts. repeat split; try assumption.
    apply Hbound. intros w0.
    destruct (Hworld w0) as [-> | ->]; unfold after_spawn; cbn; lia.
  - intros e He.
    destruct (retry is_IIBError call (iib_total_attempts conf) w) as [r w1] eqn:Hrun.
    cbn [fst] in He. subst r.
    apply (retry_raises is_IIBError call
             (fun e0 => e0 = IIBError msg \/ (exists le, e0 = launch_exn le)
                        \/ e0 = UnicodeDecodeError)
             (iib_total_attempts conf) w e w1); [|exact Hrun].
    intros w0 e0 w2 Hraise.
    destruct (Hcall w0) as [[_ [le Hle]]|[_ [Hok|[Hdecode|Hfail]]]];
      rewrite Hraise in *; cbn [fst] in *.
    + right; left. exists le. congruence.
    + discriminate Hok.
    + right; right. congruence.
    + left. congruence.
  - apply (retry_outcome is_IIBError call
             (fun w0 => (spawned w <= spawned w0)%nat)
             (fun r => (forall le, fst r <> Raise (launch_exn le)) ->
                       (spawned w < spawned (snd r))%nat));
      [| |lia].
    + intros w0 Hw0. destruct (Hworld w0) as [-> | ->];
        unfold after_spawn; cbn; lia.
    + intros w0 Hw0 Hstarted.
      destruct (Hcall w0) as [[_ [le Hle]]|[-> _]];
        [now destruct (Hstarted le)|].
      unfold after_spawn. cbn. lia.
Qed.

(** ** Resolved images and bundles *)

(** X7: for a manifest whose schema version is not 2, [get_resolved_image]
    makes a second, full inspection and takes the digest from its [Digest]
    entry; the raw bytes are not hashed. *)
Theorem get_resolved_image_schema1 (pull_spec B : string)
    (manifest version inspected digest : pyval) (w w1 w2 : world) :
  skopeo_inspect ["docker://" ++ pull_spec; "--raw"] false false w = (Ok (PStr B), w1) ->
  json_loads B = Some manifest ->
  py_get manifest "schemaVersion" PNone = Ok version ->
  py_eq_int version 2 = false ->
  skopeo_inspect ["docker://" ++ pull_spec] true false w1 = (Ok inspected, w2) ->
  py_getitem inspected "Digest" = Ok digest ->
  get_resolved_image pull_spec w
  = (Ok (_get_container_image_name pull_spec ++ "@" ++ py_str digest), w2).
Proof.
  intros Hraw Hparse Hget Hnot2 Hfull Hdigest.
  unfold get_resolved_image, bind. rewrite Hraw.
  unfold lift, json_loads_val. rewrite Hparse, Hget, Hnot2, Hfull, Hdigest.
  reflexivity.
Qed.

Lemma rsplit1_no_other (c d : ascii) (s : string) :
  contains d s = false -> contains d (first_part (rsplit1 c s)) = false.
Proof.
  intros Hd. destruct (contains c s) eqn:Hc.
  - destruct (rsplit1_last c s Hc) as (rest & Hs & _).
    rewrite Hs, contains_app in Hd. now apply orb_false_elim in Hd as [Hd _].
  - now rewrite rsplit1_whole.
Qed.

(** The image name never contains [@]. *)
Lemma image_name_no_at (pull_spec : string) :
  contains "@" (_get_container_image_name pull_spec) = false.
Proof.
  unfold _get_container_image_name.
  destruct (contains "@" pull_spec) eqn:Hat.
  - now destruct (split1_first "@" pull_spec Hat) as (rest & _ & Hno).
  - now apply rsplit1_no_other.
Qed.

Lemma split1_app (c : ascii) (name rest : string) :
  contains c name = false ->
  first_part (split1 c (name ++ String c rest)) = name.
Proof.
  induction name as [|a name IH]; simpl.
  - intros _. now rewrite Ascii.eqb_refl.
  - destruct (Ascii.eqb a c); [discriminate|]. intros Hno.
    specialize (IH Hno).
    destruct (split1 c (name ++ String c rest)); simpl in *; now subst.
Qed.

(** The image name of a name pinned to a digest is that name. *)
Lemma image_name_of_pinned (name digest : string) :
  contains "@" name = false ->
  _get_container_image_name (name ++ "@" ++ digest) = name.
Proof.
  intros Hno. unfold _get_container_image_name.
  rewrite contains_app. simpl.
  rewrite orb_true_r. now apply split1_app.
Qed.

Lemma get_resolved_image_shape (pull_spec resolved : string) (w w' : world) :
  get_resolved_image pull_spec w = (Ok resolved, w') ->
  exists digest, resolved = _get_container_image_name pull_spec ++ "@" ++ digest.
Proof.
  unfold get_resolved_image, bind, lift, ret. intros H.
  repeat match type of H with
         | context [match ?x with _ => _ end] => destruct x eqn:?; try discriminate H
         | context [if ?b then _ else _] => destruct b eqn:?; try discriminate H
         end;
    injection H as <- _; eexists; reflexivity.
Qed.

(** X8: whatever the schema, a pull specification resolves to its image
    name, [@] and a digest; and the resolved pull specification has the same
    image name, so that resolving it again keeps the name. *)
Theorem get_resolved_image_keeps_name (pull_spec resolved : string) (w w' : world) :
  get_resolved_image pull_spec w = (Ok resolved, w') ->
  (exists digest, resolved = _get_container_image_name pull_spec ++ "@" ++ digest)
  /\ _get_container_image_name resolved = _get_container_image_name pull_spec.
Proof.
  intros Hresolved.
  destruct (get_resolved_image_shape _ _ _ _ Hresolved) as [digest ->].
  split; [now exists digest|].
  apply image_name_of_pinned, image_name_no_at.
Qed.

Lemma resolve_bundle_shape (bundle_pull_spec resolved : string) (w w' : world) :
  resolve_bundle bundle_pull_spec w = (Ok resolved, w') ->
  exists digest,
    resolved = _get_container_image_name bundle_pull_spec ++ "@" ++ digest.
Proof.
  unfold resolve_bundle, bind, lift, ret, raise. intros H.
  repeat match type of H with
         | context [match ?x with _ => _ end] => destruct x eqn:?; try discriminate H
         | context [if ?b then _ else _] => destruct b eqn:?; try discriminate H
         end;
    try (injection H as <- _; eexists; reflexivity);
    eapply get_resolved_image_shape; eassumption.
Qed.

(** The loop of [get_resolved_bundles]: what it adds to the set comes from
    the bundles it went through, one element a bundle at most. *)
Lemma get_resolved_bundles_loop_spec (bundles : list string) :
  forall (acc resolved : gset string) (w w' : world),
    for_each get_resolved_bundles_body bundles acc w = (Ok resolved, w') ->
    (size resolved <= size acc + length bundles)%nat
    /\ forall r, r ∈ resolved ->
         r ∈ acc
         \/ exists bundle digest,
              bundle ∈ bundles
              /\ r = _get_container_image_name bundle ++ "@" ++ digest.
Proof.
  induction bundles as [|b bundles IH]; intros acc resolved w w' Hrun.
  - cbn in Hrun. injection Hrun as <- _. split; [cbn; lia|now left].
  - cbn [for_each] in Hrun. unfold bind at 1 in Hrun.
    unfold get_resolved_bundles_body at 1 in Hrun. unfold bind at 1 in Hrun.
    destruct (resolve_bundle b w) as [[r0|e] w1] eqn:Hb; [|discriminate Hrun].
    cbn [ret] in Hrun. destruct (IH _ _ _ _ Hrun) as [Hsize Hfrom].
    destruct (resolve_bundle_shape _ _ _ _ Hb) as [digest0 Hshape].
    split.
    + pose proof (size_union_alt ({[r0]} : gset string) acc) as Hunion.
      assert (Hsub : acc ∖ {[r0]} ⊆ acc).
      { intros x Hx. now apply elem_of_difference in Hx as [Hx _]. }
      pose proof (subseteq_size (acc ∖ {[r0]}) acc Hsub) as Hdiff.
      rewrite size_singleton in Hunion. cbn [length]. lia.
    + intros r Hr. destruct (Hfrom r Hr) as [Hacc|(bundle & digest & Hin & ->)].
      * apply elem_of_union in Hacc as [Hnew|Hold]; [|now left].
        apply elem_of_singleton in Hnew as ->. right.
        exists b, digest0. split; [apply list_elem_of_here|exact Hshape].
      * right. exists bundle, digest. split; [now apply list_elem_of_further|reflexivity].
Qed.

(** X9: when [get_resolved_bundles] succeeds, its list has no duplicate, is
    no longer than the input, and holds only digest-pinned forms of input
    bundles: the image name of a bundle, [@] and a digest. *)
Theorem get_resolved_bundles_result (bundles resolved : list string) (w w' : world) :
  get_resolved_bundles bundles w = (Ok resolved, w') ->
  NoDup resolved
  /\ (length resolved <= length bundles)%nat
  /\ forall r, r ∈ resolved ->
       exists bundle digest,
         bundle ∈ bundles /\ r = _get_container_image_name bundle ++ "@" ++ digest.
Proof.
  unfold get_resolved_bundles, bind, ret. intros H.
  destruct (for_each get_resolved_bundles_body bundles ∅ w) as [[s|e] w1] eqn:Hloop;
    [|discriminate H].
  injection H as <- _.
  destruct (get_resolved_bundles_loop_spec _ _ _ _ _ Hloop) as [Hsize Hfrom].
  split; [apply NoDup_elements|]. split.
  - change (length (elements s)) with (size s). rewrite size_empty in Hsize. lia.
  - intros r Hr. apply elem_of_elements in Hr.
    destruct (Hfrom r Hr) as [Hempty|Hbundle]; [|exact Hbundle].
    now apply not_elem_of_empty in Hempty.
Qed.

(** ** Labels and architectures *)

(** X10: [get_image_labels] accepts a pull specification with or without
    the [docker://] scheme and inspects the same reference for both: the
    scheme is added when missing and never doubled. *)
Theorem get_image_labels_scheme (pull_spec : string) :
  String.prefix "docker://" pull_spec = false ->
  get_image_labels ("docker://" ++ pull_spec) = get_image_labels pull_spec.
Proof.
  intros Hplain. unfold get_image_labels. rewrite Hplain.
  change (String.prefix "docker://" ("docker://" ++ pull_spec))
    with (String.prefix "" pull_spec).
  now destruct pull_spec.
Qed.

(** X11: a label that the image does not carry - because the inspection
    shows no [config], a [config] with no [Labels], or [Labels] without the
    label - is [None], without an error. *)
Theorem get_image_label_absent (pull_spec label : string)
    (inspected : list (option string * pyval)) (w w' : world) :
  String.prefix "docker://" pull_spec = false ->
  skopeo_inspect ["docker://" ++ pull_spec; "--config"] true false w
  = (Ok (PDict inspected), w') ->
  dict_lookup (Some "config") inspected = None
  \/ (exists config,
        dict_lookup (Some "config") inspected = Some (PDict config)
        /\ (dict_lookup (Some "Labels") config = None
            \/ exists labels,
                 dict_lookup (Some "Labels") config = Some (PDict labels)
                 /\ dict_lookup (Some label) labels = None)) ->
  get_image_label pull_spec label w = (Ok PNone, w').
Proof.
  intros Hplain Hinspect Hmissing.
  unfold get_image_label, get_image_labels, bind, lift. rewrite Hplain, Hinspect.
  cbn [py_get].
  destruct Hmissing as [Hc | (config & Hc & [Hl | (labels & Hl & Hv)])];
    rewrite Hc; cbn [py_get dict_lookup default]; try rewrite Hl;
    cbn [py_get dict_lookup default]; try rewrite Hv; reflexivity.
Qed.

(** The loop over the entries of a manifest list. *)
Lemma add_manifest_arch_loop (entries : list pyval) (names : list string) :
  Forall2 (fun entry name =>
             exists platform,
               py_getitem entry "platform" = Ok platform
               /\ py_getitem platform "architecture" = Ok (PStr name))
          entries names ->
  forall (acc : gset string) (w : world),
    for_each add_manifest_arch entries acc w = (Ok (list_to_set names ∪ acc), w).
Proof.
  induction 1 as [|entry name entries names (platform & Hp & Ha) _ IH];
    intros acc w; cbn [for_each list_to_set].
  - unfold ret. now rewrite (left_id_L ∅ (∪)).
  - unfold bind at 1. unfold add_manifest_arch, bind, lift, ret.
    rewrite Hp, Ha. cbn [as_str]. rewrite IH. f_equal. f_equal.
    apply set_eq. intros x. rewrite !elem_of_union.
    split; [intros [Hx|[Hx|Hx]]|intros [[Hx|Hx]|Hx]]; auto.
Qed.

(** X12: for a manifest list, [get_image_arches] returns the set of the
    architectures of all its entries, from the raw inspection alone. *)
Theorem get_image_arches_manifest_list (pull_spec : string)
    (skopeo_raw media_type : pyval) (entries : list pyval) (names : list string)
    (w w' : world) :
  skopeo_inspect ["docker://" ++ pull_spec; "--raw"] true false w = (Ok skopeo_raw, w') ->
  py_get skopeo_raw "mediaType" PNone = Ok media_type ->
  py_eq_str media_type manifest_list_type = true ->
  py_getitem skopeo_raw "manifests" = Ok (PList entries) ->
  Forall2 (fun entry name =>
             exists platform,
               py_getitem entry "platform" = Ok platform
               /\ py_getitem platform "architecture" = Ok (PStr name))
          entries names ->
  get_image_arches pull_spec w = (Ok (list_to_set names), w').
Proof.
  intros Hraw Htype Hlist Hmanifests Hentries.
  unfold get_image_arches, bind, lift. rewrite Hraw, Htype, Hlist, Hmanifests.
  cbn [py_iter]. rewrite (add_manifest_arch_loop _ _ Hentries).
  now rewrite (right_id_L ∅ (∪)).
Qed.

(** X13: for a single v2 manifest, [get_image_arches] returns the one
    architecture that the inspection of the image configuration reports;
    for any other media type it raises an [IIBError] naming the pull
    specification, without a second inspection. *)
Theorem get_image_arches_single_or_unsupported (pull_spec : string)
    (skopeo_raw media_type : pyval) (w w1 : world) :
  skopeo_inspect ["docker://" ++ pull_spec; "--raw"] true false w = (Ok skopeo_raw, w1) ->
  py_get skopeo_raw "mediaType" PNone = Ok media_type ->
  py_eq_str media_type manifest_list_type = false ->
  (py_eq_str media_type manifest_v2_type = true ->
   forall (skopeo_out : pyval) (arch : string) (w2 : world),
     skopeo_inspect ["docker://" ++ pull_spec; "--config"] true false w1
     = (Ok skopeo_out, w2) ->
     py_getitem skopeo_out "architecture" = Ok (PStr arch) ->
     get_image_arches pull_spec w = (Ok {[ arch ]}, w2))
  /\ (py_eq_str media_type manifest_v2_type = false ->
      get_image_arches pull_spec w
      = (Raise (IIBError ("The pull specification of " ++ pull_spec
                          ++ " is neither a v2 manifest list nor a v2 manifest")),
         w1)).
Proof.
  intros Hraw Htype Hnolist. split.
  - intros Hv2 skopeo_out arch w2 Hconfig Harch.
    unfold get_image_arches, bind, lift. rewrite Hraw, Htype, Hnolist, Hv2, Hconfig, Harch.
    reflexivity.
  - intros Hother.
    unfold get_image_arches, bind, lift. now rewrite Hraw, Htype, Hnolist, Hother.
Qed.

(** ** Inside a credential scope *)

(** X14: [reset_docker_config] fails in one case only, a missing
    directory [~/.docker] when the template exists: it then raises the
    [FileNotFoundError] of the link it cannot make and changes nothing.
    In every other case it returns, and running it again changes nothing:
    the second run finds the state the first one left. *)
Theorem reset_docker_config_idempotent (w : world) :
  (docker_config w = NoDirectory /\ is_Some (template w) ->
   reset_docker_config w = (Raise FileNotFoundError, w))
  /\ (~ (docker_config w = NoDirectory /\ is_Some (template w)) ->
      fst (reset_docker_config w) = Ok tt)
  /\ (reset_docker_config ;;; reset_docker_config) w = reset_docker_config w.
Proof.
  unfold bind. rewrite !reset_docker_config_spec.
  destruct w as [sp n dc t r]. cbn [docker_config template].
  split; [|split].
  - intros [-> [content ->]]. reflexivity.
  - intros Hnot. destruct dc; try reflexivity.
    destruct t as [content|]; [|reflexivity].
    destruct Hnot. split; [reflexivity|now eexists].
  - destruct dc, t; reflexivity.
Qed.

Lemma dict_lookup_set_eq (k : option string) (v : pyval)
    (d : list (option string * pyval)) :
  dict_lookup k (dict_set k v d) = Some v.
Proof.
  induction d as [|[k' v'] d IH]; cbn.
  - now destruct (decide (k = k)).
  - destruct (decide (k' = k)) as [->|Hne]; cbn.
    + now destruct (decide (k = k)).
    + now destruct (decide (k' = k)).
Qed.

Lemma dict_lookup_set_ne (k k' : option string) (v : pyval)
    (d : list (option string * pyval)) :
  k <> k' -> dict_lookup k' (dict_set k v d) = dict_lookup k' d.
Proof.
  intros Hne. induction d as [|[k0 v0] d IH]; cbn.
  - now destruct (decide (k = k')).
  - destruct (decide (k0 = k)) as [->|Hk0]; cbn.
    + destruct (decide (k = k')); [contradiction|reflexivity].
    + destruct (decide (k0 = k')); [reflexivity|exact IH].
Qed.

Lemma dict_update_cons (k : option string) (v : pyval)
    (d e : list (option string * pyval)) :
  dict_update d ((k, v) :: e) = dict_update (dict_set k v d) e.
Proof. reflexivity. Qed.

(** [d.update(e)] leaves the keys that [e] does not have. *)
Lemma dict_lookup_update_other (k : option string)
    (e : list (option string * pyval)) :
  forall d, k ∉ map fst e -> dict_lookup k (dict_update d e) = dict_lookup k d.
Proof.
  induction e as [|[k0 v0] e IH]; intros d Hk; [reflexivity|].
  cbn in Hk. apply not_elem_of_cons in Hk as [Hne Hk].
  rewrite dict_update_cons, IH by exact Hk. now apply dict_lookup_set_ne.
Qed.

(** [d.update(e)] gives each key of [e] the value [e] has for it. *)
Lemma dict_lookup_update_entry (k : option string) (v : pyval)
    (e : list (option string * pyval)) :
  forall d, NoDup (map fst e) -> (k, v) ∈ e ->
            dict_lookup k (dict_update d e) = Some v.
Proof.
  induction e as [|[k0 v0] e IH]; intros d Hnodup Hin; [now apply elem_of_nil in Hin|].
  cbn in Hnodup. apply NoDup_cons in Hnodup as [Hfresh Hnodup].
  rewrite dict_update_cons.
  apply elem_of_cons in Hin as [[= -> ->]|Hin].
  - rewrite (dict_lookup_update_other k0 e _ Hfresh). apply dict_lookup_set_eq.
  - now apply IH.
Qed.

Lemma template_exists_some (content : string) (w : world) :
  template w = Some content -> template_exists w = (Ok true, w).
Proof.
  intros Ht. unfold template_exists. rewrite Ht.
  now rewrite bool_decide_eq_true_2 by (now exists content).
Qed.

(** The Docker configuration a scope writes: the template's document with
    the entries of [credentials] merged into its [auths]. *)
Definition merged_config (template_config existing credentials
    : list (option string * pyval)) : list (option string * pyval) :=
  dict_set (Some "auths") (PDict (dict_update existing credentials))
    (match dict_lookup (Some "auths") template_config with
     | Some _ => template_config
     | None => dict_set (Some "auths") (PDict []) template_config
     end).

(** X15: when the directory [~/.docker] exists and the template, read as
    text, is a JSON object, a credential scope runs its body on a plain
    file that holds the template's document with the credentials merged
    into [auths] - each given registry has the given credential, the other
    registries and the other keys of the template are kept - and, the
    directory still being there, resets the path when the body is done,
    with the body's outcome. *)
Theorem set_registry_auths_merges {A} (registry_auths : list (option string * pyval))
    (credentials template_config existing : list (option string * pyval))
    (content text : string) (body : M A) (w : world) :
  registry_auths <> [] ->
  dict_lookup (Some "auths") registry_auths = Some (PDict credentials) ->
  NoDup (map fst credentials) ->
  docker_config w <> NoDirectory ->
  template w = Some content ->
  translate_newlines content = Some text ->
  json_loads text = Some (PDict template_config) ->
  default (PDict []) (dict_lookup (Some "auths") template_config) = PDict existing ->
  let merged := merged_config template_config existing credentials in
  let inside := set_docker_config (File (json_dumps (PDict merged))) w in
  (docker_config (snd (body inside)) <> NoDirectory ->
   set_registry_auths (PDict registry_auths) body w
   = (fst (body inside),
      set_docker_config (reset_state (template (snd (body inside))))
        (snd (body inside))))
  /\ (exists auths, dict_lookup (Some "auths") merged = Some (PDict auths)
        /\ (forall registry credential,
              (registry, credential) ∈ credentials ->
              dict_lookup registry auths = Some credential)
        /\ (forall registry, registry ∉ map fst credentials ->
              dict_lookup registry auths = dict_lookup registry existing))
  /\ (forall key, key <> Some "auths" ->
        dict_lookup key merged = dict_lookup key template_config).
Proof.
  intros Hnonempty Hauths Hnodup Hdir Htemplate Hdecode Hparse Hexisting merged inside.
  split; [|split].
  - intros Hafter. unfold set_registry_auths, try_finally.
    destruct registry_auths as [|entry registry_auths]; [contradiction|].
    cbn [py_truthy negb].
    assert (Hwrite : write_registry_auths (PDict (entry :: registry_auths)) w
                     = (Ok tt, inside)).
    { unfold write_registry_auths. unfold bind at 1.
      rewrite remove_docker_config_spec.
      assert (Hremoved :
        match docker_config w with
        | NoDirectory => w
        | _ => set_docker_config Absent w
        end = set_docker_config Absent w) by (now destruct (docker_config w)).
      rewrite Hremoved.
      unfold bind. rewrite (template_exists_some content) by exact Htemplate.
      unfold read_template, lift, write_docker_config.
      cbn [template docker_config set_docker_config]. rewrite Htemplate, Hdecode.
      unfold json_loads_val. rewrite Hparse.
      cbn [py_get]. rewrite Hauths. cbn [py_keys py_setdefault py_update_item].
      subst inside merged. unfold merged_config.
      destruct (dict_lookup (Some "auths") template_config) as [found|] eqn:Hfound;
        simpl in Hexisting; subst.
      - unfold py_update_item, rbind, py_getitem. rewrite Hfound. reflexivity.
      - injection Hexisting as <-.
        unfold py_update_item, rbind, py_getitem. rewrite dict_lookup_set_eq.
        reflexivity. }
    unfold bind. rewrite Hwrite. destruct (body inside) as [r w2].
    cbn [fst snd] in *. rewrite reset_docker_config_spec.
    destruct (docker_config w2); [contradiction|now destruct r..].
  - exists (dict_update existing credentials). subst merged. unfold merged_config.
    split; [apply dict_lookup_set_eq|]. split.
    + intros registry credential Hin. now apply dict_lookup_update_entry.
    + intros registry Hother. now apply dict_lookup_update_other.
  - intros key Hkey. subst merged. unfold merged_config.
    rewrite dict_lookup_set_ne by congruence.
    destruct (dict_lookup (Some "auths") template_config); [reflexivity|].
    apply dict_lookup_set_ne. congruence.
Qed.

(** What reading a template that is no JSON document raises: the error of
    the text decoding when its bytes are not UTF-8, the error of the JSON
    decoding otherwise. *)
Definition template_error (content : string) : exn :=
  match translate_newlines content with
  | Some _ => JSONDecodeError
  | None => UnicodeDecodeError
  end.

(** X16: when the template cannot be read as a JSON document - its bytes
    are not UTF-8, or its text is not valid JSON - a credential scope does
    not run its body.  With the directory [~/.docker] it raises the error
    of the reading and still resets the path: what was there is replaced by
    the link to the template.  Without the directory the reset fails in its
    turn, and the scope raises the [FileNotFoundError] of the link, the
    world unchanged. *)
Theorem set_registry_auths_bad_template {A} (registry_auths : pyval) (content : string)
    (body : M A) (w : world) :
  py_truthy registry_auths = true ->
  template w = Some content ->
  (forall text, translate_newlines content = Some text -> json_loads text = None) ->
  set_registry_auths registry_auths body w
  = match docker_config w with
    | NoDirectory => (Raise FileNotFoundError, w)
    | _ => (Raise (template_error content),
            set_docker_config (Symlink (iib_docker_config_template conf)) w)
    end.
Proof.
  intros Htruthy Htemplate Hparse.
  unfold set_registry_auths, try_finally, template_error. rewrite Htruthy. cbn [negb].
  unfold bind at 1. unfold write_registry_auths. unfold bind at 1.
  rewrite remove_docker_config_spec.
  destruct (translate_newlines content) as [text|] eqn:Hdecode;
    [specialize (Hparse text eq_refl)|clear Hparse];
    (destruct (docker_config w) eqn:Hnode;
     unfold bind; rewrite (template_exists_some content) by exact Htemplate;
     unfold read_template, lift;
     cbn [template docker_config set_docker_config]; rewrite Htemplate, Hdecode;
     unfold json_loads_val; rewrite ?Hparse;
     rewrite reset_docker_config_spec; cbn; rewrite ?Hnode, Htemplate;
     reflexivity).
Qed.

(** ** What inspections leave alone *)

(** A property of the world that child processes and the cache do not
    affect. *)
Definition stable (I : world -> Prop) : Prop :=
  forall n w w', only_spawns n w w' -> I w -> I w'.

Lemma stable_template (t : option string) : stable (fun w => template w = t).
Proof. intros n w w' (_ & _ & Ht & _) Hw. congruence. Qed.

Lemma stable_files (c : node) (t : option string) :
  stable (fun w => docker_config w = c /\ template w = t).
Proof. intros n w w' (_ & Hc & Ht & _) [Hw1 Hw2]. split; congruence. Qed.

Lemma stable_directory : stable (fun w => docker_config w <> NoDirectory).
Proof. intros n w w' (_ & Hc & _ & _) Hw. congruence. Qed.

Lemma keeps_raise {X} (I : world -> Prop) (e : exn) : keeps I (raise e : M X).
Proof. now intros w Hw. Qed.

Lemma keeps_for_each {X Y} (I : world -> Prop) (body : Y -> X -> M Y) (l : list X) :
  (forall acc x, keeps I (body acc x)) -> forall acc, keeps I (for_each body l acc).
Proof.
  intros Hbody. induction l as [|x l IH]; intros acc; cbn [for_each].
  - apply keeps_ret.
  - apply keeps_bind; [apply Hbody|exact IH].
Qed.

Lemma skopeo_inspect_keeps (I : world -> Prop) (args : list string)
    (return_json require_media_type : bool) :
  stable I -> keeps I (skopeo_inspect args return_json require_media_type).
Proof.
  intros Hstable w Hw.
  exact (Hstable _ _ _ (skopeo_inspect_spawns args return_json
                          require_media_type w) Hw).
Qed.

Ltac keeps_step :=
  first [ apply keeps_ret | apply keeps_lift | apply keeps_raise
        | apply skopeo_inspect_keeps; assumption
        | apply keeps_bind; [|intros ?]
        | match goal with
          | |- keeps _ (if ?b then _ else _) => destruct b
          end ].

Lemma get_resolved_image_keeps (I : world -> Prop) (pull_spec : string) :
  stable I -> keeps I (get_resolved_image pull_spec).
Proof. intros Hstable. unfold get_resolved_image. repeat keeps_step. Qed.

Lemma get_image_labels_keeps (I : world -> Prop) (pull_spec : string) :
  stable I -> keeps I (get_image_labels pull_spec).
Proof. intros Hstable. unfold get_image_labels. repeat keeps_step. Qed.

Lemma get_image_label_keeps (I : world -> Prop) (pull_spec label : string) :
  stable I -> keeps I (get_image_label pull_spec label).
Proof.
  intros Hstable. unfold get_image_label.
  apply keeps_bind; [now apply get_image_labels_keeps|intros; apply keeps_lift].
Qed.

Lemma get_image_arches_keeps (I : world -> Prop) (pull_spec : string) :
  stable I -> keeps I (get_image_arches pull_spec).
Proof.
  intros Hstable. unfold get_image_arches.
  apply keeps_bind; [now apply skopeo_inspect_keeps|intros skopeo_raw].
  apply keeps_bind; [apply keeps_lift|intros media_type].
  destruct (py_eq_str media_type manifest_list_type).
  - do 2 (apply keeps_bind; [apply keeps_lift|intros ?]).
    apply keeps_for_each. intros acc entry. unfold add_manifest_arch. repeat keeps_step.
  - repeat keeps_step.
Qed.

(** X17: with an index reference, [get_index_image_info] leaves the
    template alone and, whether it returns or raises, leaves the Docker
    configuration path untouched when no token was given; when one was, it
    leaves the path reset from the template if the directory [~/.docker]
    exists, and leaves the directory missing if it does not. *)
Theorem get_index_image_info_files (overwrite_from_index_token : option string)
    (from_index : string) (default_ocp_version : option string) (w : world) :
  from_index <> "" ->
  let after :=
    snd (get_index_image_info overwrite_from_index_token (Some from_index)
           default_ocp_version w) in
  template after = template w
  /\ docker_config after
     = (if str_truthy overwrite_from_index_token then
          match docker_config w with
          | NoDirectory => NoDirectory
          | _ => reset_state (template w)
          end
        else docker_config w).
Proof.
  intros Hindex. cbv zeta. unfold get_index_image_info.
  cbn [str_truthy]. rewrite (proj2 (String.eqb_neq _ _) Hindex). cbn [negb].
  match goal with
  | |- context [set_registry_token _ _ ?b] => set (body := b)
  end.
  assert (Hbody : forall I, stable I -> keeps I body).
  { intros I Hstable. unfold body.
    apply keeps_bind; [now apply get_resolved_image_keeps|intros resolved].
    apply keeps_bind; [now apply get_image_arches_keeps|intros image_arches].
    apply keeps_bind; [now apply get_image_label_keeps|intros version].
    apply keeps_bind; [now apply get_image_label_keeps|intros scope].
    apply keeps_ret. }
  unfold set_registry_token.
  destruct overwrite_from_index_token as [token|]; cbn [str_truthy].
  - destruct (String.eqb_spec token "") as [->|Htoken]; cbn [negb].
    + destruct (Hbody _ (stable_files (docker_config w) (template w)) w
                  (conj eq_refl eq_refl)) as [Hc Ht].
      now split.
    + rewrite (proj2 (String.eqb_neq _ _) Hindex). cbn [negb].
      match goal with
      | |- context [set_registry_auths ?a body w] => set (auths := a)
      end.
      assert (Htemplate : template (snd (set_registry_auths auths body w))
                          = template w).
      { apply set_registry_auths_exit_template.
        intros w0. exact (Hbody _ (stable_template (template w0)) w0 eq_refl). }
      split; [exact Htemplate|].
      destruct (decide (docker_config w = NoDirectory)) as [Hnone|Hdir].
      * rewrite (proj1 (set_registry_auths_no_directory auths body w eq_refl Hnone)).
        now rewrite Hnone.
      * rewrite set_registry_auths_exit;
          [|reflexivity|exact Hdir|intros w0; apply (Hbody _ stable_directory)].
        rewrite Htemplate. now destruct (docker_config w).
  - destruct (Hbody _ (stable_files (docker_config w) (template w)) w
                (conj eq_refl eq_refl)) as [Hc Ht].
    now split.
Qed.

(** ** Request configurations, built and read *)

Lemma setattr_all (self : request_config) (entries : list (string * pyval)) :
  (forall kv, kv ∈ entries -> fst kv ∈ __slots__ (cls self)) ->
  rfold (fun self kv => setattr self (fst kv) (snd kv)) entries self
  = Ok {| cls := cls self;
          attrs := fold_left (fun m kv => <[fst kv := snd kv]> m) entries (attrs self) |}.
Proof.
  revert self. induction entries as [|[k v] entries IH]; intros self Hkeys.
  - now destruct self.
  - cbn [rfold fold_left rbind]. unfold setattr at 1. cbn [fst snd].
    rewrite bool_decide_eq_true_2 by (apply (Hkeys (k, v)), list_elem_of_here).
    cbn [rbind]. rewrite IH; [reflexivity|].
    intros kv Hkv. apply Hkeys. now apply list_elem_of_further.
Qed.

(** The exception of [setattr] for a name that is no slot. *)
Definition setattr_error (key : string) : exn :=
  if String.eqb key "__class__" then TypeError else AttributeError.

Lemma setattr_rejected (pre post : list (string * pyval)) (k : string) (v : pyval) :
  forall self : request_config,
    (forall kv, kv ∈ pre -> fst kv ∈ __slots__ (cls self)) ->
    k ∉ __slots__ (cls self) ->
    (k, v) <> ("__class__", PClass (cls self)) ->
    rfold (fun self kv => setattr self (fst kv) (snd kv))
      (pre ++ (k, v) :: post) self
    = Raise (setattr_error k).
Proof.
  induction pre as [|[k0 v0] pre IH]; intros self Hpre Hk Hkv.
  - cbn [app rfold rbind fst snd]. unfold setattr, setattr_error.
    rewrite bool_decide_eq_false_2 by exact Hk.
    destruct (String.eqb_spec k "__class__") as [->|Hne]; [|reflexivity].
    destruct v as [| | | | | | |c]; try reflexivity.
    destruct (bool_decide_reflect (c = cls self)) as [->|Hc];
      [now destruct Hkv|reflexivity].
  - cbn [app rfold rbind fst snd]. unfold setattr at 1.
    rewrite bool_decide_eq_true_2 by (apply (Hpre (k0, v0)), list_elem_of_here).
    cbn [rbind]. apply IH; cbn [cls]; [|exact Hk|exact Hkv].
    intros kv Hin. apply Hpre. now apply list_elem_of_further.
Qed.

Lemma lookup_fold_insert_other (k : string) (entries : list (string * pyval)) :
  forall m : gmap string pyval,
    k ∉ map fst entries ->
    fold_left (fun m kv => <[fst kv := snd kv]> m) entries m !! k = m !! k.
Proof.
  induction entries as [|[k0 v0] entries IH]; intros m Hk; [reflexivity|].
  cbn in Hk. apply not_elem_of_cons in Hk as [Hne Hk]. cbn [fold_left fst snd].
  rewrite IH by exact Hk. now apply lookup_insert_ne.
Qed.

Lemma lookup_fold_insert_entry (k : string) (v : pyval)
    (entries : list (string * pyval)) :
  forall m : gmap string pyval,
    NoDup (map fst entries) -> (k, v) ∈ entries ->
    fold_left (fun m kv => <[fst kv := snd kv]> m) entries m !! k = Some v.
Proof.
  induction entries as [|[k0 v0] entries IH]; intros m Hnodup Hin;
    [now apply elem_of_nil in Hin|].
  cbn in Hnodup. apply NoDup_cons in Hnodup as [Hfresh Hnodup].
  cbn [fold_left fst snd].
  apply elem_of_cons in Hin as [[= -> ->]|Hin].
  - rewrite lookup_fold_insert_other by exact Hfresh. apply lookup_insert_eq.
  - now apply IH.
Qed.

Lemma slots_nodup (c : request_class) : NoDup (__slots__ c).
Proof. destruct c; apply (bool_decide_unpack _); vm_compute; exact I. Qed.

Lemma self_is_no_slot (c : request_class) : "self" ∉ __slots__ c.
Proof. destruct c; apply (bool_decide_unpack _); vm_compute; exact I. Qed.

(** The new object with every slot set to [None]. *)
Definition blank (c : request_class) : request_config :=
  {| cls := c;
     attrs := fold_left (fun m kv => <[fst kv := snd kv]> m)
                (map (fun k => (k, PNone)) (__slots__ c))
                (∅ : gmap string pyval) |}.

Lemma init_blank (c : request_class) :
  rfold (fun self key => setattr self key PNone) (__slots__ c)
    {| cls := c; attrs := ∅ |} = Ok (blank c).
Proof.
  pose proof (setattr_all {| cls := c; attrs := ∅ |}
                (map (fun k => (k, PNone)) (__slots__ c))) as Hall.
  cbn [cls attrs] in Hall. unfold blank. rewrite <- Hall.
  - clear Hall. generalize ({| cls := c; attrs := ∅ |}).
    induction (__slots__ c) as [|k l IH]; intros self; [reflexivity|].
    cbn [rfold map rbind fst snd].
    destruct (setattr self k PNone); [apply IH|reflexivity].
  - intros kv Hkv. apply list_elem_of_fmap in Hkv as (k & -> & Hk). exact Hk.
Qed.

Lemma blank_slot (c : request_class) (k : string) :
  k ∈ __slots__ c -> attrs (blank c) !! k = Some PNone.
Proof.
  intros Hk. cbn [attrs blank]. apply lookup_fold_insert_entry.
  - rewrite map_map. cbn. rewrite map_id. apply slots_nodup.
  - apply list_elem_of_fmap. now exists k.
Qed.

Lemma blank_other (c : request_class) (k : string) :
  k ∉ __slots__ c -> attrs (blank c) !! k = None.
Proof.
  intros Hk. cbn [attrs blank]. rewrite lookup_fold_insert_other; [apply lookup_empty|].
  rewrite map_map. cbn. now rewrite map_id.
Qed.

(** X18: for distinct keywords, a call of a request-configuration class
    raises [TypeError] when a keyword is [self]; it succeeds when every
    keyword names a slot of the class; and it raises at the first keyword
    that does not - [TypeError] for [__class__], which accepts nothing but
    the class the object has, and [AttributeError] for every other name.
    The object it returns holds for each slot the value of its keyword, or
    [None]; under any other name it has what its class has: the class
    attributes and methods, and nothing else. *)
Theorem request_config_init (c : request_class) (kwargs : list (string * pyval)) :
  NoDup (map fst kwargs) ->
  ("self" ∈ map fst kwargs -> __init__ c kwargs = Raise TypeError)
  /\ ((forall kv, kv ∈ kwargs -> fst kv ∈ __slots__ c) ->
      exists self,
        __init__ c kwargs = Ok self
        /\ cls self = c
        /\ (forall k v, (k, v) ∈ kwargs -> getattr self k = Ok v)
        /\ (forall k, k ∈ __slots__ c -> k ∉ map fst kwargs ->
            getattr self k = Ok PNone)
        /\ (forall k, k ∉ __slots__ c ->
            getattr self k = match class_attribute c k with
                             | Some v => Ok v
                             | None => Raise AttributeError
                             end)
        /\ (forall k, hasattr self k = true
                      <-> k ∈ __slots__ c \/ is_Some (class_attribute c k)))
  /\ (forall (pre post : list (string * pyval)) (k : string) (v : pyval),
        kwargs = app pre ((k, v) :: post) ->
        "self" ∉ map fst kwargs ->
        (forall kv, kv ∈ pre -> fst kv ∈ __slots__ c) ->
        k ∉ __slots__ c ->
        (k, v) <> ("__class__", PClass c) ->
        __init__ c kwargs
        = Raise (if String.eqb k "__class__" then TypeError else AttributeError)).
Proof.
  intros Hnodup. split; [|split].
  - intros Hself. unfold __init__. now rewrite bool_decide_eq_true_2.
  - intros Hkeys.
    assert (Hself : "self" ∉ map fst kwargs).
    { intros Hin. apply list_elem_of_fmap in Hin as (kv & Heq & Hkv).
      apply (self_is_no_slot c). rewrite Heq. now apply Hkeys. }
    unfold __init__, rbind. rewrite bool_decide_eq_false_2 by exact Hself.
    rewrite init_blank.
    rewrite (setattr_all (blank c) kwargs) by exact Hkeys.
    eexists. split; [reflexivity|]. cbn [cls attrs].
    assert (Hin : forall k v, (k, v) ∈ kwargs ->
              fold_left (fun m kv => <[fst kv := snd kv]> m) kwargs (attrs (blank c)) !! k
              = Some v).
    { intros k v Hkv. now apply lookup_fold_insert_entry. }
    assert (Hother : forall k, k ∉ map fst kwargs ->
              fold_left (fun m kv => <[fst kv := snd kv]> m) kwargs (attrs (blank c)) !! k
              = attrs (blank c) !! k).
    { intros k Hk. now apply lookup_fold_insert_other. }
    assert (Hslot : forall k, k ∈ __slots__ c ->
              is_Some (fold_left (fun m kv => <[fst kv := snd kv]> m) kwargs
                         (attrs (blank c)) !! k)).
    { intros k Hs. destruct (decide (k ∈ map fst kwargs)) as [Hk|Hk].
      - apply list_elem_of_fmap in Hk as ([k' v] & -> & Hkv). cbn [fst].
        rewrite (Hin _ _ Hkv). now eexists.
      - rewrite (Hother _ Hk), (blank_slot _ _ Hs). now eexists. }
    assert (Hnoslot : forall k, k ∉ __slots__ c ->
              fold_left (fun m kv => <[fst kv := snd kv]> m) kwargs
                (attrs (blank c)) !! k = None).
    { intros k Hs. rewrite Hother; [now apply blank_other|].
      intros Hk. apply list_elem_of_fmap in Hk as ([k' v] & -> & Hkv).
      apply Hs. apply (Hkeys _ Hkv). }
    split; [reflexivity|]. split; [|split; [|split]].
    + intros k v Hkv. unfold getattr. cbn [attrs]. now rewrite (Hin _ _ Hkv).
    + intros k Hs Hk. unfold getattr. cbn [attrs].
      now rewrite (Hother _ Hk), (blank_slot _ _ Hs).
    + intros k Hs. unfold getattr. cbn [attrs cls]. now rewrite (Hnoslot _ Hs).
    + intros k. unfold hasattr, getattr. cbn [attrs cls].
      change (cls (blank c)) with c.
      destruct (decide (k ∈ __slots__ c)) as [Hs|Hs].
      * destruct (Hslot _ Hs) as [v ->]. split; [now left|reflexivity].
      * rewrite (Hnoslot _ Hs).
        destruct (class_attribute c k) as [v|].
        -- split; [right; now eexists|reflexivity].
        -- split; [discriminate|]. intros [Hs'|[v Hv]]; [contradiction|discriminate].
  - intros pre post k v -> Hself Hpre Hk Hkv.
    unfold __init__, rbind. rewrite bool_decide_eq_false_2 by exact Hself.
    rewrite init_blank.
    exact (setattr_rejected pre post k v (blank c) Hpre Hk Hkv).
Qed.

(** ** The configured binary image *)

(** A table of tables, as [iib_binary_image_config] is: every value of the
    dictionary is a dictionary. *)
Definition table_of_tables (d : list (option string * pyval)) : Prop :=
  forall k x, dict_lookup k d = Some x -> exists d', x = PDict d'.

(** X19: on a table of tables, [get_binary_image_from_config] returns the
    entry under the scope and the version, and only when that entry is
    truthy; in every other case - no table for the scope, no entry for the
    version, an empty or [None] entry - it raises the [IIBError] that names
    the scope and the version. *)
Theorem get_binary_image_from_config_table (version scope : string)
    (d : list (option string * pyval)) :
  table_of_tables d ->
  let entry :=
    match dict_lookup (Some scope) d with
    | Some (PDict by_scope) => dict_lookup (Some version) by_scope
    | _ => None
    end in
  get_binary_image_from_config (PStr version) (PStr scope) (PDict d)
  = match entry with
    | Some image =>
        if py_truthy image then Ok image
        else Raise (IIBError
                      ("IIB does not have a configured binary_image for"
                       ++ " distribution_scope : " ++ scope
                       ++ " and ocp_version: " ++ version ++ "."
                       ++ " Please specify a binary_image value in the request."))
    | None =>
        Raise (IIBError
                 ("IIB does not have a configured binary_image for"
                  ++ " distribution_scope : " ++ scope
                  ++ " and ocp_version: " ++ version ++ "."
                  ++ " Please specify a binary_image value in the request."))
    end.
Proof.
  intros Htable. cbv zeta. unfold get_binary_image_from_config.
  cbn [py_get_key rbind py_str].
  destruct (dict_lookup (Some scope) d) as [x|] eqn:Hscope;
    cbn [default from_option id].
  - destruct (Htable _ _ Hscope) as [by_scope ->]. cbn [py_get_key rbind].
    destruct (dict_lookup (Some version) by_scope) as [image|];
      cbn [default from_option id py_truthy negb].
    + now destruct (py_truthy image).
    + reflexivity.
  - reflexivity.
Qed.

(** ** The architectures of a request *)

Lemma elem_of_fold_arches (a : string) (infos : list (string * index_image_info)) :
  forall init : gset string,
    a ∈ fold_left (fun acc info => acc ∪ arches (snd info)) infos init
    <-> a ∈ init \/ exists info, info ∈ infos /\ a ∈ arches (snd info).
Proof.
  induction infos as [|info infos IH]; intros init; cbn [fold_left].
  - split; [now left|]. intros [H|(info & Hin & _)]; [exact H|].
    now apply elem_of_nil in Hin.
  - rewrite IH, elem_of_union. split.
    + intros [[H|H]|(info' & Hin & H)].
      * now left.
      * right. exists info. split; [apply list_elem_of_here|exact H].
      * right. exists info'. split; [now apply list_elem_of_further|exact H].
    + intros [H|(info' & Hin & H)].
      * now left; left.
      * apply elem_of_cons in Hin as [->|Hin].
        -- now left; right.
        -- right. now exists info'.
Qed.

(** The architectures a request asks for: the strings of the list under
    [add_arches], or none when the object has no such attribute or holds
    [None] there. *)
Definition requests_arches (build_request_config : request_config)
    (names : list string) : Prop :=
  attrs build_request_config !! "add_arches" = Some (PList (map PStr names))
  \/ names = []
     /\ (attrs build_request_config !! "add_arches" = None
         \/ attrs build_request_config !! "add_arches" = Some PNone).

Lemma py_set_loop (names : list string) :
  forall acc : gset string,
    exists s : gset string,
      rfold (fun acc x => (a <- as_str x ;; Ok ({[ a ]} ∪ acc))%res)
        (map PStr names) acc = Ok s
      /\ forall a, a ∈ s <-> a ∈ names \/ a ∈ acc.
Proof.
  induction names as [|name names IH]; intros acc; cbn [map rfold as_str rbind].
  - exists acc. split; [reflexivity|]. intros a. split; [now right|].
    intros [H|H]; [now apply elem_of_nil in H|exact H].
  - destruct (IH ({[ name ]} ∪ acc)) as (s & -> & Hs). exists s.
    split; [reflexivity|]. intros a.
    rewrite Hs, elem_of_union, elem_of_singleton, elem_of_cons.
    split; [intros [H|[H|H]]|intros [[H|H]|H]]; auto.
Qed.

(** X20: for a request whose [add_arches] is a list of strings, [None] or
    missing, [gather_index_image_arches] returns exactly the architectures
    the request asks for together with those of every index image, and
    never an empty set: when the request asks for none and no index image
    has one, it raises the [IIBError] of the missing architectures. *)
Theorem gather_index_image_arches_union (build_request_config : request_config)
    (index_image_infos : list (string * index_image_info)) (names : list string) :
  requests_arches build_request_config names ->
  match gather_index_image_arches build_request_config index_image_infos with
  | Ok all_arches =>
      all_arches <> ∅
      /\ forall a, a ∈ all_arches <->
           a ∈ names
           \/ exists info, info ∈ index_image_infos /\ a ∈ arches (snd info)
  | Raise e =>
      e = IIBError "No arches were provided to build the index image"
      /\ names = []
      /\ forall info, info ∈ index_image_infos -> arches (snd info) = ∅
  end.
Proof.
  intros Hrequest.
  destruct (py_set_loop names ∅) as (requested & Hset & Hrequested).
  assert (Hin : forall a, a ∈ requested <-> a ∈ names).
  { intros a. rewrite Hrequested. split; [|now left].
    intros [H|H]; [exact H|now apply not_elem_of_empty in H]. }
  assert (Hgather :
    gather_index_image_arches build_request_config index_image_infos
    = let all_arches :=
        fold_left (fun acc info => acc ∪ arches (snd info)) index_image_infos
          requested in
      if bool_decide (all_arches = ∅)
      then Raise (IIBError "No arches were provided to build the index image")
      else Ok all_arches).
  { unfold gather_index_image_arches, hasattr, getattr.
    destruct Hrequest as [Hlist|[-> [Hnone|Hnone]]].
    - rewrite Hlist. cbn [rbind]. unfold py_set.
      replace (py_or (PList (map PStr names)) (PList []))
        with (PList (map PStr names)) by now destruct names.
      cbn [py_iter rbind]. now rewrite Hset.
    - rewrite Hnone.
      assert (Hclass : class_attribute (cls build_request_config) "add_arches" = None)
        by now destruct (cls build_request_config).
      rewrite Hclass. cbn in Hset. injection Hset as <-. reflexivity.
    - rewrite Hnone. cbn in Hset. injection Hset as <-. reflexivity. }
  rewrite Hgather. cbv zeta.
  destruct (bool_decide_reflect
              (fold_left (fun acc info => acc ∪ arches (snd info))
                 index_image_infos requested = ∅)) as [Hempty|Hsome].
  - split; [reflexivity|].
    assert (Hnone : forall a,
              ~ (a ∈ requested
                 \/ exists info, info ∈ index_image_infos /\ a ∈ arches (snd info))).
    { intros a Ha. apply elem_of_fold_arches in Ha. rewrite Hempty in Ha.
      now apply not_elem_of_empty in Ha. }
    split.
    + destruct names as [|name names]; [reflexivity|]. exfalso.
      apply (Hnone name). left. apply Hin, list_elem_of_here.
    + intros info Hinfo. apply leibniz_equiv, elem_of_equiv_empty. intros a Ha.
      apply (Hnone a). right. now exists info.
  - split; [exact Hsome|]. intros a. now rewrite elem_of_fold_arches, Hin.
Qed.

(** ** Required labels *)

Lemma verify_label_loop_mismatch (bundle : string) (labels : list (option string * pyval))
    (passed rest : list (option string * pyval)) (key : option string) (value : pyval) :
  (forall entry, entry ∈ passed ->
     py_eq (default PNone (dict_lookup (fst entry) labels)) (snd entry) = true) ->
  py_eq (default PNone (dict_lookup key labels)) value = false ->
  rfold (fun _ entry => verify_label bundle (PDict labels) entry)
    (passed ++ (key, value) :: rest) tt
  = Raise (IIBError ("The bundle " ++ bundle ++ " does not have the label "
                     ++ key_str key ++ "=" ++ py_str value)).
Proof.
  intros Hpassed Hbad. induction passed as [|entry passed IH]; cbn [app rfold].
  - unfold verify_label. cbn [py_get_opt rbind fst snd]. now rewrite Hbad.
  - unfold verify_label at 1. cbn [py_get_opt rbind].
    rewrite (Hpassed entry) by apply list_elem_of_here. cbn [negb rbind].
    apply IH. intros entry' Hin. apply Hpassed. now apply list_elem_of_further.
Qed.

(** X21: when the first bundle differs from a required label - a missing
    label counting as [None] - [verify_labels] raises the [IIBError] that
    names the bundle and the first such label, in the order of the
    configuration, with its required value, after the one inspection of
    that bundle; the bundles after it are not inspected. *)
Theorem verify_labels_first_mismatch (bundle : string) (bundles : list string)
    (labels passed rest : list (option string * pyval))
    (key : option string) (value : pyval) (w w' : world) :
  iib_required_labels = PDict (passed ++ (key, value) :: rest) ->
  get_image_labels bundle w = (Ok (PDict labels), w') ->
  (forall entry, entry ∈ passed ->
     py_eq (default PNone (dict_lookup (fst entry) labels)) (snd entry) = true) ->
  py_eq (default PNone (dict_lookup key labels)) value = false ->
  verify_labels (bundle :: bundles) w
  = (Raise (IIBError ("The bundle " ++ bundle ++ " does not have the label "
                      ++ key_str key ++ "=" ++ py_str value)), w').
Proof.
  intros Hrequired Hlabels Hpassed Hbad.
  unfold verify_labels. rewrite Hrequired.
  assert (Htruthy : py_truthy (PDict (passed ++ (key, value) :: rest)) = true)
    by now destruct passed.
  rewrite Htruthy. cbn [negb for_each].
  unfold verify_labels_body, bind at 1. unfold bind at 1. rewrite Hlabels.
  rewrite Hrequired. cbn [py_items]. unfold bind, lift.
  now rewrite (verify_label_loop_mismatch bundle labels passed rest key value).
Qed.

(** ** Runs that return *)

Lemma bind_ok {X Y} (m : M X) (k : X -> M Y) (w w' : world) (y : Y) :
  bind m k w = (Ok y, w') ->
  exists x w1, m w = (Ok x, w1) /\ k x w1 = (Ok y, w').
Proof.
  unfold bind. intros H. destruct (m w) as [[x|e] w1]; [|discriminate H].
  now exists x, w1.
Qed.

Lemma lift_ok {X} (r : result X) (w w' : world) (x : X) :
  lift r w = (Ok x, w') -> r = Ok x /\ w' = w.
Proof. unfold lift. now intros [= -> ->]. Qed.

(** ** The index images of a request *)

Lemma assoc_get_set {V} (k k' : string) (v : V) (d : list (string * V)) :
  assoc_get k (assoc_set k' v d) = if String.eqb k' k then Some v else assoc_get k d.
Proof.
  induction d as [|[k0 v0] d IH]; cbn [assoc_set assoc_get].
  - reflexivity.
  - destruct (String.eqb_spec k0 k') as [->|Hne]; cbn [assoc_get].
    + now destruct (String.eqb k' k).
    + destruct (String.eqb_spec k0 k) as [->|Hne'].
      * now rewrite (proj2 (String.eqb_neq _ _) (not_eq_sym Hne)).
      * exact IH.
Qed.

Lemma get_index_image_info_template (overwrite_from_index_token from_index : option string)
    (default_ocp_version : option string) (w : world) :
  template (snd (get_index_image_info overwrite_from_index_token from_index
                   default_ocp_version w)) = template w.
Proof.
  unfold get_index_image_info.
  destruct from_index as [index|]; [|reflexivity].
  destruct (negb (str_truthy (Some index))); [reflexivity|].
  match goal with
  | |- context [set_registry_token _ _ ?b] => set (body := b)
  end.
  assert (Hbody : forall w0, template (snd (body w0)) = template w0).
  { intros w0.
    cut (keeps (fun w1 => template w1 = template w0) body);
      [intros Hkeeps; now apply Hkeeps|].
    pose proof (stable_template (template w0)) as Hstable. unfold body.
    apply keeps_bind; [now apply get_resolved_image_keeps|intros resolved].
    apply keeps_bind; [now apply get_image_arches_keeps|intros image_arches].
    apply keeps_bind; [now apply get_image_label_keeps|intros version].
    apply keeps_bind; [now apply get_image_label_keeps|intros scope].
    apply keeps_ret. }
  unfold set_registry_token.
  destruct overwrite_from_index_token as [token|]; [|apply Hbody].
  destruct (negb (str_truthy (Some token))); [apply Hbody|].
  destruct (negb (str_truthy (Some index))); [apply Hbody|].
  now apply set_registry_auths_exit_template.
Qed.

Lemma get_all_index_images_info_loop (build_request_config : request_config)
    (index_version_map : list (string * string)) :
  forall (acc infos : list (string * index_image_info)) (w w' : world),
    for_each (get_all_index_images_info_body build_request_config)
      index_version_map acc w = (Ok infos, w') ->
    template w' = template w
    /\ forall index,
         is_Some (assoc_get index infos)
         <-> is_Some (assoc_get index acc) \/ index ∈ map fst index_version_map.
Proof.
  induction index_version_map as [|[index0 version] rest IH];
    intros acc infos w w' Hrun; cbn [for_each] in Hrun.
  - injection Hrun as <- <-. split; [reflexivity|]. intros index. split; [now left|].
    intros [H|H]; [exact H|now apply elem_of_nil in H].
  - apply bind_ok in Hrun as (acc' & w1 & Hbody & Hrest).
    apply IH in Hrest as [Htemplate Hkeys].
    unfold get_all_index_images_info_body in Hbody.
    apply bind_ok in Hbody as (from_index & w2 & Hfrom & Hbody).
    apply lift_ok in Hfrom as [_ ->].
    apply bind_ok in Hbody as (token & w2 & Htoken & Hbody).
    apply lift_ok in Htoken as [_ ->].
    apply bind_ok in Hbody as (token' & w2 & Htoken & Hbody).
    apply lift_ok in Htoken as [_ ->].
    apply bind_ok in Hbody as (from_index' & w2 & Hfrom & Hbody).
    apply lift_ok in Hfrom as [_ ->].
    apply bind_ok in Hbody as (info & w2 & Hinfo & Hbody).
    injection Hbody as <- <-.
    pose proof (get_index_image_info_template token' from_index' (Some version) w)
      as Hinfo_template.
    rewrite Hinfo in Hinfo_template. cbn [snd] in Hinfo_template.
    split; [congruence|]. intros index. rewrite Hkeys, assoc_get_set. cbn [map fst].
    rewrite elem_of_cons.
    destruct (String.eqb_spec index0 index) as [->|Hne].
    + split; [intros _; right; now left|intros _; left; now eexists].
    + split; [intros [H|H]; auto|intros [H|[H|H]]; auto; congruence].
Qed.

(** X22: when [get_all_index_images_info] returns, the dictionary has an
    entry for each index name of the version map and for nothing else, and
    the template of the Docker configuration is as it was before. *)
Theorem get_all_index_images_info_keys (build_request_config : request_config)
    (index_version_map : list (string * string))
    (infos : list (string * index_image_info)) (w w' : world) :
  get_all_index_images_info build_request_config index_version_map w = (Ok infos, w') ->
  template w' = template w
  /\ forall index,
       is_Some (assoc_get index infos) <-> index ∈ map fst index_version_map.
Proof.
  intros Hrun. unfold get_all_index_images_info in Hrun.
  apply get_all_index_images_info_loop in Hrun as [Htemplate Hkeys].
  split; [exact Htemplate|]. intros index. rewrite Hkeys. cbn [assoc_get].
  split; [intros [[x Hx]|H]; [discriminate Hx|exact H]|now right].
Qed.

(** ** The plan of a build *)

Lemma validate_distribution_scope_requested (resolved requested scope : pyval) :
  _validate_distribution_scope resolved requested = Ok scope ->
  py_truthy requested = true ->
  scope = requested /\ exists s, requested = PStr s /\ s ∈ scopes.
Proof.
  unfold _validate_distribution_scope. intros Hrun Htruthy.
  rewrite Htruthy in Hrun. cbn [negb] in Hrun.
  destruct (scopes_index requested) as [requested_rank|e] eqn:Hrequested;
    [|discriminate Hrun].
  cbn [rbind] in Hrun.
  destruct (scopes_index resolved) as [resolved_rank|e]; [|discriminate Hrun].
  cbn [rbind] in Hrun.
  destruct (resolved_rank <? requested_rank)%nat; [discriminate Hrun|].
  injection Hrun as <-. split; [reflexivity|].
  destruct requested as [| | |s| | | |]; try discriminate Hrequested.
  exists s. split; [reflexivity|]. cbn [scopes_index] in Hrequested.
  destruct (decide (s ∈ scopes)) as [Hin|Hout]; [exact Hin|].
  rewrite (list_index_not_elem _ _ Hout) in Hrequested. discriminate Hrequested.
Qed.

Lemma check_binary_image_arches_ok (arches binary_image_arches : gset string) :
  check_binary_image_arches arches binary_image_arches = Ok tt ->
  arches ⊆ binary_image_arches.
Proof.
  unfold check_binary_image_arches.
  destruct (bool_decide_reflect (arches ⊆ binary_image_arches)) as [Hsub|Hnot];
    [now intros _|discriminate].
Qed.

(** X23: a plan that [prepare_request_for_build] returns names at least one
    architecture: its architectures are those gathered from the request and
    from the index images as this run has read them, and the binary image,
    resolved and inspected in the state that reading has left, is built for
    every one of them.  The resolved binary image is the image name of the
    binary image, [@] and a digest; and a distribution scope that the
    request asks for is the scope of the plan and one of [dev], [stage] and
    [prod]. *)
Theorem prepare_request_for_build_plan (request_id : Z)
    (build_request_config : request_config) (plan : build_plan) (w w' : world) :
  prepare_request_for_build request_id build_request_config w = (Ok plan, w') ->
  plan_arches plan <> ∅
  /\ (exists index_info w1 w2 w3 image_arches,
        get_all_index_images_info build_request_config
          [("from_index", "v4.5"); ("source_from_index", "v4.5");
           ("target_index", "v4.6")]
          (snd (set_request_state request_id "in_progress"
                  "Resolving the container images" w))
        = (Ok index_info, w1)
        /\ gather_index_image_arches build_request_config index_info
           = Ok (plan_arches plan)
        /\ get_resolved_image (plan_binary_image plan) w1
           = (Ok (plan_binary_image_resolved plan), w2)
        /\ get_image_arches (plan_binary_image_resolved plan) w2
           = (Ok image_arches, w3)
        /\ plan_arches plan ⊆ image_arches)
  /\ (exists digest,
        plan_binary_image_resolved plan
        = _get_container_image_name (plan_binary_image plan) ++ "@" ++ digest)
  /\ (forall requested,
        getattr build_request_config "distribution_scope" = Ok requested ->
        py_truthy requested = true ->
        plan_distribution_scope plan = requested
        /\ exists s, requested = PStr s /\ s ∈ scopes).
Proof.
  intros Hrun. unfold prepare_request_for_build in Hrun.
  apply bind_ok in Hrun as (bundles & w0 & Hbundles & Hrun).
  apply lift_ok in Hbundles as [_ ->].
  apply bind_ok in Hrun as ([] & w0 & Hstate & Hrun).
  apply bind_ok in Hrun as (index_info & w1 & Hinfos & Hrun).
  apply bind_ok in Hrun as (request_arches & w1' & Hgather & Hrun).
  apply lift_ok in Hgather as [Hgather ->].
  apply bind_ok in Hrun as ([] & w1' & Hsome & Hrun).
  assert (Hnonempty : request_arches <> ∅ /\ w1' = w1).
  { destruct (bool_decide_reflect (request_arches = ∅)) as [Hempty|Hnonempty];
      [discriminate Hsome|].
    injection Hsome as <-. now split. }
  destruct Hnonempty as [Hnonempty ->]. clear Hsome.
  apply bind_ok in Hrun as (from_index_info & w1' & Hfrom & Hrun).
  apply lift_ok in Hfrom as [_ ->].
  apply bind_ok in Hrun as (source_given & w1' & Hgiven & Hrun).
  apply lift_ok in Hgiven as [_ ->].
  apply bind_ok in Hrun as (resolved_scope & w1' & Hresolved_scope & Hrun).
  assert (w1' = w1) as ->.
  { destruct source_given.
    - apply bind_ok in Hresolved_scope as (target_info & w1'' & Htarget & Hret).
      apply lift_ok in Htarget as [_ ->]. now injection Hret as _ <-.
    - now injection Hresolved_scope as _ <-. }
  clear Hresolved_scope.
  apply bind_ok in Hrun as (requested_scope & w1' & Hrequested & Hrun).
  apply lift_ok in Hrequested as [Hrequested ->].
  apply bind_ok in Hrun as (distribution_scope & w1' & Hscope & Hrun).
  apply lift_ok in Hscope as [Hscope ->].
  apply bind_ok in Hrun as (binary & w1' & Hbinary & Hrun).
  apply lift_ok in Hbinary as [_ ->].
  apply bind_ok in Hrun as (binary_pull_spec & w1' & Hspec & Hrun).
  apply lift_ok in Hspec as [_ ->].
  apply bind_ok in Hrun as (binary_image_resolved & w2 & Hresolved & Hrun).
  apply bind_ok in Hrun as (binary_image_arches & w3 & Harches & Hrun).
  apply bind_ok in Hrun as ([] & w3' & Hcheck & Hrun).
  apply lift_ok in Hcheck as [Hcheck ->].
  apply bind_ok in Hrun as (bundle_items & w4 & _ & Hrun).
  apply bind_ok in Hrun as (bundle_names & w5 & _ & Hrun).
  apply bind_ok in Hrun as (mapping & w6 & _ & Hrun).
  apply bind_ok in Hrun as (source_info & w7 & _ & Hrun).
  apply bind_ok in Hrun as (target_info & w8 & _ & Hrun).
  injection Hrun as <- <-. cbn [plan_arches plan_binary_image
                                plan_binary_image_resolved plan_distribution_scope].
  split; [exact Hnonempty|]. split; [|split].
  - exists index_info, w1, w2, w3, binary_image_arches.
    rewrite Hstate. cbn [snd].
    split; [exact Hinfos|]. split; [exact Hgather|]. split; [exact Hresolved|].
    split; [exact Harches|]. now apply check_binary_image_arches_ok.
  - exact (get_resolved_image_shape _ _ _ _ Hresolved).
  - intros requested Hgetattr Htruthy.
    assert (requested = requested_scope) as -> by congruence.
    exact (validate_distribution_scope_requested _ _ _ Hscope Htruthy).
Qed.

(** ** Deprecating bundles *)

Lemma write_registry_auths_spawned (registry_auths : pyval) (w : world) :
  spawned (snd (write_registry_auths registry_auths w)) = spawned w.
Proof.
  apply (write_registry_auths_keeps (fun w1 => spawned w1 = spawned w)).
  - intros content w1 Hw1. unfold write_docker_config.
    destruct (docker_config w1); [exact Hw1..|].
    now destruct (String.eqb _ _).
  - now destruct (docker_config w).
Qed.

(** X24: [deprecate_bundles] runs [opm] at most once - it is not retried -
    and leaves the template alone.  Without a token it leaves the Docker
    configuration path untouched; with a token and an index it leaves the
    path reset from the template, whether [opm] succeeded or not, when the
    directory [~/.docker] exists, and leaves the directory missing when it
    does not.  Once [opm] was run, the only exceptions are the [IIBError]
    of its failure and the decoding error of an output that is not
    UTF-8. *)
Theorem deprecate_bundles_effects (bundles : list string)
    (base_dir binary_image from_index : string)
    (overwrite_target_index_token container_tool : option string) (w : world) :
  let run :=
    deprecate_bundles bundles base_dir binary_image from_index
      overwrite_target_index_token container_tool w in
  template (snd run) = template w
  /\ docker_config (snd run)
     = (if str_truthy overwrite_target_index_token && str_truthy (Some from_index)
        then match docker_config w with
             | NoDirectory => NoDirectory
             | _ => reset_state (template w)
             end
        else docker_config w)
  /\ (spawned w <= spawned (snd run) <= S (spawned w))%nat
  /\ (forall e, fst run = Raise e -> spawned (snd run) = S (spawned w) ->
      (exists msg, e = IIBError msg) \/ e = UnicodeDecodeError).
Proof.
  cbv zeta. unfold deprecate_bundles.
  match goal with
  | |- context [set_registry_token _ _ ?b] => set (body := b)
  end.
  assert (Hbody : forall w0,
            (snd (body w0) = w0 /\ exists le, fst (body w0) = Raise (launch_exn le))
            \/ (snd (body w0) = after_spawn w0
                /\ forall e, fst (body w0) = Raise e ->
                     (exists msg, e = IIBError msg) \/ e = UnicodeDecodeError)).
  { intros w0. unfold body.
    match goal with
    | |- context [run_cmd ?c _] =>
        assert (Hcmd : exists rest, c = "opm" :: rest)
          by (destruct container_tool as [tool|];
              [destruct (str_truthy (Some tool))|]; eexists; reflexivity)
    end.
    destruct Hcmd as [rest ->].
    pose proof (run_cmd_spec "opm" rest (Some "Failed to deprecate the bundles") w0)
      as Hrun.
    cbv zeta in Hrun. unfold bind.
    destruct (subprocess w0 (spawned w0) ("opm" :: rest)) as [le|status out err].
    - left. rewrite Hrun. split; [reflexivity|now exists le].
    - right. destruct Hrun as [Hstate Hrun].
      destruct (run_cmd _ _ w0) as [[output|e0] w1]; cbn [fst snd] in *; subst w1;
        (split; [reflexivity|]); [discriminate|].
      intros e [= <-].
      destruct (translate_newlines out) as [out_text|]; [|right; congruence].
      destruct (translate_newlines err) as [err_text|]; [|right; congruence].
      destruct Hrun as (Hok & Hfail & _).
      destruct (Z.eq_dec status 0) as [Hzero|Hnonzero];
        [now specialize (Hok Hzero)|].
      destruct (Hfail Hnonzero) as [msg [= ->]]. left. now exists msg. }
  clearbody body.
  assert (Hworld : forall w0, snd (body w0) = w0 \/ snd (body w0) = after_spawn w0).
  { intros w0. destruct (Hbody w0) as [[-> _]|[-> _]]; [now left|now right]. }
  assert (Hplain :
    template (snd (body w)) = template w
    /\ docker_config (snd (body w)) = docker_config w
    /\ (spawned w <= spawned (snd (body w)) <= S (spawned w))%nat
    /\ (forall e, fst (body w) = Raise e -> spawned (snd (body w)) = S (spawned w) ->
        (exists msg, e = IIBError msg) \/ e = UnicodeDecodeError)).
  { destruct (Hbody w) as [[Hstate _]|[Hstate Hraise]]; rewrite Hstate.
    - repeat split; lia.
    - unfold after_spawn. cbn. repeat split; try lia.
      intros e He _. now apply Hraise. }
  unfold set_registry_token.
  destruct overwrite_target_index_token as [token|]; [|exact Hplain].
  destruct (str_truthy (Some token)) eqn:Htoken; cbn [negb andb]; [|exact Hplain].
  destruct (str_truthy (Some from_index)) eqn:Hindex; cbn [negb]; [|exact Hplain].
  match goal with
  | |- context [set_registry_auths ?a body w] => set (auths := a)
  end.
  assert (Htemplate : template (snd (set_registry_auths auths body w)) = template w).
  { apply set_registry_auths_exit_template. intros w0.
    destruct (Hworld w0) as [-> | ->]; reflexivity. }
  split; [exact Htemplate|].
  destruct (decide (docker_config w = NoDirectory)) as [Hnone|Hdir].
  { destruct (set_registry_auths_no_directory auths body w eq_refl Hnone)
      as (Hsame & _ & _).
    rewrite Hsame, Hnone. repeat split; lia. }
  assert (Hkept : forall w0, docker_config w0 <> NoDirectory ->
                             docker_config (snd (body w0)) <> NoDirectory).
  { intros w0 Hw0. destruct (Hworld w0) as [-> | ->]; exact Hw0. }
  split.
  { rewrite set_registry_auths_exit by (reflexivity || assumption).
    rewrite Htemplate. now destruct (docker_config w). }
  assert (Hscope : exists r w2,
            (write_registry_auths auths ;;; body) w = (r, w2)
            /\ docker_config w2 <> NoDirectory
            /\ (spawned w <= spawned w2 <= S (spawned w))%nat
            /\ (forall e, r = Raise e -> spawned w2 = S (spawned w) ->
                (exists msg, e = IIBError msg) \/ e = UnicodeDecodeError)).
  { unfold bind.
    pose proof (write_registry_auths_spawned auths w) as Hwrite.
    pose proof (write_registry_auths_directory auths w) as Hwritten.
    destruct (write_registry_auths auths w) as [[[]|e0] w1];
      cbn [snd] in Hwrite, Hwritten;
      assert (Hw1 : docker_config w1 <> NoDirectory) by (now rewrite Hwritten).
    - pose proof (Hkept w1 Hw1) as Hw2. pose proof (Hbody w1) as Hb.
      destruct (body w1) as [r w2]. cbn [fst snd] in Hw2, Hb.
      exists r, w2. split; [reflexivity|]. split; [exact Hw2|].
      destruct Hb as [[-> _]|[-> Hraise]].
      + rewrite Hwrite. split; [lia|]. intros e _ Hcount. lia.
      + unfold after_spawn. cbn [set_spawned spawned]. rewrite Hwrite.
        split; [lia|]. intros e -> _. now apply Hraise.
    - exists (Raise e0), w1. split; [reflexivity|]. split; [exact Hw1|].
      rewrite Hwrite. split; [lia|]. intros e _ Hcount. lia. }
  destruct Hscope as (r & w2 & Hscope & Hw2 & Hcount & Hraise).
  unfold set_registry_auths. cbn [auths py_truthy negb]. fold auths.
  rewrite (try_finally_reset _ w w2 r Hscope Hw2).
  cbn [fst snd set_docker_config spawned]. split; [exact Hcount|exact Hraise].
Qed.

(** ** The binary image of a request *)

(** X25: [RequestConfig.binary_image] never returns a falsy value: it
    returns the binary image of the request when that is set and not empty,
    and otherwise what [get_binary_image_from_config] finds for the version
    of the index image; it never returns [None] or an empty string. *)
Theorem binary_image_never_falsy (self : request_config) (index_info : index_image_info)
    (distribution_scope image : pyval) :
  binary_image self index_info distribution_scope = Ok image ->
  py_truthy image = true
  /\ exists own,
       getattr self "_binary_image" = Ok own
       /\ (if py_truthy own then image = own
           else exists config,
                  getattr self "binary_image_config" = Ok config
                  /\ get_binary_image_from_config (ocp_version index_info)
                       distribution_scope config = Ok image).
Proof.
  unfold binary_image. intros Hrun.
  destruct (getattr self "_binary_image") as [own|e]; [|discriminate Hrun].
  cbn [rbind] in Hrun.
  destruct (py_truthy own) eqn:Hown; cbn [negb] in Hrun.
  - injection Hrun as <-. split; [exact Hown|]. exists own. now rewrite Hown.
  - destruct (getattr self "binary_image_config") as [config|e];
      [|discriminate Hrun].
    cbn [rbind] in Hrun. split.
    + unfold get_binary_image_from_config in Hrun.
      destruct (py_get_key config distribution_scope (PDict [])) as [by_scope|e];
        [|discriminate Hrun].
      cbn [rbind] in Hrun.
      destruct (py_get_key by_scope (ocp_version index_info) PNone) as [found|e];
        [|discriminate Hrun].
      cbn [rbind] in Hrun.
      destruct (py_truthy found) eqn:Hfound; cbn [negb] in Hrun;
        [|discriminate Hrun].
      now injection Hrun as <-.
    + exists own. split; [reflexivity|]. rewrite Hown. now exists config.
Qed.

End Utils.
(** ** Retrying *)



Section RetryContract.
Context {W A : Type}.
Variable wait_on : exn -> bool.
Variable function : W -> result A * W.

#[local] Abbreviation call := (nth_call function).
#[local] Abbreviation retryable := (fails_retryably wait_on).

(** C8: for a wrapper configured with [N >= 1] attempts and the retried
    class [wait_on], started in [w]: an invocation that raises outside the
    class ends the run at once with that exception; at most [N]
    invocations are made; when the [N]-th invocation raises inside the
    class, that exception is raised, unchanged; and an invocation that
    succeeds ends the run with its result.  [invocations] is read from a
    counter that [counted] keeps beside the state. *)
Theorem retry_contract (N : Z) (w : W) :
  (1 <= N)%Z ->
  let run := retry wait_on function N w in
  let counted_run := retry wait_on (counted function) N (w, 0%nat) in
  let invocations := snd (snd counted_run) in
  (fst counted_run, fst (snd counted_run)) = run
  /\ (1 <= invocations <= Z.to_nat N)%nat
  /\ (forall k e w', (Z.of_nat k < N)%Z ->
        (forall i, (i < k)%nat -> fails_retryably wait_on (nth_call function i w)) ->
        nth_call function k w = (Raise e, w') -> wait_on e = false ->
        run = (Raise e, w') /\ invocations = S k)
  /\ (forall k v w', (Z.of_nat k < N)%Z ->
        (forall i, (i < k)%nat -> fails_retryably wait_on (nth_call function i w)) ->
        nth_call function k w = (Ok v, w') ->
        run = (Ok v, w') /\ invocations = S k)
  /\ (forall e w',
        (forall i, (i < Z.to_nat N - 1)%nat ->
                   fails_retryably wait_on (nth_call function i w)) ->
        nth_call function (Z.to_nat N - 1) w = (Raise e, w') -> wait_on e = true ->
        run = (Raise e, w') /\ invocations = Z.to_nat N).
Proof.
  intros HN run counted_run invocations.
  assert (Hsettle : forall k,
    (Z.of_nat k < N)%Z ->
    (forall i, (i < k)%nat -> retryable (call i w)) ->
    ~ retryable (call k w) \/ Z.of_nat k = (N - 1)%Z ->
    run = call k w /\ counted_run = (fst (call k w), (snd (call k w), S k))).
  { intros k Hk Hbefore Hlast. split.
    - apply retry_loop_settles; [lia|exact Hbefore|].
      destruct Hlast; [now left|right; lia].
    - unfold counted_run, retry.
      rewrite (retry_loop_settles wait_on (counted function) k); [apply nth_call_counted|lia| |].
      + intros i Hi. rewrite nth_call_counted. apply (Hbefore i Hi).
      + rewrite nth_call_counted. destruct Hlast; [now left|right; lia]. }
  destruct (settling_call_exists wait_on function (Z.to_nat N - 1) w) as (k & Hk & Hbefore & Hlast).
  assert (Hk' : (Z.of_nat k < N)%Z) by lia.
  destruct (Hsettle k Hk' Hbefore) as [Hrun Hcounted];
    [destruct Hlast; [now left|right; lia]|].
  split; [|split; [|split; [|split]]].
  - rewrite Hcounted, Hrun. cbn. now destruct (call k w).
  - unfold invocations. rewrite Hcounted. cbn. lia.
  - intros j e w' Hj Hb Hcall Hwait.
    destruct (Hsettle j Hj Hb) as [Hr Hc].
    { left. unfold fails_retryably. rewrite Hcall. cbn. now rewrite Hwait. }
    unfold invocations. rewrite Hr, Hc, Hcall. now split.
  - intros j v w' Hj Hb Hcall.
    destruct (Hsettle j Hj Hb) as [Hr Hc].
    { left. unfold fails_retryably. now rewrite Hcall. }
    unfold invocations. rewrite Hr, Hc, Hcall. now split.
  - intros e w' Hb Hcall Hwait.
    destruct (Hsettle (Z.to_nat N - 1)%nat ltac:(lia) Hb) as [Hr Hc]; [right; lia|].
    unfold invocations. rewrite Hr, Hc, Hcall. split; [reflexivity|cbn; lia].
Qed.
End RetryContract.
(** * Sample runs *)

(** C1: a credential scope does not put back a plain file.  Entered with
    the file [~/.docker/config.json] holding [{}] and no template, either
    scope runs its body, returns, and leaves the path absent: the content
    that was there before the call is lost, although the docstring of each
    of the two context managers says that it resets the authentication to
    the way it was. *)
Lemma credential_scope_plain_file_not_restored :
  docker_config plain_file_world = File "{}"
  /\ set_registry_auths sample_conf sample_json_loads sample_json_dumps
       sample_auths (ret tt) plain_file_world
     = (Ok tt, set_docker_config Absent plain_file_world)
  /\ set_registry_token sample_conf sample_json_loads sample_json_dumps
       sample_b64encode sample_registry (Some "user:password")
       (Some "quay.io/ns/index:v4.5") (ret tt) plain_file_world
     = (Ok tt, set_docker_config Absent plain_file_world).
Proof. repeat split; vm_compute; reflexivity. Qed.


(** The sample bundle as the whole deprecation list. *)
Lemma get_bundles_from_deprecation_list_raw_match_witness :
  get_bundles_from_deprecation_list sample_conf sample_json_loads sample_sha256
    sample_repr sample_splitlines sample_re_match_error never_cache
    ["quay.io/ns/bundle:v1"; "quay.io/ns/bundle@sha256:aaa"] ["quay.io/ns/bundle:v1"]
    sample_world
  = (Ok (filter (fun bundle => bundle ∈ ["quay.io/ns/bundle@sha256:aaa"])
           ["quay.io/ns/bundle:v1"; "quay.io/ns/bundle@sha256:aaa"]),
     set_spawned 1 sample_world)
  /\ (forall bundle, contains "@" bundle = false ->
      bundle ∉ filter (fun bundle => bundle ∈ ["quay.io/ns/bundle@sha256:aaa"])
                 ["quay.io/ns/bundle:v1"; "quay.io/ns/bundle@sha256:aaa"]).
Proof.
  apply (get_bundles_from_deprecation_list_raw_match sample_conf sample_json_loads
           sample_sha256 sample_repr sample_splitlines sample_re_match_error
           never_cache).
  vm_compute; reflexivity.
Defined.

(** Scenario B of the specification, on the sample image, whose manifest
    has no carriage return. *)
Lemma get_resolved_image_schema2_witness :
  get_resolved_image sample_conf sample_json_loads sample_sha256 sample_repr
    sample_splitlines sample_re_match_error never_cache
    "quay.io/ns/image:v1" sample_world
  = (Ok (_get_container_image_name "quay.io/ns/image:v1" ++ "@sha256:"
         ++ sample_sha256 sample_manifest_text),
     set_spawned 1 sample_world)
  /\ is_image_name_of "quay.io/ns/image:v1"
       (_get_container_image_name "quay.io/ns/image:v1").
Proof.
  apply (get_resolved_image_schema2 sample_conf sample_json_loads sample_sha256
           sample_repr sample_splitlines sample_re_match_error never_cache
           "quay.io/ns/image:v1" sample_manifest_text sample_manifest (PInt 2));
    vm_compute; reflexivity.
Defined.

(** C4: on a manifest whose bytes hold a carriage return before a line
    feed, [get_resolved_image] does not return the SHA-256 digest of the
    bytes the raw inspection printed.  The tool prints the bytes
    [crlf_manifest_bytes], which parse to a JSON object whose
    [schemaVersion] is 2; [subprocess.run] reads them in text mode and hands
    over [crlf_manifest_text], in which the pair is a line feed; the
    function returns the image name, [@sha256:] and the digest of that
    text, which is another string than the bytes printed, and so another
    result than the digest of the bytes wherever the hash tells the two
    apart. *)
Theorem get_resolved_image_crlf_manifest :
  subprocess crlf_world 0
    ["skopeo"; "--command-timeout"; "300s"; "inspect";
     "docker://quay.io/ns/image:v1"; "--raw"]
  = Exited 0 crlf_manifest_bytes ""
  /\ (exists manifest,
        crlf_json_loads crlf_manifest_bytes = Some manifest
        /\ py_get manifest "schemaVersion" PNone = Ok (PInt 2))
  /\ translate_newlines crlf_manifest_bytes = Some crlf_manifest_text
  /\ crlf_manifest_text <> crlf_manifest_bytes
  /\ (forall sha256_hexdigest : string -> string,
        get_resolved_image sample_conf crlf_json_loads sha256_hexdigest sample_repr
          sample_splitlines sample_re_match_error never_cache
          "quay.io/ns/image:v1" crlf_world
        = (Ok ("quay.io/ns/image@sha256:" ++ sha256_hexdigest crlf_manifest_text),
           set_spawned 1 crlf_world))
  /\ (forall sha256_hexdigest : string -> string,
        sha256_hexdigest crlf_manifest_text <> sha256_hexdigest crlf_manifest_bytes ->
        fst (get_resolved_image sample_conf crlf_json_loads sha256_hexdigest
               sample_repr sample_splitlines sample_re_match_error never_cache
               "quay.io/ns/image:v1" crlf_world)
        <> Ok (_get_container_image_name "quay.io/ns/image:v1" ++ "@sha256:"
               ++ sha256_hexdigest crlf_manifest_bytes)).
Proof.
  assert (Hrun : forall sha256_hexdigest : string -> string,
    get_resolved_image sample_conf crlf_json_loads sha256_hexdigest sample_repr
      sample_splitlines sample_re_match_error never_cache
      "quay.io/ns/image:v1" crlf_world
    = (Ok ("quay.io/ns/image@sha256:" ++ sha256_hexdigest crlf_manifest_text),
       set_spawned 1 crlf_world)).
  { intros sha256_hexdigest. vm_compute. reflexivity. }
  split; [reflexivity|]. split.
  { exists sample_manifest. split; vm_compute; reflexivity. }
  split; [vm_compute; reflexivity|]. split; [discriminate|].
  split; [exact Hrun|].
  intros sha256_hexdigest Hdiffer. rewrite Hrun. cbn [fst].
  intros Hsame. apply Hdiffer.
  change (_get_container_image_name "quay.io/ns/image:v1")
    with "quay.io/ns/image" in Hsame.
  cbn [String.append] in Hsame. now inversion Hsame.
Qed.

(** Scenario C of the specification, on the check alone: s390x is the one
    architecture requested and not available, and the message names it. *)
Lemma check_binary_image_arches_spec_witness :
  check_binary_image_arches {[ "amd64"; "s390x" ]} {[ "amd64" ]}
  = Raise (IIBError
             "The binary image is not available for the following arches: s390x").
Proof.
  destruct (check_binary_image_arches_spec {[ "amd64"; "s390x" ]} {[ "amd64" ]})
    as (_ & _ & Hmessage).
  destruct Hmessage as (missing & Hrun & _ & Hnodup & Hmissing).
  { apply (bool_decide_unpack _). vm_compute. exact I. }
  assert (Hone : forall a, a ∈ missing -> a = "s390x").
  { intros a Ha. apply Hmissing in Ha as [Hrequested Hnot].
    apply elem_of_union in Hrequested as [Hamd|Hs390x].
    - now destruct Hnot.
    - now apply elem_of_singleton in Hs390x. }
  assert (Hthere : "s390x" ∈ missing).
  { apply Hmissing. split.
    - apply elem_of_union_r. now apply elem_of_singleton.
    - intros Hin. apply elem_of_singleton in Hin. discriminate. }
  destruct missing as [|x [|y rest]].
  - now apply elem_of_nil in Hthere.
  - rewrite Hrun, (Hone x) by apply list_elem_of_here. reflexivity.
  - exfalso. apply NoDup_cons in Hnodup as [Hfresh _]. apply Hfresh.
    rewrite (Hone x) by apply list_elem_of_here.
    rewrite (Hone y) by (apply list_elem_of_further, list_elem_of_here).
    apply list_elem_of_here.
Defined.

(** A request for dev on an index that is prod. *)
Lemma validate_distribution_scope_ranked_witness :
  _validate_distribution_scope sample_repr (PStr "prod") PNone = Ok (PStr "prod")
  /\ _validate_distribution_scope sample_repr (PStr "prod") (PStr "") = Ok (PStr "prod")
  /\ (is_raise (_validate_distribution_scope sample_repr (PStr "prod") (PStr "dev")) = true
      <-> (scope_rank "prod" < scope_rank "dev")%nat)
  /\ ((scope_rank "prod" < scope_rank "dev")%nat ->
      exists msg, _validate_distribution_scope sample_repr (PStr "prod") (PStr "dev")
                  = Raise (IIBError msg))
  /\ ((scope_rank "dev" <= scope_rank "prod")%nat ->
      _validate_distribution_scope sample_repr (PStr "prod") (PStr "dev")
      = Ok (PStr "dev")).
Proof.
  apply (validate_distribution_scope_ranked sample_repr "prod" "dev");
    unfold scopes; rewrite !elem_of_cons; [right; right; left|left]; reflexivity.
Defined.

(** A request for a scope that does not exist. *)
Lemma validate_distribution_scope_unknown_scope_witness :
  _validate_distribution_scope sample_repr (PStr "prod") (PStr "qa") = Raise ValueError
  /\ is_IIBError ValueError = false.
Proof.
  apply (validate_distribution_scope_unknown_scope sample_repr "prod" "qa");
    [discriminate|].
  left. unfold scopes. rewrite !not_elem_of_cons. repeat split; try discriminate.
  apply not_elem_of_nil.
Defined.

(** Scenario A of the specification. *)
Lemma get_index_image_info_absent_witness :
  get_index_image_info sample_conf sample_json_loads sample_json_dumps
    sample_sha256 sample_b64encode sample_registry sample_repr sample_splitlines
    sample_re_match_error never_cache (Some "user:password") None (Some "v4.6")
    sample_world
  = (Ok {| resolved_from_index := None;
           ocp_version := PStr (default "v4.5" (Some "v4.6"));
           arches := ∅;
           resolved_distribution_scope := PStr "prod" |}, sample_world)
  /\ get_index_image_info sample_conf sample_json_loads sample_json_dumps
       sample_sha256 sample_b64encode sample_registry sample_repr sample_splitlines
       sample_re_match_error never_cache (Some "user:password") None None
       sample_world
     = (Ok {| resolved_from_index := None;
              ocp_version := PStr "v4.5";
              arches := ∅;
              resolved_distribution_scope := PStr "prod" |}, sample_world).
Proof.
  apply (get_index_image_info_absent sample_conf sample_json_loads sample_json_dumps
           sample_sha256 sample_b64encode sample_registry sample_repr
           sample_splitlines sample_re_match_error never_cache).
  reflexivity.
Defined.

(** Three attempts at an operation that succeeds at its third invocation. *)
Lemma retry_contract_witness :
  retry is_IIBError flaky 3 0%nat = (Ok 2%nat, 3%nat)
  /\ snd (snd (retry is_IIBError (counted flaky) 3 (0%nat, 0%nat))) = 3%nat.
Proof.
  pose proof (retry_contract is_IIBError flaky 3 0%nat ltac:(lia)) as Hcontract.
  cbv zeta in Hcontract.
  destruct Hcontract as (_ & _ & _ & Hsuccess & _).
  apply (Hsuccess 2%nat 2%nat 3%nat); [lia| |reflexivity].
  intros [|[|i]] Hi; [reflexivity|reflexivity|lia].
Defined.

(** C9 fails on the code: two configurations of one class that differ in
    [from_index] compare equal, because [__eq__] compares the slots of
    [self] with themselves. *)
Example request_config_eq_differing_fields :
  (a <- __init__ RequestConfigAddRm [("from_index", PStr "quay.io/ns/index:v4.5")] ;;
   b <- __init__ RequestConfigAddRm [("from_index", PStr "quay.io/ns/index:v4.6")] ;;
   same <- __eq__ a b ;;
   Ok (same, getattr a "from_index", getattr b "from_index"))%res
  = Ok (true, Ok (PStr "quay.io/ns/index:v4.5"), Ok (PStr "quay.io/ns/index:v4.6")).
Proof. vm_compute. reflexivity. Qed.

(** [skopeo_inspect] is the body under the cache, retried on [IIBError] as
    many times as the worker is configured for. *)
Lemma skopeo_inspect_is_retried (conf : worker_config)
    (json_loads : string -> option pyval) (splitlines : string -> list string)
    (re_match_error : string -> option string)
    (should_use_cache : list string -> bool -> bool -> bool)
    (args : list string) (return_json require_media_type : bool) :
  skopeo_inspect conf json_loads splitlines re_match_error should_use_cache
    args return_json require_media_type
  = retry is_IIBError
      (dogpile_cache should_use_cache "skopeo_inspect"
         (skopeo_inspect_body conf json_loads splitlines re_match_error)
         args return_json require_media_type)
      (iib_total_attempts conf).
Proof. reflexivity. Qed.

(** Scenario C of the specification: the request asks for amd64 and s390x,
    the binary image is built for amd64 only, and the preparation fails
    naming s390x, after three inspections. *)
Example scenario_missing_architecture :
  (build_request_config <-
     __init__ RequestConfigAddRm
       [("_binary_image", PStr "quay.io/ns/image:v1");
        ("add_arches", PList [PStr "s390x"; PStr "amd64"])] ;;
   let '(outcome, w) :=
     prepare_request_for_build sample_conf sample_json_loads sample_json_dumps
       sample_sha256 sample_b64encode sample_registry sample_repr
       sample_splitlines sample_re_match_error never_cache
       sample_set_request_state 1 build_request_config sample_world in
   Ok (is_raise outcome, match outcome with Raise e => Some e | Ok _ => None end,
       spawned w))%res
  = Ok (true,
        Some (IIBError
                "The binary image is not available for the following arches: s390x"),
        3%nat).
Proof. vm_compute. reflexivity. Qed.

(** Scenario D of the specification. *)
Example scenario_scope_regression :
  is_raise (_validate_distribution_scope sample_repr (PStr "dev") (PStr "prod")) = true
  /\ _validate_distribution_scope sample_repr (PStr "prod") (PStr "dev")
     = Ok (PStr "dev").
Proof. split; reflexivity. Qed.

(** Scenario E of the specification: the deprecation list resolves to
    [quay.io/ns/bundle@sha256:aaa]; of the two input bundles, the tag
    reference that resolves to it is left out and the digest reference is
    kept. *)
Example scenario_unresolved_bundle_not_matched :
  fst (get_bundles_from_deprecation_list sample_conf sample_json_loads sample_sha256
         sample_repr sample_splitlines sample_re_match_error never_cache
         ["quay.io/ns/bundle:v1"; "quay.io/ns/bundle@sha256:aaa"]
         ["quay.io/ns/bundle:v1"] sample_world)
  = Ok ["quay.io/ns/bundle@sha256:aaa"].
Proof. vm_compute. reflexivity. Qed.

(** A scope around a body that raises: the exception comes out and the
    Docker configuration is the link to the template again. *)
Example scenario_scope_around_failure :
  let '(outcome, w) :=
    set_registry_token sample_conf sample_json_loads sample_json_dumps
      sample_b64encode sample_registry (Some "user:password")
      (Some "quay.io/ns/image:v1")
      (raise (IIBError "Failed to inspect") : M unit) sample_world in
  outcome = Raise (IIBError "Failed to inspect")
  /\ docker_config w = Symlink "/home/iib/.docker/config.json.template".
Proof. vm_compute. split; reflexivity. Qed.

(** Without the directory [~/.docker] and with a template elsewhere, the
    reset raises the [FileNotFoundError] of the link it cannot make, and a
    credential scope raises it without running its body. *)
Example scenario_missing_directory :
  reset_docker_config elsewhere_conf no_directory_world
  = (Raise FileNotFoundError, no_directory_world)
  /\ set_registry_auths elsewhere_conf sample_json_loads sample_json_dumps
       sample_auths (raise (IIBError "the body ran") : M unit) no_directory_world
     = (Raise FileNotFoundError, no_directory_world).
Proof. split; vm_compute; reflexivity. Qed.

(** Where no tool is installed, an inspection and a pull raise the
    [FileNotFoundError] of the launch at once: no child process has run and
    nothing is retried. *)
Example scenario_missing_tool :
  skopeo_inspect sample_conf sample_json_loads sample_splitlines
    sample_re_match_error never_cache ["docker://quay.io/ns/image:v1"]
    true false no_tool_world
  = (Raise FileNotFoundError, no_tool_world)
  /\ podman_pull sample_conf sample_splitlines sample_re_match_error
       ["quay.io/ns/image:v1"] no_tool_world
     = (Raise FileNotFoundError, no_tool_world).
Proof. split; vm_compute; reflexivity. Qed.

(** * Further sample runs *)

(** With no attempt configured, the flaky operation is tried once. *)
Lemma retry_single_attempt_witness :
  retry is_IIBError flaky 0 0%nat = flaky 0%nat
  /\ snd (snd (retry is_IIBError (counted flaky) 0 (0%nat, 0%nat))) = 1%nat.
Proof. apply (retry_single_attempt is_IIBError flaky 0 0%nat). lia. Defined.

(** A failed [opm] whose last error line is reported. *)
Lemma run_cmd_opm_error_witness :
  run_cmd sample_splitlines sample_error_detail
    ["opm"; "index"; "deprecatetruncate"] (Some "Failed to deprecate the bundles.")
    opm_world
  = (Raise (IIBError ("Failed to deprecate the bundles: "
                      ++ "bundle quay.io/ns/bundle:v1 is not in the index")),
     after_spawn opm_world).
Proof.
  refine (proj1 (run_cmd_opm_error sample_splitlines sample_error_detail
                   ["index"; "deprecatetruncate"]
                   "Failed to deprecate the bundles." opm_world
                   {| returncode := 1; stdout := "";
                      stderr := "Error: bundle quay.io/ns/bundle:v1 is not in the index" |}
                   _ _ _)
            [] [] "Error: bundle quay.io/ns/bundle:v1 is not in the index"
            "bundle quay.io/ns/bundle:v1 is not in the index" _ _ _);
    try discriminate; try reflexivity.
  intros l Hl. now apply elem_of_nil in Hl.
Defined.


(** The image with a schema 1 manifest resolves to the digest that the
    inspection reports. *)
Lemma get_resolved_image_schema1_witness :
  get_resolved_image sample_conf extended_json_loads sample_sha256 sample_repr
    sample_splitlines sample_re_match_error never_cache
    "quay.io/ns/legacy:v1" extended_world
  = (Ok "quay.io/ns/legacy@sha256:0f3c9a", set_spawned 2 extended_world).
Proof.
  apply (get_resolved_image_schema1 sample_conf extended_json_loads sample_sha256
           sample_repr sample_splitlines sample_re_match_error never_cache
           "quay.io/ns/legacy:v1" legacy_manifest_text legacy_manifest (PInt 1)
           legacy_inspect (PStr "sha256:0f3c9a")
           extended_world (set_spawned 1 extended_world)
           (set_spawned 2 extended_world));
    vm_compute; reflexivity.
Defined.

(** The sample image keeps its name when it is resolved. *)
Lemma get_resolved_image_keeps_name_witness :
  get_resolved_image sample_conf sample_json_loads sample_sha256 sample_repr
    sample_splitlines sample_re_match_error never_cache
    "quay.io/ns/image:v1" sample_world
  = (Ok "quay.io/ns/image@sha256:5d41402abc4b2a76", set_spawned 1 sample_world)
  /\ (exists digest,
        "quay.io/ns/image@sha256:5d41402abc4b2a76"
        = _get_container_image_name "quay.io/ns/image:v1" ++ "@" ++ digest)
  /\ _get_container_image_name "quay.io/ns/image@sha256:5d41402abc4b2a76"
     = _get_container_image_name "quay.io/ns/image:v1".
Proof.
  assert (Hrun :
    get_resolved_image sample_conf sample_json_loads sample_sha256 sample_repr
      sample_splitlines sample_re_match_error never_cache
      "quay.io/ns/image:v1" sample_world
    = (Ok "quay.io/ns/image@sha256:5d41402abc4b2a76", set_spawned 1 sample_world))
    by (vm_compute; reflexivity).
  split; [exact Hrun|].
  exact (get_resolved_image_keeps_name sample_conf sample_json_loads sample_sha256
           sample_repr sample_splitlines sample_re_match_error never_cache
           "quay.io/ns/image:v1" "quay.io/ns/image@sha256:5d41402abc4b2a76"
           sample_world (set_spawned 1 sample_world) Hrun).
Defined.

(** Three bundles, two of them the same, resolve to two pull
    specifications. *)
Lemma get_resolved_bundles_result_witness :
  let bundles := ["quay.io/ns/bundle:v1"; "quay.io/ns/image:v1"; "quay.io/ns/bundle:v1"] in
  let resolved :=
    ["quay.io/ns/image@sha256:5d41402abc4b2a76"; "quay.io/ns/bundle@sha256:aaa"] in
  get_resolved_bundles sample_conf sample_json_loads sample_sha256 sample_repr
    sample_splitlines sample_re_match_error never_cache bundles sample_world
  = (Ok resolved, set_spawned 4 sample_world)
  /\ NoDup resolved
  /\ (length resolved <= length bundles)%nat
  /\ forall r, r ∈ resolved ->
       exists bundle digest,
         bundle ∈ bundles /\ r = _get_container_image_name bundle ++ "@" ++ digest.
Proof.
  intros bundles resolved.
  assert (Hrun :
    get_resolved_bundles sample_conf sample_json_loads sample_sha256 sample_repr
      sample_splitlines sample_re_match_error never_cache bundles sample_world
    = (Ok resolved, set_spawned 4 sample_world)) by (vm_compute; reflexivity).
  split; [exact Hrun|].
  exact (get_resolved_bundles_result sample_conf sample_json_loads sample_sha256
           sample_repr sample_splitlines sample_re_match_error never_cache
           bundles resolved sample_world (set_spawned 4 sample_world) Hrun).
Defined.

(** The labels of the sample image, asked for with and without the
    scheme. *)
Lemma get_image_labels_scheme_witness :
  get_image_labels sample_conf sample_json_loads sample_splitlines
    sample_re_match_error never_cache ("docker://" ++ "quay.io/ns/image:v1")
  = get_image_labels sample_conf sample_json_loads sample_splitlines
      sample_re_match_error never_cache "quay.io/ns/image:v1".
Proof.
  apply (get_image_labels_scheme sample_conf sample_json_loads sample_splitlines
           sample_re_match_error never_cache "quay.io/ns/image:v1").
  reflexivity.
Defined.

(** The sample image has a version label and no scope label. *)
Lemma get_image_label_absent_witness :
  get_image_label sample_conf sample_json_loads sample_splitlines
    sample_re_match_error never_cache "quay.io/ns/image:v1"
    "com.redhat.index.delivery.distribution_scope" sample_world
  = (Ok PNone, set_spawned 1 sample_world).
Proof.
  apply (get_image_label_absent sample_conf sample_json_loads sample_splitlines
           sample_re_match_error never_cache "quay.io/ns/image:v1"
           "com.redhat.index.delivery.distribution_scope"
           [(Some "architecture", PStr "amd64");
            (Some "config",
             PDict [(Some "Labels",
                     PDict [(Some "com.redhat.index.delivery.version",
                             PStr "v4.6")])])]
           sample_world (set_spawned 1 sample_world));
    [reflexivity|vm_compute; reflexivity|].
  right. eexists. split; [reflexivity|]. right. eexists. split; reflexivity.
Defined.

(** The index image built for two architectures. *)
Lemma get_image_arches_manifest_list_witness :
  get_image_arches sample_conf extended_json_loads sample_splitlines
    sample_re_match_error never_cache "quay.io/ns/index:v4.6" extended_world
  = (Ok (list_to_set ["amd64"; "s390x"]), set_spawned 1 extended_world).
Proof.
  apply (get_image_arches_manifest_list sample_conf extended_json_loads
           sample_splitlines sample_re_match_error never_cache
           "quay.io/ns/index:v4.6" index_list
           (PStr "application/vnd.docker.distribution.manifest.list.v2+json")
           [PDict [(Some "platform", PDict [(Some "architecture", PStr "amd64")])];
            PDict [(Some "platform", PDict [(Some "architecture", PStr "s390x")])]]
           ["amd64"; "s390x"] extended_world (set_spawned 1 extended_world));
    try (vm_compute; reflexivity).
  repeat constructor; eexists; split; reflexivity.
Defined.

(** The sample image is a single manifest, built for one architecture. *)
Lemma get_image_arches_single_or_unsupported_witness :
  get_image_arches sample_conf sample_json_loads sample_splitlines
    sample_re_match_error never_cache "quay.io/ns/image:v1" sample_world
  = (Ok {[ "amd64" ]}, set_spawned 2 sample_world).
Proof.
  refine (proj1 (get_image_arches_single_or_unsupported sample_conf
                   sample_json_loads sample_splitlines sample_re_match_error
                   never_cache "quay.io/ns/image:v1" sample_manifest
                   (PStr "application/vnd.docker.distribution.manifest.v2+json")
                   sample_world (set_spawned 1 sample_world) _ _ _)
            _ sample_config "amd64" (set_spawned 2 sample_world) _ _);
    vm_compute; reflexivity.
Defined.

(** The credentials of one registry, merged into the empty template of the
    sample worker. *)
Lemma set_registry_auths_merges_witness :
  let credentials := [(Some "quay.io", PDict [(Some "auth", PStr "dXNlcjpwYXNzd29yZA==")])] in
  let merged := merged_config [] [] credentials in
  let inside := set_docker_config (File (sample_json_dumps (PDict merged))) sample_world in
  (docker_config (snd (ret tt inside)) <> NoDirectory ->
   set_registry_auths sample_conf sample_json_loads sample_json_dumps
     sample_auths (ret tt) sample_world
   = (fst (ret tt inside),
      set_docker_config (reset_state sample_conf (template (snd (ret tt inside))))
        (snd (ret tt inside))))
  /\ (exists auths, dict_lookup (Some "auths") merged = Some (PDict auths)
        /\ (forall registry credential,
              (registry, credential) ∈ credentials ->
              dict_lookup registry auths = Some credential)
        /\ (forall registry, registry ∉ map fst credentials ->
              dict_lookup registry auths = dict_lookup registry []))
  /\ (forall key, key <> Some "auths" ->
        dict_lookup key merged = dict_lookup key []).
Proof.
  apply (set_registry_auths_merges sample_conf sample_json_loads sample_json_dumps
           [(Some "auths",
             PDict [(Some "quay.io", PDict [(Some "auth", PStr "dXNlcjpwYXNzd29yZA==")])])]
           [(Some "quay.io", PDict [(Some "auth", PStr "dXNlcjpwYXNzd29yZA==")])]
           [] [] "{}" "{}" (ret tt) sample_world);
    try reflexivity; try discriminate.
  repeat constructor. apply not_elem_of_nil.
Defined.

(** A template that cannot be read as a JSON document stops the scope
    before its body: a text that is no JSON, with and without the directory
    [~/.docker], and bytes that are no UTF-8. *)
Lemma set_registry_auths_bad_template_witness :
  set_registry_auths sample_conf sample_json_loads sample_json_dumps
    sample_auths (ret tt) broken_template_world
  = (Raise JSONDecodeError,
     set_docker_config (Symlink "/home/iib/.docker/config.json.template")
       broken_template_world)
  /\ set_registry_auths elsewhere_conf sample_json_loads sample_json_dumps
       sample_auths (ret tt) (set_docker_config NoDirectory broken_template_world)
     = (Raise FileNotFoundError, set_docker_config NoDirectory broken_template_world)
  /\ set_registry_auths sample_conf sample_json_loads sample_json_dumps
       sample_auths (ret tt)
       (set_template (Some (String "233" "")) plain_file_world)
     = (Raise UnicodeDecodeError,
        set_docker_config (Symlink "/home/iib/.docker/config.json.template")
          (set_template (Some (String "233" "")) plain_file_world)).
Proof.
  split; [|split].
  - apply (set_registry_auths_bad_template sample_conf sample_json_loads
             sample_json_dumps sample_auths "{auths" (ret tt) broken_template_world);
      try reflexivity.
    intros text [= <-]. reflexivity.
  - apply (set_registry_auths_bad_template elsewhere_conf sample_json_loads
             sample_json_dumps sample_auths "{auths" (ret tt)
             (set_docker_config NoDirectory broken_template_world));
      try reflexivity.
    intros text [= <-]. reflexivity.
  - apply (set_registry_auths_bad_template sample_conf sample_json_loads
             sample_json_dumps sample_auths (String "233" "") (ret tt)
             (set_template (Some (String "233" "")) plain_file_world));
      try reflexivity.
    intros text Hdecode. vm_compute in Hdecode. discriminate Hdecode.
Defined.

(** The sample image as an index, read with a token. *)
Lemma get_index_image_info_files_witness :
  let after :=
    snd (get_index_image_info sample_conf sample_json_loads sample_json_dumps
           sample_sha256 sample_b64encode sample_registry sample_repr
           sample_splitlines sample_re_match_error never_cache
           (Some "user:password") (Some "quay.io/ns/image:v1") None sample_world) in
  template after = template sample_world
  /\ docker_config after = reset_state sample_conf (template sample_world).
Proof.
  apply (get_index_image_info_files sample_conf sample_json_loads sample_json_dumps
           sample_sha256 sample_b64encode sample_registry sample_repr
           sample_splitlines sample_re_match_error never_cache
           (Some "user:password") "quay.io/ns/image:v1" None sample_world).
  discriminate.
Defined.

Ltac decide_closed := apply (bool_decide_unpack _); vm_compute; exact I.

(** A request to add to an index, built from two keywords, and three calls
    that fail: a keyword [self], a string for [__class__], and a keyword
    that is a slot of another class. *)
Lemma request_config_init_witness :
  (exists self,
     __init__ RequestConfigAddRm
       [("from_index", PStr "quay.io/ns/index:v4.5");
        ("add_arches", PList [PStr "amd64"])]
     = Ok self
     /\ cls self = RequestConfigAddRm
     /\ getattr self "from_index" = Ok (PStr "quay.io/ns/index:v4.5")
     /\ getattr self "add_arches" = Ok (PList [PStr "amd64"])
     /\ getattr self "bundles" = Ok PNone
     /\ getattr self "_attrs"
        = Ok (PList [PStr "_binary_image"; PStr "distribution_scope";
                     PStr "binary_image_config"; PStr "overwrite_from_index_token";
                     PStr "from_index"; PStr "add_arches"; PStr "bundles";
                     PStr "operators"])
     /\ getattr self "binary_image" = Ok (PMethod "binary_image")
     /\ getattr self "__class__" = Ok (PClass RequestConfigAddRm)
     /\ getattr self "target_index" = Raise AttributeError
     /\ hasattr self "__slots__" = true
     /\ hasattr self "__dict__" = false)
  /\ __init__ RequestConfigAddRm [("from_index", PStr "a"); ("self", PInt 1)]
     = Raise TypeError
  /\ __init__ RequestConfigMerge
       [("target_index", PStr "a"); ("__class__", PStr "RequestConfigMerge");
        ("from_index", PStr "b")]
     = Raise TypeError
  /\ __init__ RequestConfigMerge [("target_index", PStr "a"); ("from_index", PStr "b")]
     = Raise AttributeError.
Proof.
  split; [|split; [|split]].
  - destruct (proj1 (proj2 (request_config_init RequestConfigAddRm
                              [("from_index", PStr "quay.io/ns/index:v4.5");
                               ("add_arches", PList [PStr "amd64"])]
                              ltac:(decide_closed))))
      as (self & Hinit & Hcls & Hgiven & Hblank & Hclass & Hhas).
    { intros kv Hkv. apply elem_of_cons in Hkv as [->|Hkv]; [decide_closed|].
      apply list_elem_of_singleton in Hkv as ->. decide_closed. }
    exists self. split; [exact Hinit|]. split; [exact Hcls|].
    split; [apply Hgiven, list_elem_of_here|].
    split; [apply Hgiven, list_elem_of_further, list_elem_of_here|].
    split; [apply Hblank; decide_closed|].
    split; [now rewrite Hclass by decide_closed|].
    split; [now rewrite Hclass by decide_closed|].
    split; [now rewrite Hclass by decide_closed|].
    split; [now rewrite Hclass by decide_closed|].
    split.
    + apply Hhas. right. now eexists.
    + destruct (hasattr self "__dict__") eqn:Hdict; [|reflexivity].
      apply Hhas in Hdict as [Hslot|[v Hv]]; [|discriminate Hv].
      exfalso. revert Hslot. decide_closed.
  - apply (request_config_init RequestConfigAddRm
             [("from_index", PStr "a"); ("self", PInt 1)]); decide_closed.
  - apply (proj2 (proj2 (request_config_init RequestConfigMerge
                           [("target_index", PStr "a");
                            ("__class__", PStr "RequestConfigMerge");
                            ("from_index", PStr "b")] ltac:(decide_closed)))
             [("target_index", PStr "a")] [("from_index", PStr "b")]
             "__class__" (PStr "RequestConfigMerge"));
      [reflexivity|decide_closed| |decide_closed|discriminate].
    intros kv Hkv. apply list_elem_of_singleton in Hkv as ->. decide_closed.
  - apply (proj2 (proj2 (request_config_init RequestConfigMerge
                           [("target_index", PStr "a"); ("from_index", PStr "b")]
                           ltac:(decide_closed)))
             [("target_index", PStr "a")] [] "from_index" (PStr "b"));
      [reflexivity|decide_closed| |decide_closed|discriminate].
    intros kv Hkv. apply list_elem_of_singleton in Hkv as ->. decide_closed.
Defined.

(** The binary image of the sample deployment for [prod] and [v4.6]. *)
Lemma get_binary_image_from_config_table_witness :
  get_binary_image_from_config sample_repr (PStr "v4.6") (PStr "prod")
    (PDict sample_binary_image_config)
  = Ok (PStr "quay.io/ns/image:v1").
Proof.
  apply (get_binary_image_from_config_table sample_repr "v4.6" "prod"
           sample_binary_image_config).
  intros k x Hx. unfold sample_binary_image_config in Hx. cbn in Hx.
  destruct (decide (Some "prod" = k)); [|discriminate Hx].
  injection Hx as <-. eexists. reflexivity.
Defined.

(** The sample request asks for [amd64]; its index image is built for
    [s390x]. *)
Lemma gather_index_image_arches_union_witness :
  match gather_index_image_arches sample_request
          [("from_index",
            {| resolved_from_index := None; ocp_version := PStr "v4.5";
               arches := {[ "s390x" ]};
               resolved_distribution_scope := PStr "prod" |})] with
  | Ok all_arches =>
      all_arches <> ∅
      /\ forall a, a ∈ all_arches <->
           a ∈ ["amd64"]
           \/ exists info,
                info ∈ [("from_index",
                         {| resolved_from_index := None; ocp_version := PStr "v4.5";
                            arches := {[ "s390x" ]};
                            resolved_distribution_scope := PStr "prod" |})]
                /\ a ∈ arches (snd info)
  | Raise e =>
      e = IIBError "No arches were provided to build the index image"
      /\ ["amd64"] = []
      /\ forall info,
           info ∈ [("from_index",
                    {| resolved_from_index := None; ocp_version := PStr "v4.5";
                       arches := {[ "s390x" ]};
                       resolved_distribution_scope := PStr "prod" |})] ->
           arches (snd info) = ∅
  end.
Proof.
  apply (gather_index_image_arches_union sample_request
           [("from_index",
             {| resolved_from_index := None; ocp_version := PStr "v4.5";
                arches := {[ "s390x" ]};
                resolved_distribution_scope := PStr "prod" |})]
           ["amd64"]).
  left. vm_compute. reflexivity.
Defined.

(** The sample image carries the required version and lacks the required
    bundle label. *)
Lemma verify_labels_first_mismatch_witness :
  verify_labels sample_conf sample_json_loads sample_repr sample_splitlines
    sample_re_match_error never_cache
    (PDict [(Some "com.redhat.index.delivery.version", PStr "v4.6");
            (Some "com.redhat.delivery.operator.bundle", PStr "true")])
    ["quay.io/ns/image:v1"; "quay.io/ns/bundle:v1"] sample_world
  = (Raise (IIBError ("The bundle quay.io/ns/image:v1 does not have the label "
                      ++ "com.redhat.delivery.operator.bundle=true")),
     set_spawned 1 sample_world).
Proof.
  apply (verify_labels_first_mismatch sample_conf sample_json_loads sample_repr
           sample_splitlines sample_re_match_error never_cache
           (PDict [(Some "com.redhat.index.delivery.version", PStr "v4.6");
                   (Some "com.redhat.delivery.operator.bundle", PStr "true")])
           "quay.io/ns/image:v1" ["quay.io/ns/bundle:v1"]
           [(Some "com.redhat.index.delivery.version", PStr "v4.6")]
           [(Some "com.redhat.index.delivery.version", PStr "v4.6")] []
           (Some "com.redhat.delivery.operator.bundle") (PStr "true")
           sample_world (set_spawned 1 sample_world));
    try (vm_compute; reflexivity).
  intros entry Hentry. apply list_elem_of_singleton in Hentry as ->. reflexivity.
Defined.

(** The index images of the sample request. *)
Lemma get_all_index_images_info_keys_witness :
  let index_version_map := [("from_index", "v4.5"); ("target_index", "v4.6")] in
  let infos :=
    [("from_index",
      {| resolved_from_index := Some "quay.io/ns/image@sha256:5d41402abc4b2a76";
         ocp_version := PStr "v4.6"; arches := {[ "amd64" ]};
         resolved_distribution_scope := PStr "prod" |});
     ("target_index",
      {| resolved_from_index := None; ocp_version := PStr "v4.6"; arches := ∅;
         resolved_distribution_scope := PStr "prod" |})] in
  get_all_index_images_info sample_conf sample_json_loads sample_json_dumps
    sample_sha256 sample_b64encode sample_registry sample_repr sample_splitlines
    sample_re_match_error never_cache sample_request index_version_map sample_world
  = (Ok infos, set_spawned 5 sample_world)
  /\ template (set_spawned 5 sample_world) = template sample_world
  /\ forall index,
       is_Some (assoc_get index infos) <-> index ∈ map fst index_version_map.
Proof.
  intros index_version_map infos.
  assert (Hrun :
    get_all_index_images_info sample_conf sample_json_loads sample_json_dumps
      sample_sha256 sample_b64encode sample_registry sample_repr sample_splitlines
      sample_re_match_error never_cache sample_request index_version_map
      sample_world
    = (Ok infos, set_spawned 5 sample_world)) by (vm_compute; reflexivity).
  split; [exact Hrun|].
  exact (get_all_index_images_info_keys sample_conf sample_json_loads
           sample_json_dumps sample_sha256 sample_b64encode sample_registry
           sample_repr sample_splitlines sample_re_match_error never_cache
           sample_request index_version_map infos sample_world
           (set_spawned 5 sample_world) Hrun).
Defined.

(** The plan of the sample request. *)
Lemma prepare_request_for_build_plan_witness :
  let plan :=
    {| plan_arches := {[ "amd64" ]};
       plan_binary_image := "quay.io/ns/image:v1";
       plan_binary_image_resolved := "quay.io/ns/image@sha256:5d41402abc4b2a76";
       plan_bundle_mapping := [];
       plan_from_index_resolved := Some "quay.io/ns/image@sha256:5d41402abc4b2a76";
       plan_ocp_version := PStr "v4.6";
       plan_distribution_scope := PStr "prod";
       plan_source_from_index_resolved := None;
       plan_source_ocp_version := PStr "v4.5";
       plan_target_index_resolved := None;
       plan_target_ocp_version := PStr "v4.6" |} in
  prepare_request_for_build sample_conf sample_json_loads sample_json_dumps
    sample_sha256 sample_b64encode sample_registry sample_repr sample_splitlines
    sample_re_match_error never_cache sample_set_request_state 7 sample_request
    sample_world
  = (Ok plan, set_spawned 9 sample_world)
  /\ plan_arches plan <> ∅
  /\ (exists index_info w1 w2 w3 image_arches,
        get_all_index_images_info sample_conf sample_json_loads sample_json_dumps
          sample_sha256 sample_b64encode sample_registry sample_repr
          sample_splitlines sample_re_match_error never_cache sample_request
          [("from_index", "v4.5"); ("source_from_index", "v4.5");
           ("target_index", "v4.6")]
          (snd (sample_set_request_state 7 "in_progress"
                  "Resolving the container images" sample_world))
        = (Ok index_info, w1)
        /\ gather_index_image_arches sample_request index_info
           = Ok (plan_arches plan)
        /\ get_resolved_image sample_conf sample_json_loads sample_sha256
             sample_repr sample_splitlines sample_re_match_error never_cache
             (plan_binary_image plan) w1
           = (Ok (plan_binary_image_resolved plan), w2)
        /\ get_image_arches sample_conf sample_json_loads sample_splitlines
             sample_re_match_error never_cache (plan_binary_image_resolved plan) w2
           = (Ok image_arches, w3)
        /\ plan_arches plan ⊆ image_arches)
  /\ (exists digest,
        plan_binary_image_resolved plan
        = _get_container_image_name (plan_binary_image plan) ++ "@" ++ digest)
  /\ (forall requested,
        getattr sample_request "distribution_scope" = Ok requested ->
        py_truthy requested = true ->
        plan_distribution_scope plan = requested
        /\ exists s, requested = PStr s /\ s ∈ scopes).
Proof.
  intros plan.
  assert (Hrun :
    prepare_request_for_build sample_conf sample_json_loads sample_json_dumps
      sample_sha256 sample_b64encode sample_registry sample_repr sample_splitlines
      sample_re_match_error never_cache sample_set_request_state 7 sample_request
      sample_world
    = (Ok plan, set_spawned 9 sample_world)) by (vm_compute; reflexivity).
  split; [exact Hrun|].
  exact (prepare_request_for_build_plan sample_conf sample_json_loads
           sample_json_dumps sample_sha256 sample_b64encode sample_registry
           sample_repr sample_splitlines sample_re_match_error never_cache
           sample_set_request_state 7 sample_request plan sample_world
           (set_spawned 9 sample_world) Hrun).
Defined.

(** The sample request has no binary image of its own and takes the
    configured one. *)
Lemma binary_image_never_falsy_witness :
  let info :=
    {| resolved_from_index := None; ocp_version := PStr "v4.6"; arches := ∅;
       resolved_distribution_scope := PStr "prod" |} in
  let image := PStr "quay.io/ns/image:v1" in
  binary_image sample_repr sample_request info (PStr "prod") = Ok image
  /\ py_truthy image = true
  /\ exists own,
       getattr sample_request "_binary_image" = Ok own
       /\ (if py_truthy own then image = own
           else exists config,
                  getattr sample_request "binary_image_config" = Ok config
                  /\ get_binary_image_from_config sample_repr (ocp_version info)
                       (PStr "prod") config
                     = Ok image).
Proof.
  intros info image.
  assert (Hrun : binary_image sample_repr sample_request info (PStr "prod") = Ok image)
    by (vm_compute; reflexivity).
  split; [exact Hrun|].
  exact (binary_image_never_falsy sample_repr sample_request info (PStr "prod")
           image Hrun).
Defined.

(** One command in four worlds: the tool is missing; the tool prints a
    manifest with CR LF; the tool prints a byte that is not UTF-8; the
    tool fails. *)
Lemma run_cmd_outcome_witness :
  run_cmd sample_splitlines sample_error_detail ["skopeo"; "inspect"] None no_tool_world
  = (Raise FileNotFoundError, no_tool_world)
  /\ run_cmd sample_splitlines sample_error_detail ["skopeo"; "inspect"; "--raw"] None
       crlf_world
     = (Ok crlf_manifest_text, set_spawned 1 crlf_world)
  /\ run_cmd sample_splitlines sample_error_detail ["skopeo"; "inspect"] None latin1_world
     = (Raise UnicodeDecodeError, set_spawned 1 latin1_world)
  /\ run_cmd sample_splitlines sample_error_detail ["podman"; "pull"] None opm_world
     = (Raise (IIBError "An unexpected error occurred"), set_spawned 1 opm_world).
Proof.
  split; [|split; [|split]].
  - exact (run_cmd_outcome sample_splitlines sample_error_detail
             "skopeo" ["inspect"] None no_tool_world).
  - destruct (run_cmd_outcome sample_splitlines sample_error_detail
                "skopeo" ["inspect"; "--raw"] None crlf_world
              : _ /\ (_ /\ _ /\ _)) as [Hstate (Hok & _ & _)].
    apply injective_projections; [exact (Hok eq_refl)|exact Hstate].
  - destruct (run_cmd_outcome sample_splitlines sample_error_detail
                "skopeo" ["inspect"] None latin1_world
              : _ /\ _) as [Hstate Hraise].
    apply injective_projections; [exact Hraise|exact Hstate].
  - destruct (run_cmd_outcome sample_splitlines sample_error_detail
                "podman" ["pull"] None opm_world
              : _ /\ (_ /\ _ /\ _)) as [Hstate (_ & _ & Hfail)].
    apply injective_projections; [|exact Hstate].
    apply Hfail; discriminate.
Defined.

(** A pull that fails at each of the three attempts, and a pull on a
    worker without the tool. *)
Lemma podman_pull_effects_witness :
  let failed :=
    podman_pull sample_conf sample_splitlines sample_error_detail
      ["quay.io/ns/image:v1"; "quay.io/ns/bundle:v1"] opm_world in
  let missing :=
    podman_pull sample_conf sample_splitlines sample_error_detail
      ["quay.io/ns/image:v1"] no_tool_world in
  failed
  = (Raise (IIBError ("Failed to pull the container image "
                      ++ "quay.io/ns/image:v1 quay.io/ns/bundle:v1")),
     set_spawned 3 opm_world)
  /\ missing = (Raise FileNotFoundError, no_tool_world)
  /\ only_spawns 3 opm_world (snd failed)
  /\ region (snd failed) = region opm_world
  /\ (spawned opm_world < spawned (snd failed))%nat
  /\ only_spawns 3 no_tool_world (snd missing).
Proof.
  intros failed missing.
  destruct (podman_pull_effects sample_conf sample_splitlines sample_error_detail
              ["quay.io/ns/image:v1"; "quay.io/ns/bundle:v1"] opm_world)
    as (Hspawns & Hregion & Herrors & Hstarted).
  destruct (podman_pull_effects sample_conf sample_splitlines sample_error_detail
              ["quay.io/ns/image:v1"] no_tool_world)
    as (Hspawns' & _ & _ & _).
  assert (Hfailed : failed
    = (Raise (IIBError ("Failed to pull the container image "
                        ++ "quay.io/ns/image:v1 quay.io/ns/bundle:v1")),
       set_spawned 3 opm_world)) by (vm_compute; reflexivity).
  assert (Hmissing : missing = (Raise FileNotFoundError, no_tool_world))
    by (vm_compute; reflexivity).
  split; [exact Hfailed|]. split; [exact Hmissing|].
  split; [exact Hspawns|]. split; [exact Hregion|]. split; [|exact Hspawns'].
  apply Hstarted. intros le. fold failed. rewrite Hfailed. cbn [fst].
  destruct le; discriminate.
Defined.

(** The reset on a worker without the directory [~/.docker] whose template
    is elsewhere, and on a worker with a plain file and no template. *)
Lemma reset_docker_config_idempotent_witness :
  reset_docker_config elsewhere_conf no_directory_world
  = (Raise FileNotFoundError, no_directory_world)
  /\ fst (reset_docker_config sample_conf plain_file_world) = Ok tt
  /\ (reset_docker_config sample_conf ;;; reset_docker_config sample_conf)
       plain_file_world
     = reset_docker_config sample_conf plain_file_world.
Proof.
  split; [|split].
  - apply (proj1 (reset_docker_config_idempotent elsewhere_conf no_directory_world)).
    split; [reflexivity|]. now exists "{}".
  - apply (proj1 (proj2 (reset_docker_config_idempotent sample_conf plain_file_world))).
    intros [Hnode _]. discriminate Hnode.
  - apply (proj2 (proj2 (reset_docker_config_idempotent sample_conf plain_file_world))).
Defined.

(** A deprecation that [opm] refuses, under a token: one process has run,
    the error names the refusal, and the Docker configuration is the link
    to the template again. *)
Lemma deprecate_bundles_effects_witness :
  let run :=
    deprecate_bundles sample_conf sample_json_loads sample_json_dumps
      sample_b64encode sample_registry sample_splitlines sample_error_detail
      ["quay.io/ns/bundle:v1"] "/tmp/iib" "quay.io/ns/image:v1"
      "quay.io/ns/index:v4.5" (Some "user:password") None opm_world in
  fst run
  = Raise (IIBError ("Failed to deprecate the bundles: "
                     ++ "bundle quay.io/ns/bundle:v1 is not in the index"))
  /\ template (snd run) = Some "{}"
  /\ docker_config (snd run) = Symlink "/home/iib/.docker/config.json.template"
  /\ (0 <= spawned (snd run) <= 1)%nat
  /\ ((exists msg,
         IIBError ("Failed to deprecate the bundles: "
                   ++ "bundle quay.io/ns/bundle:v1 is not in the index")
         = IIBError msg)
      \/ IIBError ("Failed to deprecate the bundles: "
                   ++ "bundle quay.io/ns/bundle:v1 is not in the index")
         = UnicodeDecodeError).
Proof.
  intros run.
  destruct (deprecate_bundles_effects sample_conf sample_json_loads sample_json_dumps
              sample_b64encode sample_registry sample_splitlines sample_error_detail
              ["quay.io/ns/bundle:v1"] "/tmp/iib" "quay.io/ns/image:v1"
              "quay.io/ns/index:v4.5" (Some "user:password") None opm_world)
    as (Htemplate & Hconfig & Hspawned & Herrors).
  assert (Hrun : fst run
    = Raise (IIBError ("Failed to deprecate the bundles: "
                       ++ "bundle quay.io/ns/bundle:v1 is not in the index")))
    by (vm_compute; reflexivity).
  split; [exact Hrun|]. split; [exact Htemplate|]. split; [exact Hconfig|].
  split; [exact Hspawned|].
  apply Herrors; [exact Hrun|]. vm_compute. reflexivity.
Defined.
